(** * PCIe audio driver: streaming core

    A shallow embedding of the streaming core of the [pcie-audio] ALSA
    driver (descriptor ring, PCM callbacks, interrupt handler, hardware
    bring-up and the Format control), with the properties of its
    specification stated over that embedding.

    Conventions.
    - C unsigned integers are [Z] with the wrap-around written out
      ([u32], [u64], [ulong_inc]).
    - The mapped register window [reg_base] is a finite map from register
      offsets to 32-bit values; [pcie_audio_read] and [pcie_audio_write]
      are the only accesses to it.
    - Calls that leave the driver (register writes, DMA allocation and
      release, framework notifications, sleeps, warnings) are appended to
      the [trace] of the chip, in program order.
    - A nullable pointer is an [option]; dereferencing NULL is the only
      fault and makes an operation return [None]. *)

From Stdlib Require Import ZArith List Lia Bool.
From stdpp Require Import base option list gmap.
Import ListNotations.
Local Open Scope Z_scope.

(** ** Machine integers *)

Definition u32 (x : Z) : Z := x mod 2 ^ 32.
Definition u64 (x : Z) : Z := x mod 2 ^ 64.

(** [x++] on an [unsigned long] (64-bit kernel). *)
Definition ULONG_MAX : Z := 2 ^ 64 - 1.
Definition ulong_inc (x : Z) : Z := (x + 1) mod 2 ^ 64.

(** ** pcie-audio.h: capabilities and register map *)

Definition MAX_CHANNELS : Z := 8.
Definition MAX_BUFFER_SIZE : Z := 256 * 1024.
Definition MIN_PERIOD_SIZE : Z := 1024.
Definition MAX_PERIOD_SIZE : Z := 32 * 1024.
Definition MIN_PERIODS : Z := 2.
Definition MAX_PERIODS : Z := 32.
Definition DMA_DESC_COUNT : Z := 32.
Definition MAX_DSD_RATE : Z := 44100 * 128.

Definition REG_CTRL_FORMAT : Z := 0x000.
Definition REG_CTRL_SAMPLE_FAMILY : Z := 0x004.
Definition REG_CTRL_PB_ENABLE : Z := 0x018.
Definition REG_CTRL_CAP_ENABLE : Z := 0x01C.
Definition REG_CTRL_RESET : Z := 0x020.
Definition REG_CTRL_TARGET_RATE : Z := 0x034.
Definition REG_CTRL_SYNC_TIMEOUT : Z := 0x058.

Definition REG_DMA_PB_DESC_BASE : Z := 0x100.
Definition REG_DMA_PB_DESC_COUNT : Z := 0x108.
Definition REG_DMA_PB_SIZE : Z := 0x110.
Definition REG_DMA_PB_IRQ_EN : Z := 0x114.
Definition REG_DMA_PB_THRESHOLD : Z := 0x118.

Definition REG_DMA_CAP_DESC_BASE : Z := 0x200.
Definition REG_DMA_CAP_DESC_COUNT : Z := 0x208.
Definition REG_DMA_CAP_SIZE : Z := 0x210.
Definition REG_DMA_CAP_IRQ_EN : Z := 0x214.
Definition REG_DMA_CAP_THRESHOLD : Z := 0x218.

Definition REG_STATUS_LOCKED : Z := 0x300.
Definition REG_STATUS_PB_UNDERRUN : Z := 0x30C.
Definition REG_STATUS_CAP_OVERRUN : Z := 0x310.
Definition REG_STATUS_DMA_ERROR : Z := 0x314.
Definition REG_STATUS_FORMAT_ERROR : Z := 0x318.

(** Descriptor flags; [sizeof(struct pcie_audio_dma_desc)] is 24 because
    the struct is packed (8 + 4 + 4 + 8). *)
Definition DESC_FLAG_INT : Z := Z.shiftl 1 0.
Definition DESC_FLAG_LAST : Z := Z.shiftl 1 1.
Definition DESC_FLAG_WRAP : Z := Z.shiftl 1 2.
Definition DESC_FLAG_OWNED : Z := Z.shiftl 1 31.
Definition sizeof_desc : Z := 24.

(** Kernel error numbers and interrupt return codes. *)
Definition ENOMEM : Z := 12.
Definition EINVAL : Z := 22.
Definition EBUSY : Z := 16.

Inductive irqreturn_t : Type := IRQ_NONE | IRQ_HANDLED.

(** [SNDRV_PCM_STREAM_*] and [SNDRV_PCM_TRIGGER_*]. *)
Inductive direction : Type := SNDRV_PCM_STREAM_PLAYBACK | SNDRV_PCM_STREAM_CAPTURE.

Definition SNDRV_PCM_TRIGGER_STOP : Z := 0.
Definition SNDRV_PCM_TRIGGER_START : Z := 1.
Definition SNDRV_PCM_TRIGGER_PAUSE_PUSH : Z := 3.
Definition SNDRV_PCM_TRIGGER_PAUSE_RELEASE : Z := 4.
Definition SNDRV_PCM_TRIGGER_SUSPEND : Z := 5.
Definition SNDRV_PCM_TRIGGER_RESUME : Z := 6.

#[global] Instance direction_eq_dec : EqDecision direction.
Proof. solve_decision. Defined.

(** ** Framework objects seen by the driver

    A [substream_ptr] is the address of a [struct snd_pcm_substream]; the
    framework's memory [pcm_mem] gives the object behind each address the
    framework hands out.  Of the runtime only the fields the driver reads
    are kept; [rt_period_bytes] stands for
    [frames_to_bytes(runtime, runtime->period_size)]. *)

Definition substream_ptr : Type := nat.

Record snd_pcm_runtime : Type := {
  rt_dma_addr : Z;
  rt_dma_bytes : Z;
  rt_period_bytes : Z;
  rt_periods : Z
}.

Record snd_pcm_substream : Type := {
  ss_stream : direction;
  ss_runtime : snd_pcm_runtime
}.

Definition pcm_mem : Type := substream_ptr -> snd_pcm_substream.

(** The accessors of [struct snd_pcm_hw_params] the driver calls. *)
Record snd_pcm_hw_params : Type := {
  params_channels : Z;
  params_rate : Z;
  params_format : Z;
  params_physical_width : Z;
  params_buffer_bytes : Z
}.

(** ** Driver data *)

Record pcie_audio_dma_desc : Type := {
  address : Z;
  length : Z;
  flags : Z;
  next : Z
}.

Record pcie_audio_stream : Type := {
  substream : option substream_ptr;
  desc : option (list pcie_audio_dma_desc);
  desc_dma : Z;
  desc_count : Z;
  current_desc : Z;
  period_size : Z;
  buffer_size : Z;
  periods : Z;
  interrupts : Z;
  errors : Z;
  last_interrupt : Z;
  latency : Z;
  hw_ptr : Z;
  prev_hw_ptr : Z;
  channels : Z;
  rate : Z;
  format : Z;
  is_dsd : bool
}.

Record pcie_audio_stats : Type := {
  pb_underruns : Z;
  cap_overruns : Z;
  clock_unlocks : Z;
  dma_errors : Z;
  start_time : Z
}.

(** Everything that crosses the driver boundary. *)
Inductive event : Type :=
| EvWrite (reg val : Z)                       (* writel *)
| EvDmaAlloc (d : direction) (size : Z)       (* dma_alloc_coherent *)
| EvDmaFree (d : direction) (size dma : Z)    (* dma_free_coherent *)
| EvMallocPages (p : substream_ptr) (size : Z) (* snd_pcm_lib_malloc_pages *)
| EvFreePages (p : substream_ptr)             (* snd_pcm_lib_free_pages *)
| EvSetHw (p : substream_ptr)                 (* runtime->hw = pcie_audio_hw *)
| EvStopXrun (d : direction) (p : substream_ptr)
    (* snd_pcm_stop_xrun(chip->playback.substream), or capture *)
| EvPeriodElapsed (d : direction) (p : substream_ptr)
    (* snd_pcm_period_elapsed(chip->playback.substream), or capture *)
| EvSleep (ms : Z)                            (* msleep *)
| EvWarn.                                     (* dev_warn *)

Record pcie_audio : Type := {
  reg_base : gmap Z Z;
  playback : pcie_audio_stream;
  capture : pcie_audio_stream;
  stats : pcie_audio_stats;
  trace : list event
}.

(** ** Field updates

    [set_f v s] is [s] after the assignment [s->f = v]. *)

Definition set_substream v (s : pcie_audio_stream) : pcie_audio_stream :=
  {| substream := v; desc := desc s; desc_dma := desc_dma s;
     desc_count := desc_count s; current_desc := current_desc s;
     period_size := period_size s; buffer_size := buffer_size s;
     periods := periods s; interrupts := interrupts s; errors := errors s;
     last_interrupt := last_interrupt s; latency := latency s;
     hw_ptr := hw_ptr s; prev_hw_ptr := prev_hw_ptr s;
     channels := channels s; rate := rate s; format := format s;
     is_dsd := is_dsd s |}.

Definition set_desc v (s : pcie_audio_stream) : pcie_audio_stream :=
  {| substream := substream s; desc := v; desc_dma := desc_dma s;
     desc_count := desc_count s; current_desc := current_desc s;
     period_size := period_size s; buffer_size := buffer_size s;
     periods := periods s; interrupts := interrupts s; errors := errors s;
     last_interrupt := last_interrupt s; latency := latency s;
     hw_ptr := hw_ptr s; prev_hw_ptr := prev_hw_ptr s;
     channels := channels s; rate := rate s; format := format s;
     is_dsd := is_dsd s |}.

Definition set_desc_dma v (s : pcie_audio_stream) : pcie_audio_stream :=
  {| substream := substream s; desc := desc s; desc_dma := v;
     desc_count := desc_count s; current_desc := current_desc s;
     period_size := period_size s; buffer_size := buffer_size s;
     periods := periods s; interrupts := interrupts s; errors := errors s;
     last_interrupt := last_interrupt s; latency := latency s;
     hw_ptr := hw_ptr s; prev_hw_ptr := prev_hw_ptr s;
     channels := channels s; rate := rate s; format := format s;
     is_dsd := is_dsd s |}.

Definition set_desc_count v (s : pcie_audio_stream) : pcie_audio_stream :=
  {| substream := substream s; desc := desc s; desc_dma := desc_dma s;
     desc_count := v; current_desc := current_desc s;
     period_size := period_size s; buffer_size := buffer_size s;
     periods := periods s; interrupts := interrupts s; errors := errors s;
     last_interrupt := last_interrupt s; latency := latency s;
     hw_ptr := hw_ptr s; prev_hw_ptr := prev_hw_ptr s;
     channels := channels s; rate := rate s; format := format s;
     is_dsd := is_dsd s |}.

Definition set_current_desc v (s : pcie_audio_stream) : pcie_audio_stream :=
  {| substream := substream s; desc := desc s; desc_dma := desc_dma s;
     desc_count := desc_count s; current_desc := v;
     period_size := period_size s; buffer_size := buffer_size s;
     periods := periods s; interrupts := interrupts s; errors := errors s;
     last_interrupt := last_interrupt s; latency := latency s;
     hw_ptr := hw_ptr s; prev_hw_ptr := prev_hw_ptr s;
     channels := channels s; rate := rate s; format := format s;
     is_dsd := is_dsd s |}.

Definition set_period_size v (s : pcie_audio_stream) : pcie_audio_stream :=
  {| substream := substream s; desc := desc s; desc_dma := desc_dma s;
     desc_count := desc_count s; current_desc := current_desc s;
     period_size := v; buffer_size := buffer_size s; periods := periods s;
     interrupts := interrupts s; errors := errors s;
     last_interrupt := last_interrupt s; latency := latency s;
     hw_ptr := hw_ptr s; prev_hw_ptr := prev_hw_ptr s;
     channels := channels s; rate := rate s; format := format s;
     is_dsd := is_dsd s |}.

Definition set_buffer_size v (s : pcie_audio_stream) : pcie_audio_stream :=
  {| substream := substream s; desc := desc s; desc_dma := desc_dma s;
     desc_count := desc_count s; current_desc := current_desc s;
     period_size := period_size s; buffer_size := v; periods := periods s;
     interrupts := interrupts s; errors := errors s;
     last_interrupt := last_interrupt s; latency := latency s;
     hw_ptr := hw_ptr s; prev_hw_ptr := prev_hw_ptr s;
     channels := channels s; rate := rate s; format := format s;
     is_dsd := is_dsd s |}.

Definition set_periods v (s : pcie_audio_stream) : pcie_audio_stream :=
  {| substream := substream s; desc := desc s; desc_dma := desc_dma s;
     desc_count := desc_count s; current_desc := current_desc s;
     period_size := period_size s; buffer_size := buffer_size s;
     periods := v; interrupts := interrupts s; errors := errors s;
     last_interrupt := last_interrupt s; latency := latency s;
     hw_ptr := hw_ptr s; prev_hw_ptr := prev_hw_ptr s;
     channels := channels s; rate := rate s; format := format s;
     is_dsd := is_dsd s |}.

Definition set_interrupts v (s : pcie_audio_stream) : pcie_audio_stream :=
  {| substream := substream s; desc := desc s; desc_dma := desc_dma s;
     desc_count := desc_count s; current_desc := current_desc s;
     period_size := period_size s; buffer_size := buffer_size s;
     periods := periods s; interrupts := v; errors := errors s;
     last_interrupt := last_interrupt s; latency := latency s;
     hw_ptr := hw_ptr s; prev_hw_ptr := prev_hw_ptr s;
     channels := channels s; rate := rate s; format := format s;
     is_dsd := is_dsd s |}.

Definition set_errors v (s : pcie_audio_stream) : pcie_audio_stream :=
  {| substream := substream s; desc := desc s; desc_dma := desc_dma s;
     desc_count := desc_count s; current_desc := current_desc s;
     period_size := period_size s; buffer_size := buffer_size s;
     periods := periods s; interrupts := interrupts s; errors := v;
     last_interrupt := last_interrupt s; latency := latency s;
     hw_ptr := hw_ptr s; prev_hw_ptr := prev_hw_ptr s;
     channels := channels s; rate := rate s; format := format s;
     is_dsd := is_dsd s |}.

Definition set_last_interrupt v (s : pcie_audio_stream) : pcie_audio_stream :=
  {| substream := substream s; desc := desc s; desc_dma := desc_dma s;
     desc_count := desc_count s; current_desc := current_desc s;
     period_size := period_size s; buffer_size := buffer_size s;
     periods := periods s; interrupts := interrupts s; errors := errors s;
     last_interrupt := v; latency := latency s; hw_ptr := hw_ptr s;
     prev_hw_ptr := prev_hw_ptr s; channels := channels s; rate := rate s;
     format := format s; is_dsd := is_dsd s |}.

Definition set_latency v (s : pcie_audio_stream) : pcie_audio_stream :=
  {| substream := substream s; desc := desc s; desc_dma := desc_dma s;
     desc_count := desc_count s; current_desc := current_desc s;
     period_size := period_size s; buffer_size := buffer_size s;
     periods := periods s; interrupts := interrupts s; errors := errors s;
     last_interrupt := last_interrupt s; latency := v; hw_ptr := hw_ptr s;
     prev_hw_ptr := prev_hw_ptr s; channels := channels s; rate := rate s;
     format := format s; is_dsd := is_dsd s |}.

Definition set_hw_ptr v (s : pcie_audio_stream) : pcie_audio_stream :=
  {| substream := substream s; desc := desc s; desc_dma := desc_dma s;
     desc_count := desc_count s; current_desc := current_desc s;
     period_size := period_size s; buffer_size := buffer_size s;
     periods := periods s; interrupts := interrupts s; errors := errors s;
     last_interrupt := last_interrupt s; latency := latency s; hw_ptr := v;
     prev_hw_ptr := prev_hw_ptr s; channels := channels s; rate := rate s;
     format := format s; is_dsd := is_dsd s |}.

Definition set_prev_hw_ptr v (s : pcie_audio_stream) : pcie_audio_stream :=
  {| substream := substream s; desc := desc s; desc_dma := desc_dma s;
     desc_count := desc_count s; current_desc := current_desc s;
     period_size := period_size s; buffer_size := buffer_size s;
     periods := periods s; interrupts := interrupts s; errors := errors s;
     last_interrupt := last_interrupt s; latency := latency s;
     hw_ptr := hw_ptr s; prev_hw_ptr := v; channels := channels s;
     rate := rate s; format := format s; is_dsd := is_dsd s |}.

Definition set_channels v (s : pcie_audio_stream) : pcie_audio_stream :=
  {| substream := substream s; desc := desc s; desc_dma := desc_dma s;
     desc_count := desc_count s; current_desc := current_desc s;
     period_size := period_size s; buffer_size := buffer_size s;
     periods := periods s; interrupts := interrupts s; errors := errors s;
     last_interrupt := last_interrupt s; latency := latency s;
     hw_ptr := hw_ptr s; prev_hw_ptr := prev_hw_ptr s; channels := v;
     rate := rate s; format := format s; is_dsd := is_dsd s |}.

Definition set_rate v (s : pcie_audio_stream) : pcie_audio_stream :=
  {| substream := substream s; desc := desc s; desc_dma := desc_dma s;
     desc_count := desc_count s; current_desc := current_desc s;
     period_size := period_size s; buffer_size := buffer_size s;
     periods := periods s; interrupts := interrupts s; errors := errors s;
     last_interrupt := last_interrupt s; latency := latency s;
     hw_ptr := hw_ptr s; prev_hw_ptr := prev_hw_ptr s;
     channels := channels s; rate := v; format := format s;
     is_dsd := is_dsd s |}.

Definition set_format v (s : pcie_audio_stream) : pcie_audio_stream :=
  {| substream := substream s; desc := desc s; desc_dma := desc_dma s;
     desc_count := desc_count s; current_desc := current_desc s;
     period_size := period_size s; buffer_size := buffer_size s;
     periods := periods s; interrupts := interrupts s; errors := errors s;
     last_interrupt := last_interrupt s; latency := latency s;
     hw_ptr := hw_ptr s; prev_hw_ptr := prev_hw_ptr s;
     channels := channels s; rate := rate s; format := v;
     is_dsd := is_dsd s |}.

Definition set_stats (v : pcie_audio_stats) (chip : pcie_audio) : pcie_audio :=
  {| reg_base := reg_base chip; playback := playback chip;
     capture := capture chip; stats := v; trace := trace chip |}.

Definition set_pb_underruns v (st : pcie_audio_stats) : pcie_audio_stats :=
  {| pb_underruns := v; cap_overruns := cap_overruns st;
     clock_unlocks := clock_unlocks st; dma_errors := dma_errors st;
     start_time := start_time st |}.

Definition set_cap_overruns v (st : pcie_audio_stats) : pcie_audio_stats :=
  {| pb_underruns := pb_underruns st; cap_overruns := v;
     clock_unlocks := clock_unlocks st; dma_errors := dma_errors st;
     start_time := start_time st |}.

Definition set_dma_errors v (st : pcie_audio_stats) : pcie_audio_stats :=
  {| pb_underruns := pb_underruns st; cap_overruns := cap_overruns st;
     clock_unlocks := clock_unlocks st; dma_errors := v;
     start_time := start_time st |}.

(** [stream_of d chip] is [chip->playback] or [chip->capture], the object
    the C code reaches through its [stream] pointer; [upd_stream] writes
    through that pointer. *)
Definition stream_of (d : direction) (chip : pcie_audio) : pcie_audio_stream :=
  match d with
  | SNDRV_PCM_STREAM_PLAYBACK => playback chip
  | SNDRV_PCM_STREAM_CAPTURE => capture chip
  end.

Definition upd_stream (d : direction)
    (f : pcie_audio_stream -> pcie_audio_stream) (chip : pcie_audio) : pcie_audio :=
  match d with
  | SNDRV_PCM_STREAM_PLAYBACK =>
      {| reg_base := reg_base chip; playback := f (playback chip);
         capture := capture chip; stats := stats chip; trace := trace chip |}
  | SNDRV_PCM_STREAM_CAPTURE =>
      {| reg_base := reg_base chip; playback := playback chip;
         capture := f (capture chip); stats := stats chip; trace := trace chip |}
  end.

Definition emit (e : event) (chip : pcie_audio) : pcie_audio :=
  {| reg_base := reg_base chip; playback := playback chip;
     capture := capture chip; stats := stats chip;
     trace := trace chip ++ [e] |}.

(** ** Register interface (pcie-audio-hw.c)

    The device behind the window: a control register holds the last value
    written to it, the latched status registers are write-one-to-clear,
    and a register nobody has written reads 0. *)

Definition is_w1c (reg : Z) : bool :=
  (reg =? REG_STATUS_PB_UNDERRUN) || (reg =? REG_STATUS_CAP_OVERRUN)
  || (reg =? REG_STATUS_DMA_ERROR) || (reg =? REG_STATUS_FORMAT_ERROR).

Definition readl (io : gmap Z Z) (reg : Z) : Z :=
  u32 (default 0 (io !! reg)).

Definition writel (val reg : Z) (io : gmap Z Z) : gmap Z Z :=
  if is_w1c reg then <[reg := Z.land (readl io reg) (Z.lnot val)]> io
  else <[reg := val]> io.

Definition pcie_audio_read (chip : pcie_audio) (reg : Z) : Z :=
  readl (reg_base chip) reg.

Definition pcie_audio_write (reg val : Z) (chip : pcie_audio) : pcie_audio :=
  {| reg_base := writel (u32 val) reg (reg_base chip);
     playback := playback chip; capture := capture chip;
     stats := stats chip;
     trace := trace chip ++ [EvWrite reg (u32 val)] |}.

(** ** Descriptor ring (pcie-audio-pcm.c, [setup_dma_descriptors]) *)

(** Memory as [dma_alloc_coherent] returns it. *)
Definition zero_desc : pcie_audio_dma_desc :=
  {| address := 0; length := 0; flags := 0; next := 0 |}.

(** The body of the initialisation loop for index [i]: the value left in
    [stream->desc[i]]. *)
Definition init_desc (buf period_bytes ring_dma count i : Z) : pcie_audio_dma_desc :=
  let fl := if i mod 2 =? 1 then DESC_FLAG_INT else 0 in
  {| address := u64 (buf + u64 (i * period_bytes));
     length := u32 period_bytes;
     flags := if i =? u32 (count - 1) then Z.lor fl DESC_FLAG_WRAP else fl;
     next := u64 (ring_dma + u64 (u32 (i + 1) mod count * sizeof_desc)) |}.

(** [for (i = ...; i < desc_count; i++) stream->desc[i] = ...], with [n]
    iterations left. *)
Fixpoint init_ring (f : Z -> pcie_audio_dma_desc) (n i : nat)
    (ring : list pcie_audio_dma_desc) : list pcie_audio_dma_desc :=
  match n with
  | O => ring
  | S n' => init_ring f n' (S i) (<[i := f (Z.of_nat i)]> ring)
  end.

(** [if (stream->desc) dma_free_coherent(...)], the head of
    [setup_dma_descriptors]. *)
Definition free_existing (d : direction) (chip : pcie_audio) : pcie_audio :=
  match desc (stream_of d chip) with
  | Some _ =>
      emit (EvDmaFree d (u64 (desc_count (stream_of d chip) * sizeof_desc))
              (desc_dma (stream_of d chip))) chip
  | None => chip
  end.

Definition setup_dma_descriptors (mem : pcm_mem) (ring_alloc : option Z)
    (d : direction) (chip : pcie_audio) : option (Z * pcie_audio) :=
  let stream := stream_of d chip in
  match substream stream with
  | None => None
  | Some p =>
      let runtime := ss_runtime (mem p) in
      let buf := rt_dma_addr runtime in
      let period_bytes := rt_period_bytes runtime in
      (* Free existing descriptors if any *)
      let chip := free_existing d chip in
      (* Allocate descriptor ring *)
      let chip := upd_stream d (set_desc_count DMA_DESC_COUNT) chip in
      let count := desc_count (stream_of d chip) in
      let chip := emit (EvDmaAlloc d (u64 (count * sizeof_desc))) chip in
      match ring_alloc with
      | None => Some (- ENOMEM, upd_stream d (set_desc None) chip)
      | Some dma =>
          (* Initialize descriptors *)
          let ring :=
            init_ring (init_desc buf period_bytes dma count)
              (Z.to_nat count) 0 (replicate (Z.to_nat count) zero_desc) in
          let chip :=
            upd_stream d (fun s => set_desc_dma dma (set_desc (Some ring) s))
              chip in
          let chip :=
            upd_stream d
              (fun s =>
                 set_current_desc 0
                   (set_periods (rt_periods runtime)
                      (set_buffer_size (rt_dma_bytes runtime)
                         (set_period_size period_bytes s)))) chip in
          Some (0, chip)
      end
  end.

(** The ring a successful [setup_dma_descriptors] builds: one descriptor
    per index below [DMA_DESC_COUNT]. *)
Definition built_ring (buf period_bytes dma : Z) : list pcie_audio_dma_desc :=
  (fun k => init_desc buf period_bytes dma DMA_DESC_COUNT (Z.of_nat k))
    <$> seq 0 (Z.to_nat DMA_DESC_COUNT).

(** ** PCM callbacks (pcie-audio-pcm.c) *)

Definition pcie_audio_pcm_open (mem : pcm_mem) (now : Z) (ssp : substream_ptr)
    (chip : pcie_audio) : Z * pcie_audio :=
  let d := ss_stream (mem ssp) in
  let chip := upd_stream d (set_substream (Some ssp)) chip in
  let chip := emit (EvSetHw ssp) chip in
  let chip :=
    upd_stream d
      (fun s =>
         set_latency 0 (set_errors 0 (set_interrupts 0 (set_last_interrupt now s))))
      chip in
  (0, chip).

Definition pcie_audio_pcm_close (mem : pcm_mem) (ssp : substream_ptr)
    (chip : pcie_audio) : Z * pcie_audio :=
  let d := ss_stream (mem ssp) in
  let stream := stream_of d chip in
  let chip :=
    match desc stream with
    | Some _ =>
        let chip :=
          emit (EvDmaFree d (u64 (desc_count stream * sizeof_desc))
                  (desc_dma stream)) chip in
        upd_stream d (set_desc None) chip
    | None => chip
    end in
  (0, upd_stream d (set_substream None) chip).

(** [malloc_pages] is the value [snd_pcm_lib_malloc_pages] returns and
    [ring_alloc] the bus address [dma_alloc_coherent] hands back ([None]
    when it fails); [mem] is the framework's memory once the buffer
    allocation has returned. *)
Definition pcie_audio_hw_params (mem : pcm_mem) (malloc_pages : Z)
    (ring_alloc : option Z) (ssp : substream_ptr) (params : snd_pcm_hw_params)
    (chip : pcie_audio) : option (Z * pcie_audio) :=
  let d := ss_stream (mem ssp) in
  (* Allocate DMA buffer *)
  let chip := emit (EvMallocPages ssp (params_buffer_bytes params)) chip in
  if malloc_pages <? 0 then Some (malloc_pages, chip) else
  (* Setup DMA descriptors *)
  match setup_dma_descriptors mem ring_alloc d chip with
  | None => None
  | Some (err, chip) =>
      if err <? 0 then Some (err, emit (EvFreePages ssp) chip) else
      (* Configure hardware parameters *)
      let chip :=
        upd_stream d
          (fun s =>
             set_format (params_format params)
               (set_rate (params_rate params)
                  (set_channels (params_channels params) s))) chip in
      let stream := stream_of d chip in
      (* Setup hardware registers *)
      let chip :=
        match d with
        | SNDRV_PCM_STREAM_PLAYBACK =>
            let chip := pcie_audio_write REG_DMA_PB_DESC_BASE (desc_dma stream) chip in
            let chip := pcie_audio_write REG_DMA_PB_DESC_COUNT (desc_count stream) chip in
            let chip := pcie_audio_write REG_DMA_PB_SIZE (period_size stream) chip in
            pcie_audio_write REG_DMA_PB_THRESHOLD (period_size stream / 2) chip
        | SNDRV_PCM_STREAM_CAPTURE =>
            let chip := pcie_audio_write REG_DMA_CAP_DESC_BASE (desc_dma stream) chip in
            let chip := pcie_audio_write REG_DMA_CAP_DESC_COUNT (desc_count stream) chip in
            let chip := pcie_audio_write REG_DMA_CAP_SIZE (period_size stream) chip in
            pcie_audio_write REG_DMA_CAP_THRESHOLD (period_size stream / 2) chip
        end in
      (* Configure format *)
      let format_ctrl := 0 in
      let format_ctrl :=
        Z.lor format_ctrl (u32 (Z.shiftl (params_physical_width params) 8)) in
      let format_ctrl := Z.lor format_ctrl (u32 (channels stream - 1)) in
      let chip := pcie_audio_write REG_CTRL_FORMAT format_ctrl chip in
      (* Configure sample rate *)
      let rate_ctrl := if rate stream mod 44100 =? 0 then 0 else Z.shiftl 1 31 in
      let base_rate := if rate_ctrl =? 0 then 44100 else 48000 in
      let multi := rate stream / base_rate in
      let rate_ctrl := Z.lor rate_ctrl (u32 (Z.shiftl (u32 (multi - 1)) 8)) in
      let chip := pcie_audio_write REG_CTRL_SAMPLE_FAMILY rate_ctrl chip in
      let chip := pcie_audio_write REG_CTRL_TARGET_RATE (rate stream) chip in
      Some (0, chip)
  end.

Definition pcie_audio_hw_free (ssp : substream_ptr) (chip : pcie_audio)
  : pcie_audio :=
  emit (EvFreePages ssp) chip.

Definition pcie_audio_prepare (mem : pcm_mem) (ssp : substream_ptr)
    (chip : pcie_audio) : Z * pcie_audio :=
  let d := ss_stream (mem ssp) in
  let chip :=
    upd_stream d
      (fun s => set_prev_hw_ptr 0 (set_hw_ptr 0 (set_current_desc 0 s))) chip in
  (* Clear status and reset DMA *)
  let chip :=
    match d with
    | SNDRV_PCM_STREAM_PLAYBACK =>
        let chip := pcie_audio_write REG_CTRL_PB_ENABLE 0 chip in
        let chip := pcie_audio_write REG_DMA_PB_IRQ_EN 0 chip in
        pcie_audio_write REG_STATUS_PB_UNDERRUN 0xFFFFFFFF chip
    | SNDRV_PCM_STREAM_CAPTURE =>
        let chip := pcie_audio_write REG_CTRL_CAP_ENABLE 0 chip in
        let chip := pcie_audio_write REG_DMA_CAP_IRQ_EN 0 chip in
        pcie_audio_write REG_STATUS_CAP_OVERRUN 0xFFFFFFFF chip
    end in
  (0, chip).

Definition pcie_audio_trigger (mem : pcm_mem) (now : Z) (ssp : substream_ptr)
    (cmd : Z) (chip : pcie_audio) : Z * pcie_audio :=
  let d := ss_stream (mem ssp) in
  if (cmd =? SNDRV_PCM_TRIGGER_START) || (cmd =? SNDRV_PCM_TRIGGER_RESUME) then
    let chip :=
      match d with
      | SNDRV_PCM_STREAM_PLAYBACK =>
          let chip := pcie_audio_write REG_DMA_PB_IRQ_EN 1 chip in
          pcie_audio_write REG_CTRL_PB_ENABLE 1 chip
      | SNDRV_PCM_STREAM_CAPTURE =>
          let chip := pcie_audio_write REG_DMA_CAP_IRQ_EN 1 chip in
          pcie_audio_write REG_CTRL_CAP_ENABLE 1 chip
      end in
    (0, upd_stream d (set_last_interrupt now) chip)
  else if (cmd =? SNDRV_PCM_TRIGGER_STOP) || (cmd =? SNDRV_PCM_TRIGGER_SUSPEND) then
    let chip :=
      match d with
      | SNDRV_PCM_STREAM_PLAYBACK =>
          let chip := pcie_audio_write REG_CTRL_PB_ENABLE 0 chip in
          pcie_audio_write REG_DMA_PB_IRQ_EN 0 chip
      | SNDRV_PCM_STREAM_CAPTURE =>
          let chip := pcie_audio_write REG_CTRL_CAP_ENABLE 0 chip in
          pcie_audio_write REG_DMA_CAP_IRQ_EN 0 chip
      end in
    (0, chip)
  else (- EINVAL, chip).

(** ** Interrupt handler, bring-up and the Format control

    [REG_DMA_CONFIG] and [REG_PCIE_CONFIG] are used by the sources but
    their offsets are not part of [pcie-audio.h]; they stay abstract. *)

Section MissingRegisters.

Variable REG_DMA_CONFIG : Z.
Variable REG_PCIE_CONFIG : Z.

(** The value both bring-up and the fault path write to [REG_DMA_CONFIG]:
    burst size 512, scatter-gather, completion interrupt, master enable. *)
Definition dma_config_baseline : Z :=
  Z.lor (Z.lor (Z.lor (Z.shiftl 512 16) (Z.shiftl 1 8)) (Z.shiftl 1 1))
    (Z.shiftl 1 0).

(** The combined status word of pcie-audio-irq.c. *)
Definition irq_status (chip : pcie_audio) : Z :=
  Z.lor
    (Z.lor (pcie_audio_read chip REG_STATUS_PB_UNDERRUN)
       (u32 (Z.shiftl (pcie_audio_read chip REG_STATUS_CAP_OVERRUN) 8)))
    (u32 (Z.shiftl (pcie_audio_read chip REG_STATUS_DMA_ERROR) 16)).

(** [ktime_t] is a signed 64-bit count of nanoseconds.  [ktime_sub] is
    the 64-bit subtraction, which wraps; [ktime_to_us] is the signed
    division by 1000, rounding towards zero. *)
Definition s64 (x : Z) : Z := (x + 2 ^ 63) mod 2 ^ 64 - 2 ^ 63.

Definition ktime_sub (lhs rhs : Z) : Z := s64 (lhs - rhs).

Definition ktime_to_us (kt : Z) : Z := Z.quot kt 1000.

(** The three blocks of the handler, in source order. *)

(* Handle playback interrupts *)
Definition irq_playback (now status : Z) (chip : pcie_audio) : pcie_audio :=
  if Z.land status 0xFF =? 0 then chip else
  match substream (playback chip) with
  | None => chip
  | Some ssp =>
      let chip :=
        upd_stream SNDRV_PCM_STREAM_PLAYBACK
          (fun s =>
             set_last_interrupt now
               (set_latency
                  (u32 (ktime_to_us (ktime_sub now (last_interrupt s))))
                  (set_interrupts (ulong_inc (interrupts s)) s))) chip in
      if negb (Z.land status (Z.shiftl 1 0) =? 0) then
        let chip :=
          set_stats
            (set_pb_underruns (ulong_inc (pb_underruns (stats chip)))
               (stats chip)) chip in
        let chip :=
          upd_stream SNDRV_PCM_STREAM_PLAYBACK
            (fun s => set_errors (ulong_inc (errors s)) s) chip in
        emit (EvStopXrun SNDRV_PCM_STREAM_PLAYBACK ssp) chip
      else emit (EvPeriodElapsed SNDRV_PCM_STREAM_PLAYBACK ssp) chip
  end.

(* Handle capture interrupts *)
Definition irq_capture (now status : Z) (chip : pcie_audio) : pcie_audio :=
  if Z.land status 0xFF00 =? 0 then chip else
  match substream (capture chip) with
  | None => chip
  | Some ssp =>
      let chip :=
        upd_stream SNDRV_PCM_STREAM_CAPTURE
          (fun s =>
             set_last_interrupt now
               (set_latency
                  (u32 (ktime_to_us (ktime_sub now (last_interrupt s))))
                  (set_interrupts (ulong_inc (interrupts s)) s))) chip in
      if negb (Z.land status (Z.shiftl 1 8) =? 0) then
        let chip :=
          set_stats
            (set_cap_overruns (ulong_inc (cap_overruns (stats chip)))
               (stats chip)) chip in
        let chip :=
          upd_stream SNDRV_PCM_STREAM_CAPTURE
            (fun s => set_errors (ulong_inc (errors s)) s) chip in
        emit (EvStopXrun SNDRV_PCM_STREAM_CAPTURE ssp) chip
      else emit (EvPeriodElapsed SNDRV_PCM_STREAM_CAPTURE ssp) chip
  end.

(* Handle DMA errors *)
Definition irq_dma_error (status : Z) (chip : pcie_audio) : pcie_audio :=
  if Z.land status 0xFF0000 =? 0 then chip else
  let chip :=
    set_stats
      (set_dma_errors (ulong_inc (dma_errors (stats chip))) (stats chip))
      chip in
  (* Reset DMA engine *)
  let chip := pcie_audio_write REG_CTRL_PB_ENABLE 0 chip in
  let chip := pcie_audio_write REG_CTRL_CAP_ENABLE 0 chip in
  (* Re-initialize DMA *)
  pcie_audio_write REG_DMA_CONFIG dma_config_baseline chip.

(* Clear interrupt status *)
Definition irq_clear_status (chip : pcie_audio) : pcie_audio :=
  let chip := pcie_audio_write REG_STATUS_PB_UNDERRUN 0xFFFFFFFF chip in
  let chip := pcie_audio_write REG_STATUS_CAP_OVERRUN 0xFFFFFFFF chip in
  pcie_audio_write REG_STATUS_DMA_ERROR 0xFFFFFFFF chip.

Definition pcie_audio_interrupt (now : Z) (chip : pcie_audio)
  : irqreturn_t * pcie_audio :=
  (* Read and clear interrupt status *)
  let status := irq_status chip in
  if status =? 0 then (IRQ_NONE, chip) else
  let chip := irq_playback now status chip in
  let chip := irq_capture now status chip in
  let chip := irq_dma_error status chip in
  let chip := irq_clear_status chip in
  (IRQ_HANDLED, chip).

(** The hardware presenting [v] in the read-only register [reg]. *)
Definition hw_present (reg v : Z) (chip : pcie_audio) : pcie_audio :=
  {| reg_base := <[reg := u32 v]> (reg_base chip);
     playback := playback chip; capture := capture chip;
     stats := stats chip; trace := trace chip |}.

(** The clock-lock wait of [pcie_audio_init_hw].  [polls] is the number
    of times [time_before(jiffies, timeout)] holds and [hw_locked k] what
    the hardware shows in [REG_STATUS_LOCKED] at poll [k].  The result is
    [true] when the loop leaves through [goto clock_locked]. *)
Fixpoint wait_clock_lock (hw_locked : nat -> Z) (polls k : nat)
    (chip : pcie_audio) : bool * pcie_audio :=
  match polls with
  | O => (false, chip)
  | S polls' =>
      let chip := hw_present REG_STATUS_LOCKED (hw_locked k) chip in
      if pcie_audio_read chip REG_STATUS_LOCKED =? 0
      then wait_clock_lock hw_locked polls' (S k) (emit (EvSleep 1) chip)
      else (true, chip)
  end.

Definition pcie_audio_init_hw (pci_current_state : Z) (hw_locked : nat -> Z)
    (polls : nat) (chip : pcie_audio) : Z * pcie_audio :=
  (* Reset the hardware *)
  let chip := pcie_audio_write REG_CTRL_RESET 1 chip in
  let chip := emit (EvSleep 1) chip in
  let chip := pcie_audio_write REG_CTRL_RESET 0 chip in
  let chip := emit (EvSleep 1) chip in
  (* Configure DMA engine *)
  let val := 0 in
  let val := Z.lor val (Z.shiftl 512 16) in
  let val := Z.lor val (Z.shiftl 1 8) in
  let val := Z.lor val (Z.shiftl 1 1) in
  let val := Z.lor val (Z.shiftl 1 0) in
  let chip := pcie_audio_write REG_DMA_CONFIG val chip in
  (* Set default thresholds *)
  let chip := pcie_audio_write REG_DMA_PB_THRESHOLD 1024 chip in
  let chip := pcie_audio_write REG_DMA_CAP_THRESHOLD 1024 chip in
  (* Configure default audio format *)
  let val := 0 in
  let val := Z.lor val (Z.shiftl 24 8) in
  let val := Z.lor val (8 - 1) in
  let chip := pcie_audio_write REG_CTRL_FORMAT val chip in
  (* Configure clock management *)
  let val := 0 in
  let val := Z.lor val (u32 (Z.shiftl 48000 16)) in
  let val := Z.lor val (Z.shiftl 1 0) in
  let chip := pcie_audio_write REG_CTRL_SYNC_TIMEOUT val chip in
  (* Wait for clock lock *)
  let '(locked, chip) := wait_clock_lock hw_locked polls 0 chip in
  if negb locked then
    (0, emit EvWarn chip)
  else
    (* Configure PCIe parameters *)
    let val := 0 in
    let val := Z.lor val (u32 (Z.shiftl pci_current_state 24)) in
    let val := Z.lor val (Z.shiftl 512 16) in
    let val := Z.lor val (Z.shiftl 1 8) in
    let val := Z.lor val (Z.shiftl 1 0) in
    let chip := pcie_audio_write REG_PCIE_CONFIG val chip in
    (* Clear all status registers *)
    let chip := pcie_audio_write REG_STATUS_PB_UNDERRUN 0xFFFFFFFF chip in
    let chip := pcie_audio_write REG_STATUS_CAP_OVERRUN 0xFFFFFFFF chip in
    let chip := pcie_audio_write REG_STATUS_DMA_ERROR 0xFFFFFFFF chip in
    (0, chip).

(** The Format control of pcie-audio-control.c; [item] is
    [ucontrol->value.enumerated.item[0]]. *)
Definition format_get (chip : pcie_audio) : Z :=
  Z.land (Z.shiftr (pcie_audio_read chip REG_CTRL_FORMAT) 31) 1.

Definition format_put (item : Z) (chip : pcie_audio) : Z * pcie_audio :=
  let val := pcie_audio_read chip REG_CTRL_FORMAT in
  let val := Z.land val (u32 (Z.lnot (Z.shiftl 1 31))) in
  let val := Z.lor val (u32 (Z.shiftl (Z.land item 1) 31)) in
  (1, pcie_audio_write REG_CTRL_FORMAT val chip).

End MissingRegisters.

(** ** The driver as a transition system

    The framework and the hardware drive the chip through the callbacks
    above.  A [call] pairs an entry point with the framework memory at
    the time of the call.  [OpInterrupt pb cap dma now] is the hardware
    latching the three status registers and raising the interrupt. *)

Inductive pcm_op : Type :=
| OpOpen (now : Z) (ssp : substream_ptr)
| OpClose (ssp : substream_ptr)
| OpHwParams (malloc_pages : Z) (ring_alloc : option Z) (ssp : substream_ptr)
    (params : snd_pcm_hw_params)
| OpHwFree (ssp : substream_ptr)
| OpPrepare (ssp : substream_ptr)
| OpTrigger (now : Z) (ssp : substream_ptr) (cmd : Z)
| OpInterrupt (pb cap dma now : Z).

Definition call : Type := pcm_mem * pcm_op.

Definition exec (REG_DMA_CONFIG : Z) (c : call) (chip : pcie_audio)
  : option pcie_audio :=
  let '(mem, op) := c in
  match op with
  | OpOpen now ssp => Some (snd (pcie_audio_pcm_open mem now ssp chip))
  | OpClose ssp => Some (snd (pcie_audio_pcm_close mem ssp chip))
  | OpHwParams malloc_pages ring_alloc ssp params =>
      snd <$> pcie_audio_hw_params mem malloc_pages ring_alloc ssp params chip
  | OpHwFree ssp => Some (pcie_audio_hw_free ssp chip)
  | OpPrepare ssp => Some (snd (pcie_audio_prepare mem ssp chip))
  | OpTrigger now ssp cmd => Some (snd (pcie_audio_trigger mem now ssp cmd chip))
  | OpInterrupt pb cap dma now =>
      let chip := hw_present REG_STATUS_PB_UNDERRUN pb chip in
      let chip := hw_present REG_STATUS_CAP_OVERRUN cap chip in
      let chip := hw_present REG_STATUS_DMA_ERROR dma chip in
      Some (snd (pcie_audio_interrupt REG_DMA_CONFIG now chip))
  end.

Fixpoint run (REG_DMA_CONFIG : Z) (calls : list call) (chip : pcie_audio)
  : option pcie_audio :=
  match calls with
  | [] => Some chip
  | c :: calls' =>
      match exec REG_DMA_CONFIG c chip with
      | Some chip' => run REG_DMA_CONFIG calls' chip'
      | None => None
      end
  end.

(** The private data as [snd_card_new] allocates it: zero-filled, over a
    register window in which no register has been written yet (such a
    register reads 0). *)
Definition stream0 : pcie_audio_stream :=
  {| substream := None; desc := None; desc_dma := 0; desc_count := 0;
     current_desc := 0; period_size := 0; buffer_size := 0; periods := 0;
     interrupts := 0; errors := 0; last_interrupt := 0; latency := 0;
     hw_ptr := 0; prev_hw_ptr := 0; channels := 0; rate := 0; format := 0;
     is_dsd := false |}.

Definition chip0 : pcie_audio :=
  {| reg_base := ∅; playback := stream0; capture := stream0;
     stats := {| pb_underruns := 0; cap_overruns := 0; clock_unlocks := 0;
                 dma_errors := 0; start_time := 0 |};
     trace := [] |}.

(** *** The enable bits along a trace

    [enable_reg d] is the enable register of direction [d].  Only the
    driver writes the enable registers, so their values at any point of a
    trace are those of the last [EvWrite] to them.  [replay_enable] walks
    a trace from the enable values [en] (playback, capture) and returns
    the final values, or [None] if some ring was released with
    [dma_free_coherent] while the enable register of its direction was
    non-zero. *)

Definition enable_reg (d : direction) : Z :=
  match d with
  | SNDRV_PCM_STREAM_PLAYBACK => REG_CTRL_PB_ENABLE
  | SNDRV_PCM_STREAM_CAPTURE => REG_CTRL_CAP_ENABLE
  end.

Definition enable_of (d : direction) (en : Z * Z) : Z :=
  match d with
  | SNDRV_PCM_STREAM_PLAYBACK => fst en
  | SNDRV_PCM_STREAM_CAPTURE => snd en
  end.

Definition replay_event (en : option (Z * Z)) (e : event) : option (Z * Z) :=
  match en with
  | None => None
  | Some (pb, cap) =>
      match e with
      | EvWrite reg val =>
          Some (if reg =? REG_CTRL_PB_ENABLE then val else pb,
                if reg =? REG_CTRL_CAP_ENABLE then val else cap)
      | EvDmaFree d _ _ =>
          if enable_of d (pb, cap) =? 0 then Some (pb, cap) else None
      | _ => Some (pb, cap)
      end
  end.

Definition replay_enable (en : Z * Z) (tr : list event) : option (Z * Z) :=
  fold_left replay_event tr (Some en).

Definition frees_disabled (en : Z * Z) (tr : list event) : bool :=
  match replay_enable en tr with Some _ => true | None => false end.

(** An event is harmless for the rings in [freeable] when it is not a
    write of a non-zero value to an enable register and not the release
    of a ring outside [freeable]. *)
Definition is_enable_reg (reg : Z) : bool :=
  (reg =? REG_CTRL_PB_ENABLE) || (reg =? REG_CTRL_CAP_ENABLE).

Definition harmless (freeable : direction -> bool) (e : event) : bool :=
  match e with
  | EvWrite reg val => negb (is_enable_reg reg) || (val =? 0)
  | EvDmaFree d _ _ => freeable d
  | _ => true
  end.

(** The rings a call may release: that of one direction, or none. *)
Definition only_ring (d : direction) : direction -> bool :=
  fun d' => bool_decide (d' = d).

Definition no_ring : direction -> bool := fun _ => false.

(** *** Stream life cycle

    [armed] records, per direction, whether the last trigger was a start
    or resume with no stop, suspend or prepare since.  A call sequence
    follows the life cycle when close and hw_params are only issued for
    a direction that is not armed. *)

Definition set_armed (d : direction) (b : bool) (armed : bool * bool)
  : bool * bool :=
  match d with
  | SNDRV_PCM_STREAM_PLAYBACK => (b, snd armed)
  | SNDRV_PCM_STREAM_CAPTURE => (fst armed, b)
  end.

Definition is_armed (d : direction) (armed : bool * bool) : bool :=
  match d with
  | SNDRV_PCM_STREAM_PLAYBACK => fst armed
  | SNDRV_PCM_STREAM_CAPTURE => snd armed
  end.

Definition armed_after (c : call) (armed : bool * bool) : bool * bool :=
  let '(mem, op) := c in
  match op with
  | OpPrepare ssp => set_armed (ss_stream (mem ssp)) false armed
  | OpTrigger _ ssp cmd =>
      if (cmd =? SNDRV_PCM_TRIGGER_START) || (cmd =? SNDRV_PCM_TRIGGER_RESUME)
      then set_armed (ss_stream (mem ssp)) true armed
      else if (cmd =? SNDRV_PCM_TRIGGER_STOP) || (cmd =? SNDRV_PCM_TRIGGER_SUSPEND)
      then set_armed (ss_stream (mem ssp)) false armed
      else armed
  | _ => armed
  end.

(** The enable values [en] agree with [armed]: a direction that is not
    armed has its enable bit clear. *)
Definition cleared (armed : bool * bool) (en : Z * Z) : Prop :=
  forall d, is_armed d armed = false -> enable_of d en = 0.

Definition call_allowed (c : call) (armed : bool * bool) : bool :=
  let '(mem, op) := c in
  match op with
  | OpClose ssp => negb (is_armed (ss_stream (mem ssp)) armed)
  | OpHwParams _ _ ssp _ => negb (is_armed (ss_stream (mem ssp)) armed)
  | _ => true
  end.

Fixpoint follows_lifecycle (armed : bool * bool) (calls : list call) : bool :=
  match calls with
  | [] => true
  | c :: calls' =>
      call_allowed c armed && follows_lifecycle (armed_after c armed) calls'
  end.

(** ** Observations on traces *)

(** The events a call appended to the trace. *)
Definition emitted (before after : pcie_audio) : list event :=
  drop (List.length (trace before)) (trace after).

Definition is_notification (d : direction) (e : event) : bool :=
  match e with
  | EvStopXrun d' _ => bool_decide (d' = d)
  | EvPeriodElapsed d' _ => bool_decide (d' = d)
  | _ => false
  end.

(** The notifications sent to the session of direction [d]. *)
Definition notifications (d : direction) (tr : list event) : list event :=
  List.filter (is_notification d) tr.

Definition is_write (e : event) : bool :=
  match e with EvWrite _ _ => true | _ => false end.

(** The register writes of a trace, in order. *)
Definition reg_writes (tr : list event) : list event :=
  List.filter is_write tr.

(** Per-direction names for the handler's status register and x-run
    statistic. *)
Definition xrun_status_reg (d : direction) : Z :=
  match d with
  | SNDRV_PCM_STREAM_PLAYBACK => REG_STATUS_PB_UNDERRUN
  | SNDRV_PCM_STREAM_CAPTURE => REG_STATUS_CAP_OVERRUN
  end.

Definition xrun_stat (d : direction) (st : pcie_audio_stats) : Z :=
  match d with
  | SNDRV_PCM_STREAM_PLAYBACK => pb_underruns st
  | SNDRV_PCM_STREAM_CAPTURE => cap_overruns st
  end.

(** Decoding of the format and sample-family registers, as
    [pcie_audio_hw_params] packs them: channels minus one in the low
    byte, bit depth from bit 8, the DSD flag in bit 31; the multiplier
    minus one from bit 8 and the family (set: 48 kHz, clear: 44.1 kHz)
    in bit 31. *)
Definition fmt_channels_minus_one (reg : Z) : Z := Z.land reg 0xFF.
Definition fmt_bit_depth (reg : Z) : Z := Z.land (Z.shiftr reg 8) 0x7FFFFF.
Definition fmt_dsd (reg : Z) : bool := Z.testbit reg 31.
Definition family_is_48k (reg : Z) : bool := Z.testbit reg 31.
Definition family_base_rate (reg : Z) : Z :=
  if family_is_48k reg then 48000 else 44100.
(** The multiplier field of the sample-family register as it is stored. *)
Definition family_multi_field (reg : Z) : Z :=
  Z.land (Z.shiftr reg 8) 0x7FFFFF.

(** ** Inputs used in the examples

    Substreams 0 and 2 are playback substreams, 1 is the capture
    substream; every runtime describes a buffer of 8 periods of 4096
    bytes at bus address 0x10000000. *)

Definition rt_4096x8 : snd_pcm_runtime :=
  {| rt_dma_addr := 0x10000000; rt_dma_bytes := 32768;
     rt_period_bytes := 4096; rt_periods := 8 |}.

Definition mem_4096x8 : pcm_mem :=
  fun p =>
    {| ss_stream := if Nat.eqb p 1 then SNDRV_PCM_STREAM_CAPTURE
                    else SNDRV_PCM_STREAM_PLAYBACK;
       ss_runtime := rt_4096x8 |}.

Definition params_of (chans rt width : Z) : snd_pcm_hw_params :=
  {| params_channels := chans; params_rate := rt; params_format := 0;
     params_physical_width := width; params_buffer_bytes := 32768 |}.

(** The words a successful call leaves in the format, sample-family and
    target-rate registers. *)
Definition format_word (params : snd_pcm_hw_params) : Z :=
  Z.lor (Z.lor 0 (u32 (Z.shiftl (params_physical_width params) 8)))
    (u32 (params_channels params - 1)).

Definition family_word (params : snd_pcm_hw_params) : Z :=
  let rate_ctrl := if params_rate params mod 44100 =? 0 then 0 else Z.shiftl 1 31 in
  let base_rate := if rate_ctrl =? 0 then 44100 else 48000 in
  let multi := params_rate params / base_rate in
  Z.lor rate_ctrl (u32 (Z.shiftl (u32 (multi - 1)) 8)).

(** Offsets standing for the unknown [REG_DMA_CONFIG] and
    [REG_PCIE_CONFIG] in the examples; both lie outside the map of
    [pcie-audio.h]. *)
Definition EXAMPLE_REG_DMA_CONFIG : Z := 0x400.
Definition EXAMPLE_REG_PCIE_CONFIG : Z := 0x404.

(** Playback substream 0 opened, configured, prepared and started. *)
Definition calls_playback_start : list call :=
  [ (mem_4096x8, OpOpen 0 0%nat);
    (mem_4096x8, OpHwParams 0 (Some 0x2000) 0%nat (params_of 2 48000 32));
    (mem_4096x8, OpPrepare 0%nat);
    (mem_4096x8, OpTrigger 0 0%nat SNDRV_PCM_TRIGGER_START) ].

(** The same, then stopped and closed. *)
Definition calls_playback_stop_close : list call :=
  calls_playback_start ++
  [ (mem_4096x8, OpTrigger 0 0%nat SNDRV_PCM_TRIGGER_STOP);
    (mem_4096x8, OpClose 0%nat) ].

(** The same, closed while still running. *)
Definition calls_playback_close_running : list call :=
  calls_playback_start ++ [ (mem_4096x8, OpClose 0%nat) ].

(** The same, configured again while still running. *)
Definition calls_playback_reconfigure_running : list call :=
  calls_playback_start ++
  [ (mem_4096x8, OpHwParams 0 (Some 0x3000) 0%nat (params_of 2 48000 32)) ].

(** The chip a call sequence leaves when issued after probe. *)
Definition chip_after (calls : list call) : pcie_audio :=
  default chip0 (run EXAMPLE_REG_DMA_CONFIG calls chip0).

(** The hardware latching an underrun while playback runs, and after
    playback has been stopped and closed. *)
Definition chip_underrun_running : pcie_audio :=
  hw_present REG_STATUS_PB_UNDERRUN 1 (chip_after calls_playback_start).

Definition chip_underrun_closed : pcie_audio :=
  hw_present REG_STATUS_PB_UNDERRUN 1 (chip_after calls_playback_stop_close).

(** A DMA error latched while only playback is running. *)
Definition chip_dma_fault : pcie_audio :=
  hw_present REG_STATUS_DMA_ERROR 1 (chip_after calls_playback_start).

(** Playback substream 0 opened, nothing else. *)
Definition chip_open_playback : pcie_audio :=
  chip_after [ (mem_4096x8, OpOpen 0 0%nat) ].

(** Bit 8, and bit 16, of the DMA error register latched while playback
    is running. *)
Definition chip_dma_error_bit8 : pcie_audio :=
  hw_present REG_STATUS_DMA_ERROR 0x100 (chip_after calls_playback_start).

Definition chip_dma_error_bit16 : pcie_audio :=
  hw_present REG_STATUS_DMA_ERROR 0x10000 (chip_after calls_playback_start).

(** [SNDRV_PCM_FORMAT_S24_LE] of the sound core: 24-bit samples, each in
    a 32-bit word, so that [params_physical_width] is 32.  Two channels
    of it at 96 kHz. *)
Definition SNDRV_PCM_FORMAT_S24_LE : Z := 6.

Definition params_s24_le_96k_stereo : snd_pcm_hw_params :=
  {| params_channels := 2; params_rate := 96000;
     params_format := SNDRV_PCM_FORMAT_S24_LE;
     params_physical_width := 32; params_buffer_bytes := 32768 |}.

(** * Further parts of the driver *)

(** ** More of the register map (pcie-audio.h) *)

Definition REG_CTRL_CLOCK_SRC : Z := 0x010.
Definition REG_CTRL_MASTER_MODE : Z := 0x014.
Definition REG_DMA_PB_CURRENT : Z := 0x10C.
Definition REG_DMA_CAP_CURRENT : Z := 0x20C.

Definition irq_en_reg (d : direction) : Z :=
  match d with
  | SNDRV_PCM_STREAM_PLAYBACK => REG_DMA_PB_IRQ_EN
  | SNDRV_PCM_STREAM_CAPTURE => REG_DMA_CAP_IRQ_EN
  end.

Definition current_reg (d : direction) : Z :=
  match d with
  | SNDRV_PCM_STREAM_PLAYBACK => REG_DMA_PB_CURRENT
  | SNDRV_PCM_STREAM_CAPTURE => REG_DMA_CAP_CURRENT
  end.

Definition other (d : direction) : direction :=
  match d with
  | SNDRV_PCM_STREAM_PLAYBACK => SNDRV_PCM_STREAM_CAPTURE
  | SNDRV_PCM_STREAM_CAPTURE => SNDRV_PCM_STREAM_PLAYBACK
  end.

(** ** Position query (pcie-audio-pcm.c, [pcie_audio_pointer])

    [REG_STATUS_PB_DESC_ACTIVE] and [REG_STATUS_CAP_DESC_ACTIVE] are not
    part of [pcie-audio.h] and stay abstract.  [frame_bytes] is
    [frames_to_bytes(substream->runtime, 1)], a signed value converted
    to [size_t] by the division; a zero divisor is the fault. *)

Section PositionQuery.

Variable REG_STATUS_PB_DESC_ACTIVE : Z.
Variable REG_STATUS_CAP_DESC_ACTIVE : Z.

Definition pcie_audio_pointer (mem : pcm_mem) (frame_bytes : Z)
    (ssp : substream_ptr) (chip : pcie_audio) : option Z :=
  let '(stream, current_desc, offset) :=
    match ss_stream (mem ssp) with
    | SNDRV_PCM_STREAM_PLAYBACK =>
        (playback chip,
         pcie_audio_read chip REG_DMA_PB_CURRENT,
         pcie_audio_read chip REG_STATUS_PB_DESC_ACTIVE)
    | SNDRV_PCM_STREAM_CAPTURE =>
        (capture chip,
         pcie_audio_read chip REG_DMA_CAP_CURRENT,
         pcie_audio_read chip REG_STATUS_CAP_DESC_ACTIVE)
    end in
  if u64 frame_bytes =? 0 then None
  else Some (u64 (u64 (current_desc * period_size stream) + offset)
             / u64 frame_bytes).

End PositionQuery.

(** ** Mixer controls (pcie-audio-control.c)

    [private_value] is the register a control was created for; [item]
    and [value] are the first element of the user's value array. *)

Definition master_mode_get (private_value : Z) (chip : pcie_audio) : Z :=
  let val := pcie_audio_read chip private_value in
  Z.land val 1.

Definition master_mode_put (private_value value : Z) (chip : pcie_audio)
  : Z * pcie_audio :=
  let val := u32 (Z.land value 1) in
  (1, pcie_audio_write private_value val chip).

Definition clock_source_get (private_value : Z) (chip : pcie_audio) : Z :=
  let val := pcie_audio_read chip private_value in
  Z.land val 3.

Definition clock_source_put (private_value item : Z) (chip : pcie_audio)
  : Z * pcie_audio :=
  let val := u32 item in
  if 3 <=? val then (- EINVAL, chip)
  else (1, pcie_audio_write private_value val chip).

Definition rate_get (chip : pcie_audio) : Z :=
  let val := pcie_audio_read chip REG_CTRL_TARGET_RATE in
  if val =? 44100 then 0
  else if val =? 48000 then 1
  else if val =? 88200 then 2
  else if val =? 96000 then 3
  else if val =? 176400 then 4
  else if val =? 192000 then 5
  else 1.

Definition rates : list Z := [44100; 48000; 88200; 96000; 176400; 192000].

Definition rate_put (item : Z) (chip : pcie_audio) : Z * pcie_audio :=
  let val := u32 item in
  if 6 <=? val then (- EINVAL, chip)
  else (1, pcie_audio_write REG_CTRL_TARGET_RATE
             (nth (Z.to_nat val) rates 0) chip).

(** The enumerated [info] callbacks: the item they leave in [uinfo] and
    the index of the text they copy out of their table of [items]
    names.  [clock_source_info] and [rate_info] clamp to the last
    entry, [format_info] falls back to the first. *)
Definition clock_source_info (item : Z) : Z :=
  let item := u32 item in
  if 3 <=? item then 2 else item.

Definition rate_info (item : Z) : Z :=
  let item := u32 item in
  if 6 <=? item then 5 else item.

Definition format_info (item : Z) : Z :=
  let item := u32 item in
  if 2 <=? item then 0 else item.

(** [pcie_audio_create_controls]: [ctl_add i] is what [snd_ctl_add]
    returns for [controls[i]]; the loop has [n] controls left, [i] is
    its index.  The result is the return value and the number of
    [snd_ctl_add] calls made. *)
Fixpoint create_controls_loop (ctl_add : nat -> Z) (n i : nat) : Z * nat :=
  match n with
  | O => (0, i)
  | S n' =>
      let err := ctl_add i in
      if err <? 0 then (err, S i)
      else create_controls_loop ctl_add n' (S i)
  end.

Definition pcie_audio_create_controls (ctl_add : nat -> Z) : Z * nat :=
  create_controls_loop ctl_add 4 0.

(** ** Interrupt line, power management and removal
    (pcie-audio-irq.c, pcie-audio-main.c)

    Calls into the PCI and sound cores are recorded as [core_event]s,
    next to the register trace of the chip.  An allocation attempt is
    recorded with its vector range and interrupt kind; the
    [PCI_IRQ_AFFINITY] flag of the MSI-X attempt is not recorded. *)

Inductive irq_kind : Type := PCI_IRQ_MSIX | PCI_IRQ_MSI | PCI_IRQ_LEGACY.

Inductive core_event : Type :=
| CoreAllocVectors (min_vecs max_vecs : Z) (kind : irq_kind)
| CoreRequestIrq (shared : bool)
| CoreFreeIrq
| CoreFreeVectors
| CorePowerState (d3hot : bool)
| CoreSysfsRemove
| CoreCardFree.

(** What the PCI core answers to [pcie_audio_setup_irq]: the results of
    the three [pci_alloc_irq_vectors] attempts and of [request_irq],
    and [chip->pci->irq]. *)
Record irq_env : Type := {
  alloc_msix : Z;
  alloc_msi : Z;
  alloc_legacy : Z;
  request_irq_ret : Z;
  pci_irq : Z
}.

Definition pcie_audio_setup_irq (env : irq_env) (chip : pcie_audio)
  : Z * pcie_audio * list core_event :=
  (* First try MSI-X *)
  let err := alloc_msix env in
  let log := [CoreAllocVectors 1 8 PCI_IRQ_MSIX] in
  let '(err, log) :=
    if err <? 0 then
      (* Fall back to MSI *)
      let err := alloc_msi env in
      let log := log ++ [CoreAllocVectors 1 1 PCI_IRQ_MSI] in
      if err <? 0 then
        (* Finally try legacy interrupts *)
        (alloc_legacy env, log ++ [CoreAllocVectors 1 1 PCI_IRQ_LEGACY])
      else (err, log)
    else (err, log) in
  if err <? 0 then (err, chip, log) else
  let err := request_irq_ret env in
  let log := log ++ [CoreRequestIrq (negb (pci_irq env =? 0))] in
  if err <? 0 then (err, chip, log ++ [CoreFreeVectors]) else
  (* Enable PCIe interrupts *)
  let chip := pcie_audio_write REG_DMA_PB_IRQ_EN 0 chip in
  let chip := pcie_audio_write REG_DMA_CAP_IRQ_EN 0 chip in
  (0, chip, log).

(** Some allocation attempt was granted. *)
Definition irq_allocated (env : irq_env) : Prop :=
  0 <= alloc_msix env \/ 0 <= alloc_msi env \/ 0 <= alloc_legacy env.

Definition pcie_audio_free_irq (chip : pcie_audio)
  : pcie_audio * list core_event :=
  (* Disable all interrupts *)
  let chip := pcie_audio_write REG_DMA_PB_IRQ_EN 0 chip in
  let chip := pcie_audio_write REG_DMA_CAP_IRQ_EN 0 chip in
  (chip, [CoreFreeIrq; CoreFreeVectors]).

Record pcie_audio_saved_regs : Type := {
  ctrl_format : Z;
  ctrl_sample_family : Z;
  ctrl_master_mode : Z;
  dma_config : Z;
  clock_config : Z;
  threshold_config : Z
}.

(** [chip->saved_registers] is passed next to the chip. *)
Definition pcie_audio_suspend (saved : pcie_audio_saved_regs)
    (chip : pcie_audio) : Z * pcie_audio_saved_regs * list core_event :=
  (* Save important registers *)
  let saved :=
    {| ctrl_format := pcie_audio_read chip REG_CTRL_FORMAT;
       ctrl_sample_family := pcie_audio_read chip REG_CTRL_SAMPLE_FAMILY;
       ctrl_master_mode := pcie_audio_read chip REG_CTRL_MASTER_MODE;
       dma_config := pcie_audio_read chip REG_DMA_PB_THRESHOLD;
       clock_config := clock_config saved;
       threshold_config := threshold_config saved |} in
  (0, saved, [CorePowerState true]).

Section PowerManagement.

Variable REG_DMA_CONFIG : Z.
Variable REG_PCIE_CONFIG : Z.

Definition pcie_audio_resume (pci_current_state : Z) (hw_locked : nat -> Z)
    (polls : nat) (saved : pcie_audio_saved_regs) (chip : pcie_audio)
  : Z * pcie_audio * list core_event :=
  (* Re-initialize hardware *)
  let chip :=
    snd (pcie_audio_init_hw REG_DMA_CONFIG REG_PCIE_CONFIG pci_current_state
           hw_locked polls chip) in
  (* Restore registers *)
  let chip := pcie_audio_write REG_CTRL_FORMAT (ctrl_format saved) chip in
  let chip :=
    pcie_audio_write REG_CTRL_SAMPLE_FAMILY (ctrl_sample_family saved) chip in
  let chip :=
    pcie_audio_write REG_CTRL_MASTER_MODE (ctrl_master_mode saved) chip in
  let chip := pcie_audio_write REG_DMA_PB_THRESHOLD (dma_config saved) chip in
  (0, chip, [CorePowerState false]).

End PowerManagement.

(** [pcie_audio_remove]: the register part, then the releases. *)
Definition pcie_audio_remove (chip : pcie_audio)
  : pcie_audio * list core_event :=
  (* Stop all DMA activity *)
  let chip := pcie_audio_write REG_CTRL_PB_ENABLE 0 chip in
  let chip := pcie_audio_write REG_CTRL_CAP_ENABLE 0 chip in
  let chip := pcie_audio_write REG_DMA_PB_IRQ_EN 0 chip in
  let chip := pcie_audio_write REG_DMA_CAP_IRQ_EN 0 chip in
  (* Reset hardware *)
  let chip := pcie_audio_write REG_CTRL_RESET 1 chip in
  let chip := emit (EvSleep 1) chip in
  (* Remove sysfs entries *)
  let log := [CoreSysfsRemove] in
  (* Free IRQ *)
  let '(chip, log') := pcie_audio_free_irq chip in
  (* Free sound card *)
  (chip, log ++ log' ++ [CoreCardFree]).

(** ** Names used by the further properties *)

(** The two arming and the two disarming commands. *)
Definition arm_cmd (resume : bool) : Z :=
  if resume then SNDRV_PCM_TRIGGER_RESUME else SNDRV_PCM_TRIGGER_START.

Definition disarm_cmd (suspend : bool) : Z :=
  if suspend then SNDRV_PCM_TRIGGER_SUSPEND else SNDRV_PCM_TRIGGER_STOP.

(** The part of configure after the ring is built: stream parameters,
    DMA registers, format and rate. *)
Definition hw_params_program (d : direction) (params : snd_pcm_hw_params)
    (chip : pcie_audio) : pcie_audio :=
  let chip :=
    upd_stream d
      (fun s =>
         set_format (params_format params)
           (set_rate (params_rate params)
              (set_channels (params_channels params) s))) chip in
  let stream := stream_of d chip in
  let chip :=
    match d with
    | SNDRV_PCM_STREAM_PLAYBACK =>
        let chip := pcie_audio_write REG_DMA_PB_DESC_BASE (desc_dma stream) chip in
        let chip := pcie_audio_write REG_DMA_PB_DESC_COUNT (desc_count stream) chip in
        let chip := pcie_audio_write REG_DMA_PB_SIZE (period_size stream) chip in
        pcie_audio_write REG_DMA_PB_THRESHOLD (period_size stream / 2) chip
    | SNDRV_PCM_STREAM_CAPTURE =>
        let chip := pcie_audio_write REG_DMA_CAP_DESC_BASE (desc_dma stream) chip in
        let chip := pcie_audio_write REG_DMA_CAP_DESC_COUNT (desc_count stream) chip in
        let chip := pcie_audio_write REG_DMA_CAP_SIZE (period_size stream) chip in
        pcie_audio_write REG_DMA_CAP_THRESHOLD (period_size stream / 2) chip
    end in
  let chip := pcie_audio_write REG_CTRL_FORMAT (format_word params) chip in
  let chip := pcie_audio_write REG_CTRL_SAMPLE_FAMILY (family_word params) chip in
  pcie_audio_write REG_CTRL_TARGET_RATE (params_rate params) chip.

(** The DMA registers of a direction. *)
Definition desc_base_reg (d : direction) : Z :=
  match d with
  | SNDRV_PCM_STREAM_PLAYBACK => REG_DMA_PB_DESC_BASE
  | SNDRV_PCM_STREAM_CAPTURE => REG_DMA_CAP_DESC_BASE
  end.

Definition desc_count_reg (d : direction) : Z :=
  match d with
  | SNDRV_PCM_STREAM_PLAYBACK => REG_DMA_PB_DESC_COUNT
  | SNDRV_PCM_STREAM_CAPTURE => REG_DMA_CAP_DESC_COUNT
  end.

Definition size_reg (d : direction) : Z :=
  match d with
  | SNDRV_PCM_STREAM_PLAYBACK => REG_DMA_PB_SIZE
  | SNDRV_PCM_STREAM_CAPTURE => REG_DMA_CAP_SIZE
  end.

Definition threshold_reg (d : direction) : Z :=
  match d with
  | SNDRV_PCM_STREAM_PLAYBACK => REG_DMA_PB_THRESHOLD
  | SNDRV_PCM_STREAM_CAPTURE => REG_DMA_CAP_THRESHOLD
  end.

(** The field of the status word that belongs to a direction, and the bit
    the handler takes for its x-run. *)
Definition status_mask (d : direction) : Z :=
  match d with
  | SNDRV_PCM_STREAM_PLAYBACK => 0xFF
  | SNDRV_PCM_STREAM_CAPTURE => 0xFF00
  end.

Definition status_xrun_bit (d : direction) : Z :=
  match d with
  | SNDRV_PCM_STREAM_PLAYBACK => 0
  | SNDRV_PCM_STREAM_CAPTURE => 8
  end.

(** Two streams that differ at most in the fields the handler updates:
    interrupt and error counters, latency and last-interrupt time. *)
Definition same_setup (s s' : pcie_audio_stream) : Prop :=
  substream s' = substream s /\ desc s' = desc s /\
  desc_dma s' = desc_dma s /\ desc_count s' = desc_count s /\
  current_desc s' = current_desc s /\ period_size s' = period_size s /\
  buffer_size s' = buffer_size s /\ periods s' = periods s /\
  hw_ptr s' = hw_ptr s /\ prev_hw_ptr s' = prev_hw_ptr s /\
  channels s' = channels s /\ rate s' = rate s /\ format s' = format s /\
  is_dsd s' = is_dsd s.

(** ** More example inputs *)

Definition EXAMPLE_REG_PB_DESC_ACTIVE : Z := 0x320.
Definition EXAMPLE_REG_CAP_DESC_ACTIVE : Z := 0x324.

(** Playback running, the hardware 100 bytes into descriptor 3. *)
Definition chip_playing_desc3 : pcie_audio :=
  hw_present REG_DMA_PB_CURRENT 3
    (hw_present EXAMPLE_REG_PB_DESC_ACTIVE 100
       (chip_after calls_playback_start)).

(** Playback running, the hardware reporting descriptor 8 of a ring of
    8 periods. *)
Definition chip_playing_desc8 : pcie_audio :=
  hw_present REG_DMA_PB_CURRENT 8 (chip_after calls_playback_start).

(** Playback running, a completion latched in bit 1 of its field. *)
Definition chip_period_done : pcie_audio :=
  hw_present REG_STATUS_PB_UNDERRUN 2 (chip_after calls_playback_start).

(** Capture substream 1 opened and bit 8 latched in the underrun
    register. *)
Definition chip_capture_underrun_bit8 : pcie_audio :=
  hw_present REG_STATUS_PB_UNDERRUN 0x100
    (chip_after [ (mem_4096x8, OpOpen 0 1%nat) ]).

(** * Properties *)

(** ** Machine integers and bits *)

Lemma u32_small x : 0 <= x < 2 ^ 32 -> u32 x = x.
Proof. intros H. unfold u32. apply Z.mod_small; lia. Qed.

Lemma u32_range x : 0 <= u32 x < 2 ^ 32.
Proof. unfold u32. apply Z.mod_pos_bound. lia. Qed.

Lemma u32_idem x : u32 (u32 x) = u32 x.
Proof. apply u32_small, u32_range. Qed.

Lemma ulong_inc_small x : 0 <= x < ULONG_MAX -> ulong_inc x = x + 1.
Proof.
  unfold ulong_inc, ULONG_MAX. intros H. apply Z.mod_small. lia.
Qed.

Lemma testbit_small a n : 0 <= a < 2 ^ n -> 0 <= n -> Z.testbit a n = false.
Proof.
  intros [Ha Hlt] Hn.
  destruct (Z.eq_dec a 0) as [-> | Hne]; [apply Z.bits_0 |].
  apply Z.bits_above_log2; [lia |].
  apply Z.log2_lt_pow2; lia.
Qed.

Lemma lor_lt_pow2 a b n :
  0 <= n -> 0 <= a < 2 ^ n -> 0 <= b < 2 ^ n -> 0 <= Z.lor a b < 2 ^ n.
Proof.
  intros Hn Ha Hb.
  assert (Hnn : 0 <= Z.lor a b) by (apply Z.lor_nonneg; lia).
  split; [exact Hnn |].
  destruct (Z.eq_dec (Z.lor a b) 0) as [-> | Hne]; [lia |].
  assert (Hpos : 0 < n).
  { destruct (Z.eq_dec n 0) as [-> | ?]; [| lia].
    change (2 ^ 0) with 1 in *.
    assert (a = 0) by lia. assert (b = 0) by lia. subst.
    exfalso. apply Hne. reflexivity. }
  assert (Hlog : forall c, 0 <= c < 2 ^ n -> Z.log2 c < n).
  { intros c Hc. destruct (Z.eq_dec c 0) as [-> | ?]; [simpl; lia |].
    apply Z.log2_lt_pow2; lia. }
  apply Z.log2_lt_pow2; [lia |].
  rewrite Z.log2_lor by lia.
  apply Z.max_lub_lt; apply Hlog; lia.
Qed.

Lemma testbit_u32 x n : 0 <= n < 32 -> Z.testbit (u32 x) n = Z.testbit x n.
Proof. intros H. unfold u32. apply Z.mod_pow2_bits_low. lia. Qed.

Lemma testbit_true_neq_0 x n : Z.testbit x n = true -> x <> 0.
Proof. intros H ->. rewrite Z.bits_0 in H. discriminate. Qed.

(** A mask that contains bit [n] sees it. *)
Lemma land_mask_neq_0 x m n :
  Z.testbit x n = true -> Z.testbit m n = true -> Z.land x m <> 0.
Proof.
  intros Hx Hm. apply (testbit_true_neq_0 _ n).
  rewrite Z.land_spec, Hx, Hm. reflexivity.
Qed.

(** ** Register interface *)

Lemma readl_writel_eq v reg io :
  is_w1c reg = false -> readl (writel v reg io) reg = u32 v.
Proof.
  intros H. unfold readl, writel. rewrite H.
  by rewrite lookup_insert_eq.
Qed.

Lemma readl_writel_ne v reg reg' io :
  reg <> reg' -> readl (writel v reg io) reg' = readl io reg'.
Proof.
  intros H. unfold readl, writel.
  destruct (is_w1c reg); by rewrite lookup_insert_ne.
Qed.

Lemma read_write_eq reg v chip :
  is_w1c reg = false ->
  pcie_audio_read (pcie_audio_write reg v chip) reg = u32 v.
Proof.
  intros H. unfold pcie_audio_read, pcie_audio_write. simpl.
  rewrite readl_writel_eq by exact H. apply u32_idem.
Qed.

Lemma read_write_ne reg reg' v chip :
  reg <> reg' ->
  pcie_audio_read (pcie_audio_write reg v chip) reg' = pcie_audio_read chip reg'.
Proof.
  intros H. unfold pcie_audio_read, pcie_audio_write. simpl.
  by apply readl_writel_ne.
Qed.

(** A write leaves everything but the window and the trace alone. *)
Lemma write_playback reg v chip :
  playback (pcie_audio_write reg v chip) = playback chip.
Proof. reflexivity. Qed.

Lemma write_capture reg v chip :
  capture (pcie_audio_write reg v chip) = capture chip.
Proof. reflexivity. Qed.

Lemma write_stats reg v chip :
  stats (pcie_audio_write reg v chip) = stats chip.
Proof. reflexivity. Qed.

Lemma write_trace reg v chip :
  trace (pcie_audio_write reg v chip) = trace chip ++ [EvWrite reg (u32 v)].
Proof. reflexivity. Qed.

Lemma emitted_app before after evs :
  trace after = trace before ++ evs -> emitted before after = evs.
Proof.
  intros H. unfold emitted. rewrite H. apply drop_app_length.
Qed.

(** ** Streams and traces under the elementary updates *)

Lemma stream_of_upd_same d f chip :
  stream_of d (upd_stream d f chip) = f (stream_of d chip).
Proof. by destruct d. Qed.

Lemma stream_of_upd_other d d' f chip :
  d <> d' -> stream_of d' (upd_stream d f chip) = stream_of d' chip.
Proof. by destruct d, d'. Qed.

Lemma reg_base_upd d f chip : reg_base (upd_stream d f chip) = reg_base chip.
Proof. by destruct d. Qed.

Lemma stats_upd d f chip : stats (upd_stream d f chip) = stats chip.
Proof. by destruct d. Qed.

Lemma trace_upd d f chip : trace (upd_stream d f chip) = trace chip.
Proof. by destruct d. Qed.

Lemma read_upd d f chip reg :
  pcie_audio_read (upd_stream d f chip) reg = pcie_audio_read chip reg.
Proof. unfold pcie_audio_read. by rewrite reg_base_upd. Qed.

Lemma stream_of_write d reg v chip :
  stream_of d (pcie_audio_write reg v chip) = stream_of d chip.
Proof. by destruct d. Qed.

Lemma stream_of_emit d e chip : stream_of d (emit e chip) = stream_of d chip.
Proof. by destruct d. Qed.

Lemma reg_base_emit e chip : reg_base (emit e chip) = reg_base chip.
Proof. reflexivity. Qed.

Lemma stats_emit e chip : stats (emit e chip) = stats chip.
Proof. reflexivity. Qed.

Lemma trace_emit e chip : trace (emit e chip) = trace chip ++ [e].
Proof. reflexivity. Qed.

Lemma read_emit e chip reg :
  pcie_audio_read (emit e chip) reg = pcie_audio_read chip reg.
Proof. reflexivity. Qed.

Create Rewrite HintDb chip_frame.
#[local] Hint Rewrite reg_base_upd stats_upd trace_upd reg_base_emit stats_emit
  trace_emit stream_of_emit stream_of_write write_stats write_trace read_upd
  read_emit stream_of_upd_same : chip_frame.

Lemma reg_writes_app tr1 tr2 :
  reg_writes (tr1 ++ tr2) = reg_writes tr1 ++ reg_writes tr2.
Proof. apply List.filter_app. Qed.

Lemma notifications_app d tr1 tr2 :
  notifications d (tr1 ++ tr2) = notifications d tr1 ++ notifications d tr2.
Proof. apply List.filter_app. Qed.

(** ** The descriptor ring *)

(** The loop leaves [f i] in every slot it visits. *)
Lemma init_ring_spec f n i (ring : list pcie_audio_dma_desc) :
  List.length ring = (i + n)%nat ->
  init_ring f n i ring = take i ring ++ ((fun k => f (Z.of_nat k)) <$> seq i n).
Proof.
  revert i ring. induction n as [| n IH]; intros i ring Hlen; simpl.
  - rewrite app_nil_r, firstn_all2; [done | lia].
  - rewrite IH by (rewrite length_insert; lia).
    assert (Hi : (i < List.length ring)%nat) by lia.
    destruct (lookup_lt_is_Some_2 ring i Hi) as [x Hx].
    rewrite (take_S_r _ _ (f (Z.of_nat i))).
    + rewrite take_insert_ge by lia. by rewrite <- app_assoc.
    + apply list_lookup_insert_eq; lia.
Qed.

Lemma setup_dma_descriptors_ok mem dma d chip p :
  substream (stream_of d chip) = Some p ->
  exists chip',
    setup_dma_descriptors mem (Some dma) d chip = Some (0, chip') /\
    desc (stream_of d chip') =
      Some (built_ring (rt_dma_addr (ss_runtime (mem p)))
              (rt_period_bytes (ss_runtime (mem p))) dma) /\
    desc_dma (stream_of d chip') = dma /\
    desc_count (stream_of d chip') = DMA_DESC_COUNT /\
    periods (stream_of d chip') = rt_periods (ss_runtime (mem p)) /\
    period_size (stream_of d chip') = rt_period_bytes (ss_runtime (mem p)) /\
    buffer_size (stream_of d chip') = rt_dma_bytes (ss_runtime (mem p)).
Proof.
  intros Hp. unfold setup_dma_descriptors. rewrite Hp.
  eexists. split; [reflexivity |].
  rewrite !stream_of_upd_same. cbn [desc desc_dma desc_count periods
    period_size buffer_size set_current_desc set_periods set_buffer_size
    set_period_size set_desc_dma set_desc].
  split; [| repeat split; by rewrite ?stream_of_emit, ?stream_of_upd_same].
  cbn [desc_count set_desc_count]. unfold built_ring. apply f_equal.
  rewrite init_ring_spec by (rewrite length_replicate; lia).
  reflexivity.
Qed.

Lemma free_existing_frame d chip :
  reg_base (free_existing d chip) = reg_base chip /\
  stats (free_existing d chip) = stats chip /\
  (forall d', stream_of d' (free_existing d chip) = stream_of d' chip) /\
  exists evs, trace (free_existing d chip) = trace chip ++ evs /\
              reg_writes evs = [].
Proof.
  unfold free_existing. destruct (desc (stream_of d chip)).
  - split; [done |]. split; [done |]. split; [intros d'; by destruct d' |].
    eexists. split; reflexivity.
  - split; [done |]. split; [done |]. split; [done |].
    exists []. by rewrite app_nil_r.
Qed.

(** Whatever its outcome, [setup_dma_descriptors] touches only the
    stream it was given: no register, no statistic, no register write. *)
Lemma setup_dma_descriptors_frame mem ra d chip err chip' :
  setup_dma_descriptors mem ra d chip = Some (err, chip') ->
  reg_base chip' = reg_base chip /\
  stats chip' = stats chip /\
  substream (stream_of d chip') = substream (stream_of d chip) /\
  (forall d', d <> d' -> stream_of d' chip' = stream_of d' chip) /\
  (exists evs, trace chip' = trace chip ++ evs /\ reg_writes evs = []) /\
  (err = 0 /\ is_Some ra \/ err = - ENOMEM /\ ra = None).
Proof.
  unfold setup_dma_descriptors.
  destruct (substream (stream_of d chip)) as [p |] eqn:Hp; [| discriminate].
  destruct (free_existing_frame d chip) as (Hr & Hst & Hother & evs & Htr & Hw).
  generalize dependent (free_existing d chip).
  intros c0 Hr Hst Hother Htr H.
  assert (Hev : forall e, is_write e = false ->
            exists evs', trace c0 ++ [e] = trace chip ++ evs' /\
                         reg_writes evs' = []).
  { intros e He. exists (evs ++ [e]).
    rewrite Htr, <- app_assoc. split; [done |].
    rewrite reg_writes_app, Hw. simpl. by rewrite He. }
  destruct ra as [dma |]; injection H as <- <-.
  - autorewrite with chip_frame. cbn.
    rewrite Hother, Hp. repeat (split; [done |]).
    split.
    { intros d' Hd. rewrite !stream_of_upd_other by done.
      rewrite stream_of_emit, stream_of_upd_other by done. apply Hother. }
    split; [| left; split; [done | by eexists]].
    by apply Hev.
  - autorewrite with chip_frame. cbn.
    rewrite Hother, Hp. repeat (split; [done |]).
    split.
    { intros d' Hd. rewrite !stream_of_upd_other by done.
      rewrite stream_of_emit, stream_of_upd_other by done. apply Hother. }
    split; [| by right].
    by apply Hev.
Qed.

(** ** [pcie_audio_hw_params] *)

Lemma hw_params_registers mem malloc_pages ring_alloc ssp params chip chip' :
  pcie_audio_hw_params mem malloc_pages ring_alloc ssp params chip
    = Some (0, chip') ->
  pcie_audio_read chip' REG_CTRL_FORMAT = u32 (format_word params) /\
  pcie_audio_read chip' REG_CTRL_SAMPLE_FAMILY = u32 (family_word params) /\
  pcie_audio_read chip' REG_CTRL_TARGET_RATE = u32 (params_rate params).
Proof.
  unfold pcie_audio_hw_params.
  destruct (malloc_pages <? 0) eqn:Hmp.
  { intros H. simplify_eq. }
  destruct (setup_dma_descriptors _ _ _ _) as [[err c1] |]; [| discriminate].
  destruct (err <? 0) eqn:Herr.
  { intros H. simplify_eq. }
  intros H. simplify_eq.
  rewrite !stream_of_upd_same.
  cbn [channels rate set_format set_rate set_channels].
  fold (format_word params). fold (family_word params).
  repeat split.
  - do 2 (rewrite read_write_ne by done).
    by rewrite read_write_eq.
  - rewrite read_write_ne by done. by rewrite read_write_eq.
  - by rewrite read_write_eq.
Qed.

(** With both allocations granted on an open direction the call
    succeeds, whatever the parameters are. *)
Lemma hw_params_succeeds mem malloc_pages dma ssp params chip :
  0 <= malloc_pages ->
  is_Some (substream (stream_of (ss_stream (mem ssp)) chip)) ->
  exists chip',
    pcie_audio_hw_params mem malloc_pages (Some dma) ssp params chip
      = Some (0, chip').
Proof.
  intros Hmp [p Hp]. unfold pcie_audio_hw_params.
  destruct (malloc_pages <? 0) eqn:E; [lia |].
  destruct (setup_dma_descriptors_ok mem dma (ss_stream (mem ssp))
              (emit (EvMallocPages ssp (params_buffer_bytes params)) chip) p)
    as (c1 & -> & _).
  { by rewrite stream_of_emit. }
  change (0 <? 0) with false. cbv iota. by eexists.
Qed.

(** A failing call has written no register; if it failed on the buffer
    allocation it has changed no field at all. *)
Lemma hw_params_failure mem malloc_pages ring_alloc ssp params chip err chip' :
  pcie_audio_hw_params mem malloc_pages ring_alloc ssp params chip
    = Some (err, chip') ->
  err <> 0 ->
  reg_base chip' = reg_base chip /\
  stats chip' = stats chip /\
  reg_writes (emitted chip chip') = [] /\
  (malloc_pages < 0 /\ err = malloc_pages /\
     playback chip' = playback chip /\ capture chip' = capture chip
   \/ 0 <= malloc_pages /\ ring_alloc = None /\ err = - ENOMEM).
Proof.
  unfold pcie_audio_hw_params.
  destruct (malloc_pages <? 0) eqn:Hmp.
  { intros H Hne. simplify_eq. repeat (split; [done |]).
    split; [| left; repeat split; lia].
    by rewrite (emitted_app _ _ [EvMallocPages ssp (params_buffer_bytes params)]). }
  destruct (setup_dma_descriptors _ _ _ _) as [[e c1] |] eqn:Hs; [| discriminate].
  apply setup_dma_descriptors_frame in Hs
    as (Hr & Hst & _ & _ & (evs & Htr & Hw) & Hcase).
  destruct (e <? 0) eqn:He.
  - intros H _. simplify_eq.
    split; [done |]. split; [done |]. split.
    + rewrite (emitted_app _ _
        ([EvMallocPages ssp (params_buffer_bytes params)] ++ evs ++ [EvFreePages ssp])).
      * rewrite !reg_writes_app, Hw. reflexivity.
      * cbn [trace emit] in *. rewrite Htr. by rewrite <- !app_assoc.
    + right. destruct Hcase as [[-> _] | [-> ->]]; [discriminate |].
      repeat split; lia.
  - intros H Hne. simplify_eq.
Qed.

Lemma hw_params_result mem malloc_pages ring_alloc ssp params chip err chip' :
  pcie_audio_hw_params mem malloc_pages ring_alloc ssp params chip
    = Some (err, chip') ->
  malloc_pages < 0 /\ err = malloc_pages
  \/ 0 <= malloc_pages /\ ring_alloc = None /\ err = - ENOMEM
  \/ 0 <= malloc_pages /\ is_Some ring_alloc /\ err = 0.
Proof.
  intros H. destruct (Z.eq_dec err 0) as [-> | Hne].
  - right. right. revert H. unfold pcie_audio_hw_params.
    destruct (malloc_pages <? 0) eqn:Hmp; [intros; simplify_eq |].
    destruct (setup_dma_descriptors _ _ _ _) as [[e c1] |] eqn:Hs;
      [| discriminate].
    apply setup_dma_descriptors_frame in Hs as (_ & _ & _ & _ & _ & Hcase).
    destruct (e <? 0) eqn:He; [intros; simplify_eq |].
    intros _. destruct Hcase as [[_ ?] | [-> _]]; [| discriminate].
    split; [lia | done].
  - destruct (hw_params_failure _ _ _ _ _ _ _ _ H Hne) as (_ & _ & _ & Hc).
    destruct Hc as [(? & ? & _) | ?]; [by left | by right; left].
Qed.

(** C2 (as stated) fails.  Playback is open on an 8 x 4096 byte buffer and
    configure is called with 9 channels, above [MAX_CHANNELS]: the call
    returns 0, not [-EINVAL], has stored the 9 channels in the stream and
    has programmed the format register with channels-minus-one = 8. *)
Lemma hw_params_accepts_nine_channels :
  exists chip',
    pcie_audio_hw_params mem_4096x8 0 (Some 0x2000) 0%nat
        (params_of 9 48000 32)
        (snd (pcie_audio_pcm_open mem_4096x8 0 0%nat chip0))
      = Some (0, chip') /\
    MAX_CHANNELS < params_channels (params_of 9 48000 32) /\
    channels (playback chip') = 9 /\
    pcie_audio_read chip' REG_CTRL_FORMAT = Z.lor (Z.shiftl 32 8) 8 /\
    reg_writes (trace chip') <> [].
Proof.
  eexists. split; [vm_compute; reflexivity |].
  vm_compute. repeat split; discriminate.
Qed.

(** On an open direction the call always returns. *)
Lemma hw_params_returns mem malloc_pages ring_alloc ssp params chip :
  is_Some (substream (stream_of (ss_stream (mem ssp)) chip)) ->
  exists err chip',
    pcie_audio_hw_params mem malloc_pages ring_alloc ssp params chip
      = Some (err, chip').
Proof.
  intros [p Hp]. unfold pcie_audio_hw_params.
  destruct (malloc_pages <? 0); [by do 2 eexists |].
  unfold setup_dma_descriptors. rewrite stream_of_emit, Hp.
  destruct ring_alloc as [dma |].
  - change (0 <? 0) with false. cbv iota. by do 2 eexists.
  - change (- ENOMEM <? 0) with true. cbv iota. by do 2 eexists.
Qed.

(** A successful call has stored the parameters in its stream as they
    came. *)
Lemma hw_params_stores_params
    mem malloc_pages ring_alloc ssp params chip chip' :
  pcie_audio_hw_params mem malloc_pages ring_alloc ssp params chip
    = Some (0, chip') ->
  channels (stream_of (ss_stream (mem ssp)) chip') = params_channels params /\
  rate (stream_of (ss_stream (mem ssp)) chip') = params_rate params /\
  format (stream_of (ss_stream (mem ssp)) chip') = params_format params.
Proof.
  unfold pcie_audio_hw_params.
  destruct (malloc_pages <? 0) eqn:Hmp.
  { intros H. simplify_eq. }
  destruct (setup_dma_descriptors _ _ _ _) as [[err c1] |]; [| discriminate].
  destruct (err <? 0) eqn:Herr.
  { intros H. simplify_eq. }
  intros H. simplify_eq.
  destruct (ss_stream (mem ssp));
    rewrite !stream_of_write, !stream_of_upd_same; by cbn.
Qed.

(** C2 (amended).  [pcie_audio_hw_params] checks no argument range.  On
    an open direction it always returns, in one of three ways, whatever
    the parameters are.  When the buffer allocation fails it returns
    that error and has changed no register, no stream field and no
    statistic.  When the descriptor ring cannot be allocated it returns
    [-ENOMEM] and has written no register.  With both allocations
    granted it returns 0, has stored channels, rate and format in the
    stream as they came and has programmed the format, sample-family and
    target-rate registers from them. *)
Theorem hw_params_fails_only_on_allocation
    mem malloc_pages ring_alloc ssp params chip :
  is_Some (substream (stream_of (ss_stream (mem ssp)) chip)) ->
  exists err chip',
    pcie_audio_hw_params mem malloc_pages ring_alloc ssp params chip
      = Some (err, chip') /\
    (malloc_pages < 0 /\ err = malloc_pages /\
       reg_base chip' = reg_base chip /\
       reg_writes (emitted chip chip') = [] /\
       playback chip' = playback chip /\ capture chip' = capture chip /\
       stats chip' = stats chip
     \/ 0 <= malloc_pages /\ ring_alloc = None /\ err = - ENOMEM /\
       reg_base chip' = reg_base chip /\
       reg_writes (emitted chip chip') = []
     \/ 0 <= malloc_pages /\ is_Some ring_alloc /\ err = 0 /\
       channels (stream_of (ss_stream (mem ssp)) chip')
         = params_channels params /\
       rate (stream_of (ss_stream (mem ssp)) chip') = params_rate params /\
       format (stream_of (ss_stream (mem ssp)) chip') = params_format params /\
       pcie_audio_read chip' REG_CTRL_FORMAT = u32 (format_word params) /\
       pcie_audio_read chip' REG_CTRL_SAMPLE_FAMILY
         = u32 (family_word params) /\
       pcie_audio_read chip' REG_CTRL_TARGET_RATE = u32 (params_rate params)).
Proof.
  intros Hopen.
  destruct (hw_params_returns mem malloc_pages ring_alloc ssp params chip Hopen)
    as (err & chip' & H).
  exists err, chip'. split; [exact H |].
  destruct (hw_params_result _ _ _ _ _ _ _ _ H)
    as [(Hmp & ->) | [(Hmp & Hra & ->) | (Hmp & Hra & ->)]].
  - left.
    destruct (hw_params_failure _ _ _ _ _ _ _ _ H ltac:(lia))
      as (Hreg & Hst & Hw & Hcase).
    destruct Hcase as [(_ & _ & Hpb & Hcap) | (? & _)]; [| lia].
    by repeat split.
  - right. left.
    destruct (hw_params_failure _ _ _ _ _ _ _ _ H ltac:(discriminate))
      as (Hreg & _ & Hw & _).
    by repeat split.
  - right. right.
    destruct (hw_params_stores_params _ _ _ _ _ _ _ H) as (Hc & Hr & Hf).
    destruct (hw_params_registers _ _ _ _ _ _ _ H) as (Hfmt & Hfam & Hrate).
    by repeat split.
Qed.

(** Out-of-range parameters (9 channels) with both allocations granted:
    the call returns 0, has stored the 9 channels and has programmed the
    format register from them. *)
Lemma hw_params_fails_only_on_allocation_witness :
  exists chip',
    pcie_audio_hw_params mem_4096x8 0 (Some 0x2000) 0%nat
        (params_of 9 48000 32)
        (snd (pcie_audio_pcm_open mem_4096x8 0 0%nat chip0))
      = Some (0, chip') /\
    channels (stream_of (ss_stream (mem_4096x8 0%nat)) chip') = 9 /\
    pcie_audio_read chip' REG_CTRL_FORMAT
      = u32 (format_word (params_of 9 48000 32)).
Proof.
  assert (Hopen : is_Some
                    (substream
                       (stream_of (ss_stream (mem_4096x8 0%nat))
                          (snd (pcie_audio_pcm_open mem_4096x8 0 0%nat chip0)))))
    by (vm_compute; by eexists).
  destruct (hw_params_fails_only_on_allocation mem_4096x8 0 (Some 0x2000)
              0%nat (params_of 9 48000 32)
              (snd (pcie_audio_pcm_open mem_4096x8 0 0%nat chip0)) Hopen)
    as (err & chip' & H & Hcase).
  destruct Hcase as [(Hmp & _) | [(_ & Hra & _) | (_ & _ & -> & Hc & _ & _ & Hf & _)]].
  - exfalso. lia.
  - discriminate Hra.
  - exists chip'. split; [exact H |]. split; [exact Hc | exact Hf].
Defined.

(** The Format control can raise the DSD flag of the format register. *)
Lemma format_put_sets_dsd chip :
  format_get (snd (format_put 1 chip)) = 1.
Proof.
  unfold format_get, format_put. cbn [snd].
  rewrite read_write_eq by reflexivity.
  set (v := pcie_audio_read chip REG_CTRL_FORMAT).
  apply Z.bits_inj'. intros n Hn.
  rewrite Z.land_spec, Z.shiftr_spec by lia.
  destruct (Z.eq_dec n 0) as [-> | Hn0].
  - rewrite testbit_u32 by lia. rewrite Z.lor_spec.
    replace (Z.testbit (u32 (Z.shiftl (Z.land 1 1) 31)) (0 + 31)) with true
      by reflexivity.
    by rewrite orb_true_r.
  - replace (Z.testbit 1 n) with false; [by rewrite andb_false_r |].
    symmetry. apply testbit_small; [| lia].
    split; [lia |]. apply (Z.pow_lt_mono_r 2 0 n); lia.
Qed.

(** For channel counts and sample widths the hardware supports, the
    format word is (width << 8) | (channels - 1), below 2^15. *)
Lemma format_word_value params :
  1 <= params_channels params <= MAX_CHANNELS ->
  0 <= params_physical_width params <= 64 ->
  u32 (format_word params)
    = Z.lor (Z.shiftl (params_physical_width params) 8)
        (params_channels params - 1) /\
  0 <= Z.lor (Z.shiftl (params_physical_width params) 8)
         (params_channels params - 1) < 2 ^ 15.
Proof.
  intros Hch Hw. unfold MAX_CHANNELS in Hch. unfold format_word.
  assert (Hsh : 0 <= Z.shiftl (params_physical_width params) 8 < 2 ^ 15).
  { rewrite Z.shiftl_mul_pow2 by lia. lia. }
  rewrite Z.lor_0_l.
  rewrite (u32_small (Z.shiftl _ 8)) by lia.
  rewrite (u32_small (params_channels params - 1)) by lia.
  assert (Hlor : 0 <= Z.lor (Z.shiftl (params_physical_width params) 8)
                         (params_channels params - 1) < 2 ^ 15).
  { apply lor_lt_pow2; lia. }
  split; [| exact Hlor]. apply u32_small. lia.
Qed.

(** The bit-depth field a configure leaves is the physical width of the
    sample format: 24 for packed 24-bit samples, 32 for 24-bit samples
    carried in 32-bit words. *)
Lemma hw_params_bit_depth_is_physical_width
    mem malloc_pages ring_alloc ssp params chip chip' :
  1 <= params_channels params <= MAX_CHANNELS ->
  0 <= params_physical_width params <= 64 ->
  pcie_audio_hw_params mem malloc_pages ring_alloc ssp params chip
    = Some (0, chip') ->
  fmt_bit_depth (pcie_audio_read chip' REG_CTRL_FORMAT)
    = params_physical_width params /\
  fmt_channels_minus_one (pcie_audio_read chip' REG_CTRL_FORMAT)
    = params_channels params - 1.
Proof.
  intros Hch Hw Hok.
  destruct (hw_params_registers _ _ _ _ _ _ _ Hok) as (Hfmt & _ & _).
  destruct (format_word_value params Hch Hw) as [Hval _].
  unfold MAX_CHANNELS in Hch.
  unfold fmt_bit_depth, fmt_channels_minus_one. rewrite Hfmt, Hval.
  assert (Hc8 : Z.shiftr (params_channels params - 1) 8 = 0).
  { rewrite Z.shiftr_div_pow2 by lia. apply Z.div_small. lia. }
  split.
  - rewrite Z.shiftr_lor, Z.shiftr_shiftl_l, Hc8 by lia.
    change (8 - 8) with 0. rewrite Z.shiftl_0_r, Z.lor_0_r.
    change 8388607 with (Z.ones 23). rewrite Z.land_ones by lia.
    apply Z.mod_small. lia.
  - change 255 with (Z.ones 8). rewrite Z.land_ones by lia.
    apply Z.bits_inj'. intros n Hn.
    destruct (Z_lt_dec n 8) as [Hlt | Hge].
    + rewrite Z.mod_pow2_bits_low by lia.
      rewrite Z.lor_spec, Z.shiftl_spec_low by lia. reflexivity.
    + rewrite Z.mod_pow2_bits_high by lia.
      symmetry. apply testbit_small; [| lia].
      split; [lia |]. apply Z.lt_le_trans with (2 ^ 8); [lia |].
      apply Z.pow_le_mono_r; lia.
Qed.

(** C8 (as stated) fails.  Playback is configured for two channels of
    24-bit samples at 96 kHz in the sound core's [S24_LE] format, whose
    samples each fill a 32-bit word.  The call succeeds and the stream
    records the 24-bit format, but the bit-depth field of the format
    register reads 32, not 24, and the multiplier field of the
    sample-family register reads 1, not 2. *)
Lemma hw_params_s24_le_reads_back_32 :
  exists chip',
    pcie_audio_hw_params mem_4096x8 0 (Some 0x2000) 0%nat
        params_s24_le_96k_stereo
        (snd (pcie_audio_pcm_open mem_4096x8 0 0%nat chip0))
      = Some (0, chip') /\
    format (playback chip') = SNDRV_PCM_FORMAT_S24_LE /\
    fmt_bit_depth (pcie_audio_read chip' REG_CTRL_FORMAT) = 32 /\
    family_multi_field (pcie_audio_read chip' REG_CTRL_SAMPLE_FAMILY) = 1.
Proof.
  eexists. split; [vm_compute; reflexivity |].
  vm_compute. by repeat split.
Qed.

(** C8 (amended).  Round trip of configure(rate = 96000, 2 channels)
    with a sample format whose container is [width] bits wide, up to 64:
    the call succeeds once both allocations are granted, and reading
    back gives the container width as bit depth (24 for packed 24-bit
    samples only) and channels-minus-one 1 in the format register, 96000
    in the target-rate register, and in the sample-family register the
    48 kHz family with the multiplier stored minus one: the field reads
    1, and 48000 * (1 + 1) = 96000. *)
Theorem hw_params_roundtrip_96k_stereo
    mem malloc_pages dma ssp params chip :
  params_rate params = 96000 ->
  params_channels params = 2 ->
  0 <= params_physical_width params <= 64 ->
  0 <= malloc_pages ->
  is_Some (substream (stream_of (ss_stream (mem ssp)) chip)) ->
  exists chip',
    pcie_audio_hw_params mem malloc_pages (Some dma) ssp params chip
      = Some (0, chip') /\
    fmt_bit_depth (pcie_audio_read chip' REG_CTRL_FORMAT)
      = params_physical_width params /\
    fmt_channels_minus_one (pcie_audio_read chip' REG_CTRL_FORMAT) = 1 /\
    pcie_audio_read chip' REG_CTRL_TARGET_RATE = 96000 /\
    family_is_48k (pcie_audio_read chip' REG_CTRL_SAMPLE_FAMILY) = true /\
    family_multi_field (pcie_audio_read chip' REG_CTRL_SAMPLE_FAMILY) = 1 /\
    family_base_rate (pcie_audio_read chip' REG_CTRL_SAMPLE_FAMILY)
      * (family_multi_field (pcie_audio_read chip' REG_CTRL_SAMPLE_FAMILY) + 1)
      = 96000.
Proof.
  intros Hrate Hch Hwidth Hmp Hopen.
  destruct (hw_params_succeeds mem malloc_pages dma ssp params chip Hmp Hopen)
    as [chip' Hok].
  exists chip'. split; [exact Hok |].
  destruct (hw_params_bit_depth_is_physical_width _ _ _ _ _ _ _
              ltac:(rewrite Hch; unfold MAX_CHANNELS; lia) Hwidth Hok)
    as [Hbd Hcm].
  split; [exact Hbd |]. split; [by rewrite Hcm, Hch |].
  destruct (hw_params_registers _ _ _ _ _ _ _ Hok) as (_ & -> & ->).
  unfold family_word. rewrite Hrate.
  vm_compute. by repeat split.
Qed.

Lemma hw_params_roundtrip_96k_stereo_witness :
  exists chip',
    pcie_audio_hw_params mem_4096x8 0 (Some 0x2000) 0%nat (params_of 2 96000 24)
        (snd (pcie_audio_pcm_open mem_4096x8 0 0%nat chip0))
      = Some (0, chip') /\
    pcie_audio_read chip' REG_CTRL_FORMAT = 0x1801 /\
    pcie_audio_read chip' REG_CTRL_TARGET_RATE = 96000 /\
    pcie_audio_read chip' REG_CTRL_SAMPLE_FAMILY = 0x80000100.
Proof.
  destruct (hw_params_roundtrip_96k_stereo mem_4096x8 0 0x2000 0%nat
              (params_of 2 96000 24)
              (snd (pcie_audio_pcm_open mem_4096x8 0 0%nat chip0))
              eq_refl eq_refl) as (chip' & Hok & _).
  - cbn. lia.
  - lia.
  - vm_compute. by eexists.
  - exists chip'. split; [exact Hok |].
    destruct (hw_params_registers _ _ _ _ _ _ _ Hok) as (-> & -> & ->).
    vm_compute. by repeat split.
Defined.

(** C10 (as stated) fails outside the channel range.  Configure with 0
    channels succeeds; channels - 1 wraps to 0xFFFFFFFF, which is what
    the format register then holds, DSD flag included. *)
Lemma hw_params_zero_channels_sets_dsd :
  exists chip',
    pcie_audio_hw_params mem_4096x8 0 (Some 0x2000) 0%nat (params_of 0 48000 32)
        (snd (pcie_audio_pcm_open mem_4096x8 0 0%nat chip0))
      = Some (0, chip') /\
    pcie_audio_read chip' REG_CTRL_FORMAT = 0xFFFFFFFF /\
    fmt_dsd (pcie_audio_read chip' REG_CTRL_FORMAT) = true /\
    format_get chip' = 1.
Proof.
  eexists. split; [vm_compute; reflexivity |].
  vm_compute. by repeat split.
Qed.

(** C10 (amended).  A successful configure with 1 to 8 channels and a
    container width up to 64 writes the format register as a whole:
    (physical width << 8) | (channels - 1), with bit 31 clear.  The chip
    it starts from is arbitrary, so a DSD flag raised earlier through the
    Format control is gone afterwards. *)
Theorem hw_params_clears_dsd_flag
    mem malloc_pages ring_alloc ssp params chip chip' :
  1 <= params_channels params <= MAX_CHANNELS ->
  0 <= params_physical_width params <= 64 ->
  pcie_audio_hw_params mem malloc_pages ring_alloc ssp params chip
    = Some (0, chip') ->
  pcie_audio_read chip' REG_CTRL_FORMAT
    = Z.lor (Z.shiftl (params_physical_width params) 8)
        (params_channels params - 1) /\
  fmt_dsd (pcie_audio_read chip' REG_CTRL_FORMAT) = false /\
  format_get chip' = 0.
Proof.
  intros Hch Hw Hok.
  destruct (hw_params_registers _ _ _ _ _ _ _ Hok) as (Hfmt & _ & _).
  destruct (format_word_value params Hch Hw) as [Hval Hrange].
  unfold format_get, fmt_dsd. rewrite Hfmt, Hval.
  split; [reflexivity |]. split.
  - apply testbit_small; lia.
  - rewrite Z.shiftr_div_pow2 by lia. rewrite Z.div_small by lia. reflexivity.
Qed.

(** The DSD flag is raised through the Format control, the playback
    stream is then configured for 2 channels of 24 bits: the flag reads 1
    before and 0 after. *)
Lemma hw_params_clears_dsd_flag_witness :
  format_get
    (snd (format_put 1 (snd (pcie_audio_pcm_open mem_4096x8 0 0%nat chip0)))) = 1 /\
  exists chip',
    pcie_audio_hw_params mem_4096x8 0 (Some 0x2000) 0%nat (params_of 2 96000 24)
        (snd (format_put 1 (snd (pcie_audio_pcm_open mem_4096x8 0 0%nat chip0))))
      = Some (0, chip') /\
    format_get chip' = 0.
Proof.
  split; [apply format_put_sets_dsd |].
  eexists. split; [vm_compute; reflexivity |].
  eapply (hw_params_clears_dsd_flag mem_4096x8 0 (Some 0x2000) 0%nat
            (params_of 2 96000 24)
            (snd (format_put 1
                    (snd (pcie_audio_pcm_open mem_4096x8 0 0%nat chip0))))).
  - vm_compute. split; discriminate.
  - vm_compute. split; discriminate.
  - vm_compute. reflexivity.
Defined.

(** ** The interrupt handler *)

(** *** The combined status word *)

Lemma read_range chip reg : 0 <= pcie_audio_read chip reg < 2 ^ 32.
Proof. apply u32_range. Qed.

(** Bit 0 of the status word is bit 0 of the playback underrun register. *)
Lemma irq_status_bit0 chip :
  Z.testbit (irq_status chip) 0
  = Z.testbit (pcie_audio_read chip REG_STATUS_PB_UNDERRUN) 0.
Proof.
  unfold irq_status. rewrite !Z.lor_spec, !testbit_u32 by lia.
  rewrite !Z.shiftl_spec_low by lia. by rewrite !orb_false_r.
Qed.

(** Bit 0 of the capture overrun register lands on bit 8. *)
Lemma irq_status_bit8 chip :
  Z.testbit (pcie_audio_read chip REG_STATUS_CAP_OVERRUN) 0 = true ->
  Z.testbit (irq_status chip) 8 = true.
Proof.
  intros H. unfold irq_status. rewrite !Z.lor_spec, !testbit_u32 by lia.
  rewrite (Z.shiftl_spec _ 8 8) by lia. change (8 - 8) with 0. rewrite H.
  by rewrite orb_true_r.
Qed.

(** A bit set in the low byte of the DMA error register shows in the
    DMA-error field of the status word. *)
Lemma irq_status_dma_field chip :
  Z.land (pcie_audio_read chip REG_STATUS_DMA_ERROR) 0xFF <> 0 ->
  Z.land (irq_status chip) 0xFF0000 <> 0.
Proof.
  intros H Hz. apply H. apply Z.bits_inj'. intros n Hn.
  rewrite Z.bits_0, Z.land_spec.
  destruct (Z.testbit 255 n) eqn:Hmask; [| by rewrite andb_false_r].
  rewrite andb_true_r.
  assert (Hn8 : n < 8).
  { destruct (Z_lt_dec n 8) as [? | Hge]; [done |].
    rewrite (testbit_small 255 n) in Hmask; [done | | lia].
    split; [lia |]. apply Z.lt_le_trans with (2 ^ 8); [reflexivity |].
    apply Z.pow_le_mono_r; lia. }
  assert (Hbit : Z.testbit (Z.land (irq_status chip) 0xFF0000) (n + 16) = false)
    by (rewrite Hz; apply Z.bits_0).
  rewrite Z.land_spec in Hbit.
  replace (Z.testbit 16711680 (n + 16)) with true in Hbit.
  - rewrite andb_true_r in Hbit. unfold irq_status in Hbit.
    rewrite !Z.lor_spec, !testbit_u32 in Hbit by lia.
    apply orb_false_elim in Hbit as [_ Hbit].
    rewrite Z.shiftl_spec in Hbit by lia.
    by replace (n + 16 - 16) with n in Hbit by lia.
  - change 16711680 with (Z.shiftl 255 16).
    rewrite Z.shiftl_spec by lia.
    by replace (n + 16 - 16) with n by lia.
Qed.

(** The field is eight bits wide: a DMA error register showing only bit 8
    gives a non-zero status word with an empty DMA-error field. *)
Lemma irq_status_dma_field_width chip :
  pcie_audio_read chip REG_STATUS_PB_UNDERRUN = 0 ->
  pcie_audio_read chip REG_STATUS_CAP_OVERRUN = 0 ->
  pcie_audio_read chip REG_STATUS_DMA_ERROR = 0x100 ->
  irq_status chip = 0x1000000 /\ Z.land (irq_status chip) 0xFF0000 = 0.
Proof.
  intros Hpb Hcap Hdma. unfold irq_status. rewrite Hpb, Hcap, Hdma.
  by split.
Qed.

(** *** The blocks of the handler

    Each block is first described by what it leaves alone. *)

Lemma stats_set_stats v chip : stats (set_stats v chip) = v.
Proof. reflexivity. Qed.

Lemma trace_set_stats v chip : trace (set_stats v chip) = trace chip.
Proof. reflexivity. Qed.

Lemma reg_base_set_stats v chip : reg_base (set_stats v chip) = reg_base chip.
Proof. reflexivity. Qed.

Lemma stream_of_set_stats d v chip :
  stream_of d (set_stats v chip) = stream_of d chip.
Proof. by destruct d. Qed.

#[local] Hint Rewrite stats_set_stats trace_set_stats reg_base_set_stats
  stream_of_set_stats : chip_frame.

Lemma irq_playback_frame now status chip :
  reg_base (irq_playback now status chip) = reg_base chip /\
  capture (irq_playback now status chip) = capture chip /\
  cap_overruns (stats (irq_playback now status chip))
    = cap_overruns (stats chip) /\
  dma_errors (stats (irq_playback now status chip)) = dma_errors (stats chip) /\
  exists evs,
    trace (irq_playback now status chip) = trace chip ++ evs /\
    reg_writes evs = [] /\
    notifications SNDRV_PCM_STREAM_CAPTURE evs = [].
Proof.
  unfold irq_playback.
  destruct (Z.land status 255 =? 0);
    [| destruct (substream (playback chip));
       [destruct (negb (Z.land status (Z.shiftl 1 0) =? 0)) |]];
    cbn; (repeat (split; [reflexivity |]));
    first [ by exists []; rewrite app_nil_r
          | eexists; split; [reflexivity | by split] ].
Qed.

Lemma irq_capture_frame now status chip :
  reg_base (irq_capture now status chip) = reg_base chip /\
  playback (irq_capture now status chip) = playback chip /\
  pb_underruns (stats (irq_capture now status chip))
    = pb_underruns (stats chip) /\
  dma_errors (stats (irq_capture now status chip)) = dma_errors (stats chip) /\
  exists evs,
    trace (irq_capture now status chip) = trace chip ++ evs /\
    reg_writes evs = [] /\
    notifications SNDRV_PCM_STREAM_PLAYBACK evs = [].
Proof.
  unfold irq_capture.
  destruct (Z.land status 65280 =? 0);
    [| destruct (substream (capture chip));
       [destruct (negb (Z.land status (Z.shiftl 1 8) =? 0)) |]];
    cbn; (repeat (split; [reflexivity |]));
    first [ by exists []; rewrite app_nil_r
          | eexists; split; [reflexivity | by split] ].
Qed.

Lemma irq_dma_error_frame cfg status chip :
  playback (irq_dma_error cfg status chip) = playback chip /\
  capture (irq_dma_error cfg status chip) = capture chip /\
  pb_underruns (stats (irq_dma_error cfg status chip))
    = pb_underruns (stats chip) /\
  cap_overruns (stats (irq_dma_error cfg status chip))
    = cap_overruns (stats chip) /\
  exists evs,
    trace (irq_dma_error cfg status chip) = trace chip ++ evs /\
    forall d, notifications d evs = [].
Proof.
  unfold irq_dma_error.
  destruct (Z.land status 16711680 =? 0);
    cbn; (repeat (split; [reflexivity |])).
  - exists []. by rewrite app_nil_r.
  - eexists. rewrite <- !app_assoc. split; [reflexivity | done].
Qed.

Lemma irq_clear_status_frame chip :
  playback (irq_clear_status chip) = playback chip /\
  capture (irq_clear_status chip) = capture chip /\
  stats (irq_clear_status chip) = stats chip /\
  trace (irq_clear_status chip)
    = trace chip ++ [EvWrite REG_STATUS_PB_UNDERRUN 0xFFFFFFFF;
                     EvWrite REG_STATUS_CAP_OVERRUN 0xFFFFFFFF;
                     EvWrite REG_STATUS_DMA_ERROR 0xFFFFFFFF].
Proof.
  unfold irq_clear_status. cbn. repeat (split; [reflexivity |]).
  by rewrite <- !app_assoc.
Qed.

Lemma land_eqb_false x m n :
  Z.testbit x n = true -> Z.testbit m n = true -> (Z.land x m =? 0) = false.
Proof. intros Hx Hm. apply Z.eqb_neq. by eapply land_mask_neq_0. Qed.

(** The playback block on an underrun with a bound session. *)
Lemma irq_playback_xrun now status chip ssp :
  substream (playback chip) = Some ssp ->
  Z.testbit status 0 = true ->
  errors (playback (irq_playback now status chip))
    = ulong_inc (errors (playback chip)) /\
  pb_underruns (stats (irq_playback now status chip))
    = ulong_inc (pb_underruns (stats chip)) /\
  trace (irq_playback now status chip)
    = trace chip ++ [EvStopXrun SNDRV_PCM_STREAM_PLAYBACK ssp].
Proof.
  intros Hs Hb. unfold irq_playback.
  rewrite (land_eqb_false status 255 0 Hb eq_refl), Hs.
  rewrite (land_eqb_false status (Z.shiftl 1 0) 0 Hb eq_refl).
  by cbn.
Qed.

(** The capture block on an overrun with a bound session. *)
Lemma irq_capture_xrun now status chip ssp :
  substream (capture chip) = Some ssp ->
  Z.testbit status 8 = true ->
  errors (capture (irq_capture now status chip))
    = ulong_inc (errors (capture chip)) /\
  cap_overruns (stats (irq_capture now status chip))
    = ulong_inc (cap_overruns (stats chip)) /\
  trace (irq_capture now status chip)
    = trace chip ++ [EvStopXrun SNDRV_PCM_STREAM_CAPTURE ssp].
Proof.
  intros Hs Hb. unfold irq_capture.
  rewrite (land_eqb_false status 65280 8 Hb eq_refl), Hs.
  rewrite (land_eqb_false status (Z.shiftl 1 8) 8 Hb eq_refl).
  by cbn.
Qed.

(** The blocks with no session bound: nothing happens. *)
Lemma irq_playback_unbound now status chip :
  substream (playback chip) = None -> irq_playback now status chip = chip.
Proof.
  intros Hs. unfold irq_playback. rewrite Hs.
  by destruct (Z.land status 255 =? 0).
Qed.

Lemma irq_capture_unbound now status chip :
  substream (capture chip) = None -> irq_capture now status chip = chip.
Proof.
  intros Hs. unfold irq_capture. rewrite Hs.
  by destruct (Z.land status 65280 =? 0).
Qed.

(** The handler when the status word is not zero, block by block. *)
Lemma pcie_audio_interrupt_handled cfg now chip :
  irq_status chip <> 0 ->
  pcie_audio_interrupt cfg now chip
  = (IRQ_HANDLED,
     irq_clear_status
       (irq_dma_error cfg (irq_status chip)
          (irq_capture now (irq_status chip)
             (irq_playback now (irq_status chip) chip)))).
Proof.
  intros H. unfold pcie_audio_interrupt.
  by rewrite (proj2 (Z.eqb_neq _ _) H).
Qed.

Lemma interrupt_xrun_playback cfg now chip ssp :
  substream (playback chip) = Some ssp ->
  Z.testbit (pcie_audio_read chip REG_STATUS_PB_UNDERRUN) 0 = true ->
  fst (pcie_audio_interrupt cfg now chip) = IRQ_HANDLED /\
  notifications SNDRV_PCM_STREAM_PLAYBACK
      (emitted chip (snd (pcie_audio_interrupt cfg now chip)))
    = [EvStopXrun SNDRV_PCM_STREAM_PLAYBACK ssp] /\
  pb_underruns (stats (snd (pcie_audio_interrupt cfg now chip)))
    = ulong_inc (pb_underruns (stats chip)) /\
  errors (playback (snd (pcie_audio_interrupt cfg now chip)))
    = ulong_inc (errors (playback chip)).
Proof.
  intros Hs Hb. rewrite <- irq_status_bit0 in Hb.
  rewrite pcie_audio_interrupt_handled by (by eapply testbit_true_neq_0).
  cbn [fst snd]. set (status := irq_status chip) in *.
  destruct (irq_playback_xrun now status chip ssp Hs Hb) as (He & Hu & Ht).
  set (c1 := irq_playback now status chip) in *.
  destruct (irq_capture_frame now status c1)
    as (_ & Hp2 & Hu2 & _ & evs2 & Ht2 & _ & Hn2).
  set (c2 := irq_capture now status c1) in *.
  destruct (irq_dma_error_frame cfg status c2)
    as (Hp3 & _ & Hu3 & _ & evs3 & Ht3 & Hn3).
  set (c3 := irq_dma_error cfg status c2) in *.
  destruct (irq_clear_status_frame c3) as (Hp4 & _ & Hst4 & Ht4).
  split; [reflexivity |]. split; [| split].
  - erewrite emitted_app;
      [| rewrite Ht4, Ht3, Ht2, Ht, <- !app_assoc; reflexivity].
    rewrite !notifications_app, Hn2, Hn3. reflexivity.
  - by rewrite Hst4, Hu3, Hu2.
  - by rewrite Hp4, Hp3, Hp2.
Qed.

Lemma interrupt_xrun_capture cfg now chip ssp :
  substream (capture chip) = Some ssp ->
  Z.testbit (pcie_audio_read chip REG_STATUS_CAP_OVERRUN) 0 = true ->
  fst (pcie_audio_interrupt cfg now chip) = IRQ_HANDLED /\
  notifications SNDRV_PCM_STREAM_CAPTURE
      (emitted chip (snd (pcie_audio_interrupt cfg now chip)))
    = [EvStopXrun SNDRV_PCM_STREAM_CAPTURE ssp] /\
  cap_overruns (stats (snd (pcie_audio_interrupt cfg now chip)))
    = ulong_inc (cap_overruns (stats chip)) /\
  errors (capture (snd (pcie_audio_interrupt cfg now chip)))
    = ulong_inc (errors (capture chip)).
Proof.
  intros Hs Hb. apply irq_status_bit8 in Hb.
  rewrite pcie_audio_interrupt_handled by (by eapply testbit_true_neq_0).
  cbn [fst snd]. set (status := irq_status chip) in *.
  destruct (irq_playback_frame now status chip)
    as (_ & Hc1 & Hu1 & _ & evs1 & Ht1 & _ & Hn1).
  set (c1 := irq_playback now status chip) in *.
  rewrite <- Hc1 in Hs.
  destruct (irq_capture_xrun now status c1 ssp Hs Hb) as (He & Hu & Ht).
  set (c2 := irq_capture now status c1) in *.
  destruct (irq_dma_error_frame cfg status c2)
    as (_ & Hc3 & _ & Hu3 & evs3 & Ht3 & Hn3).
  set (c3 := irq_dma_error cfg status c2) in *.
  destruct (irq_clear_status_frame c3) as (_ & Hc4 & Hst4 & Ht4).
  split; [reflexivity |]. split; [| split].
  - erewrite emitted_app;
      [| rewrite Ht4, Ht3, Ht, Ht1, <- !app_assoc; reflexivity].
    rewrite !notifications_app, Hn1, Hn3. reflexivity.
  - by rewrite Hst4, Hu3, Hu, Hu1.
  - by rewrite Hc4, Hc3, He, Hc1.
Qed.

Lemma interrupt_unbound_playback cfg now chip :
  substream (playback chip) = None ->
  irq_status chip <> 0 ->
  playback (snd (pcie_audio_interrupt cfg now chip)) = playback chip /\
  pb_underruns (stats (snd (pcie_audio_interrupt cfg now chip)))
    = pb_underruns (stats chip) /\
  notifications SNDRV_PCM_STREAM_PLAYBACK
      (emitted chip (snd (pcie_audio_interrupt cfg now chip))) = [] /\
  In (EvWrite REG_STATUS_PB_UNDERRUN 0xFFFFFFFF)
     (emitted chip (snd (pcie_audio_interrupt cfg now chip))).
Proof.
  intros Hs Hne. rewrite pcie_audio_interrupt_handled by done.
  cbn [fst snd]. set (status := irq_status chip) in *.
  rewrite (irq_playback_unbound now status chip Hs).
  destruct (irq_capture_frame now status chip)
    as (_ & Hp2 & Hu2 & _ & evs2 & Ht2 & _ & Hn2).
  set (c2 := irq_capture now status chip) in *.
  destruct (irq_dma_error_frame cfg status c2)
    as (Hp3 & _ & Hu3 & _ & evs3 & Ht3 & Hn3).
  set (c3 := irq_dma_error cfg status c2) in *.
  destruct (irq_clear_status_frame c3) as (Hp4 & _ & Hst4 & Ht4).
  split; [by rewrite Hp4, Hp3, Hp2 |].
  split; [by rewrite Hst4, Hu3, Hu2 |].
  erewrite emitted_app;
    [| rewrite Ht4, Ht3, Ht2, <- !app_assoc; reflexivity].
  split.
  - rewrite !notifications_app, Hn2, Hn3. reflexivity.
  - apply in_or_app. right. apply in_or_app. right. by left.
Qed.

Lemma interrupt_unbound_capture cfg now chip :
  substream (capture chip) = None ->
  irq_status chip <> 0 ->
  capture (snd (pcie_audio_interrupt cfg now chip)) = capture chip /\
  cap_overruns (stats (snd (pcie_audio_interrupt cfg now chip)))
    = cap_overruns (stats chip) /\
  notifications SNDRV_PCM_STREAM_CAPTURE
      (emitted chip (snd (pcie_audio_interrupt cfg now chip))) = [] /\
  In (EvWrite REG_STATUS_CAP_OVERRUN 0xFFFFFFFF)
     (emitted chip (snd (pcie_audio_interrupt cfg now chip))).
Proof.
  intros Hs Hne. rewrite pcie_audio_interrupt_handled by done.
  cbn [fst snd]. set (status := irq_status chip) in *.
  destruct (irq_playback_frame now status chip)
    as (_ & Hc1 & Hu1 & _ & evs1 & Ht1 & _ & Hn1).
  set (c1 := irq_playback now status chip) in *.
  rewrite <- Hc1 in Hs.
  rewrite (irq_capture_unbound now status c1 Hs).
  destruct (irq_dma_error_frame cfg status c1)
    as (_ & Hc3 & _ & Hu3 & evs3 & Ht3 & Hn3).
  set (c3 := irq_dma_error cfg status c1) in *.
  destruct (irq_clear_status_frame c3) as (_ & Hc4 & Hst4 & Ht4).
  split; [by rewrite Hc4, Hc3, Hc1 |].
  split; [by rewrite Hst4, Hu3, Hu1 |].
  erewrite emitted_app;
    [| rewrite Ht4, Ht3, Ht1, <- !app_assoc; reflexivity].
  split.
  - rewrite !notifications_app, Hn1, Hn3. reflexivity.
  - apply in_or_app. right. apply in_or_app. right. right. by left.
Qed.

Lemma xrun_bit_status_neq_0 d chip :
  Z.testbit (pcie_audio_read chip (xrun_status_reg d)) 0 = true ->
  irq_status chip <> 0.
Proof.
  destruct d; cbn [xrun_status_reg]; intros H.
  - rewrite <- irq_status_bit0 in H. by eapply testbit_true_neq_0.
  - apply irq_status_bit8 in H. by eapply testbit_true_neq_0.
Qed.

(** C6.  An interrupt whose underrun bit is set while a playback session
    is bound is handled, sends that session exactly one notification, the
    x-run, and no period-elapsed one, and adds 1 to the underrun
    statistic and to the stream's error counter.  The same holds for
    capture with the overrun bit, the overrun statistic and the capture
    stream: [d] ranges over both directions. *)
Theorem interrupt_xrun_with_bound_session cfg now d ssp chip :
  substream (stream_of d chip) = Some ssp ->
  Z.testbit (pcie_audio_read chip (xrun_status_reg d)) 0 = true ->
  0 <= xrun_stat d (stats chip) < ULONG_MAX ->
  0 <= errors (stream_of d chip) < ULONG_MAX ->
  fst (pcie_audio_interrupt cfg now chip) = IRQ_HANDLED /\
  notifications d (emitted chip (snd (pcie_audio_interrupt cfg now chip)))
    = [EvStopXrun d ssp] /\
  xrun_stat d (stats (snd (pcie_audio_interrupt cfg now chip)))
    = xrun_stat d (stats chip) + 1 /\
  errors (stream_of d (snd (pcie_audio_interrupt cfg now chip)))
    = errors (stream_of d chip) + 1.
Proof.
  intros Hs Hb Hstat Herr.
  rewrite <- (ulong_inc_small _ Hstat), <- (ulong_inc_small _ Herr).
  destruct d; cbn [stream_of xrun_stat xrun_status_reg] in *.
  - by apply interrupt_xrun_playback.
  - by apply interrupt_xrun_capture.
Qed.

(** Playback is running and the hardware latches an underrun. *)
Lemma interrupt_xrun_with_bound_session_witness :
  substream (stream_of SNDRV_PCM_STREAM_PLAYBACK chip_underrun_running)
    = Some 0%nat /\
  notifications SNDRV_PCM_STREAM_PLAYBACK
    (emitted chip_underrun_running
       (snd (pcie_audio_interrupt EXAMPLE_REG_DMA_CONFIG 1000000
               chip_underrun_running)))
  = [EvStopXrun SNDRV_PCM_STREAM_PLAYBACK 0%nat].
Proof.
  assert (H1 : substream (stream_of SNDRV_PCM_STREAM_PLAYBACK
                            chip_underrun_running) = Some 0%nat)
    by (vm_compute; reflexivity).
  assert (H2 : Z.testbit
                 (pcie_audio_read chip_underrun_running
                    (xrun_status_reg SNDRV_PCM_STREAM_PLAYBACK)) 0 = true)
    by (vm_compute; reflexivity).
  assert (H3 : 0 <= xrun_stat SNDRV_PCM_STREAM_PLAYBACK
                      (stats chip_underrun_running) < ULONG_MAX)
    by (vm_compute; split; [discriminate | reflexivity]).
  assert (H4 : 0 <= errors (stream_of SNDRV_PCM_STREAM_PLAYBACK
                              chip_underrun_running) < ULONG_MAX)
    by (vm_compute; split; [discriminate | reflexivity]).
  split; [exact H1 |].
  exact (proj1 (proj2 (interrupt_xrun_with_bound_session
                         EXAMPLE_REG_DMA_CONFIG 1000000
                         SNDRV_PCM_STREAM_PLAYBACK 0%nat
                         chip_underrun_running H1 H2 H3 H4))).
Defined.

(** C3 (as stated) fails.  Playback is started, stopped and closed, so no
    session is bound; the hardware then latches a late underrun.  The
    handler leaves the underrun statistic at 0 instead of counting the
    event. *)
Lemma late_underrun_unbound_not_counted :
  substream (playback chip_underrun_closed) = None /\
  Z.testbit (pcie_audio_read chip_underrun_closed REG_STATUS_PB_UNDERRUN) 0
    = true /\
  pb_underruns (stats chip_underrun_closed) = 0 /\
  fst (pcie_audio_interrupt EXAMPLE_REG_DMA_CONFIG 1000000
         chip_underrun_closed) = IRQ_HANDLED /\
  pb_underruns
    (stats
       (snd (pcie_audio_interrupt EXAMPLE_REG_DMA_CONFIG 1000000
               chip_underrun_closed))) = 0.
Proof. vm_compute. by repeat split. Qed.

(** C3 (amended).  A late underrun (overrun) bit for a direction with no
    bound session is handled without reaching that direction at all: the
    stream is unchanged, no notification is sent to it, and the underrun
    (overrun) statistic is not incremented; the handler only clears the
    status register. *)
Theorem interrupt_xrun_without_session cfg now d chip :
  substream (stream_of d chip) = None ->
  Z.testbit (pcie_audio_read chip (xrun_status_reg d)) 0 = true ->
  fst (pcie_audio_interrupt cfg now chip) = IRQ_HANDLED /\
  stream_of d (snd (pcie_audio_interrupt cfg now chip)) = stream_of d chip /\
  xrun_stat d (stats (snd (pcie_audio_interrupt cfg now chip)))
    = xrun_stat d (stats chip) /\
  notifications d (emitted chip (snd (pcie_audio_interrupt cfg now chip)))
    = [] /\
  In (EvWrite (xrun_status_reg d) 0xFFFFFFFF)
     (emitted chip (snd (pcie_audio_interrupt cfg now chip))).
Proof.
  intros Hs Hb. apply xrun_bit_status_neq_0 in Hb.
  split; [by rewrite pcie_audio_interrupt_handled |].
  destruct d; cbn [stream_of xrun_stat xrun_status_reg] in *.
  - by apply interrupt_unbound_playback.
  - by apply interrupt_unbound_capture.
Qed.

Lemma interrupt_xrun_without_session_witness :
  substream (stream_of SNDRV_PCM_STREAM_PLAYBACK chip_underrun_closed) = None /\
  xrun_stat SNDRV_PCM_STREAM_PLAYBACK
    (stats
       (snd (pcie_audio_interrupt EXAMPLE_REG_DMA_CONFIG 1000000
               chip_underrun_closed)))
  = xrun_stat SNDRV_PCM_STREAM_PLAYBACK (stats chip_underrun_closed).
Proof.
  assert (H1 : substream (stream_of SNDRV_PCM_STREAM_PLAYBACK
                            chip_underrun_closed) = None)
    by (vm_compute; reflexivity).
  assert (H2 : Z.testbit
                 (pcie_audio_read chip_underrun_closed
                    (xrun_status_reg SNDRV_PCM_STREAM_PLAYBACK)) 0 = true)
    by (vm_compute; reflexivity).
  split; [exact H1 |].
  exact (proj1 (proj2 (proj2 (interrupt_xrun_without_session
                                EXAMPLE_REG_DMA_CONFIG 1000000
                                SNDRV_PCM_STREAM_PLAYBACK
                                chip_underrun_closed H1 H2)))).
Defined.

(** *** The fault path *)

Lemma is_w1c_false_neq cfg :
  is_w1c cfg = false ->
  REG_STATUS_PB_UNDERRUN <> cfg /\ REG_STATUS_CAP_OVERRUN <> cfg /\
  REG_STATUS_DMA_ERROR <> cfg.
Proof.
  unfold is_w1c. intros H.
  apply orb_false_elim in H as [H _].
  apply orb_false_elim in H as [H H3].
  apply orb_false_elim in H as [H1 H2].
  apply Z.eqb_neq in H1, H2, H3. repeat split; congruence.
Qed.

Lemma dma_config_baseline_value : dma_config_baseline = 0x02000103.
Proof. reflexivity. Qed.

(** The DMA block when a DMA-error bit of the status word is set. *)
Lemma irq_dma_error_taken cfg status chip :
  Z.land status 0xFF0000 <> 0 ->
  irq_dma_error cfg status chip
  = pcie_audio_write cfg dma_config_baseline
      (pcie_audio_write REG_CTRL_CAP_ENABLE 0
         (pcie_audio_write REG_CTRL_PB_ENABLE 0
            (set_stats
               (set_dma_errors (ulong_inc (dma_errors (stats chip)))
                  (stats chip)) chip))).
Proof.
  intros H. unfold irq_dma_error.
  by rewrite (proj2 (Z.eqb_neq _ _) H).
Qed.

(** The fault path, taken whenever the DMA-error field of the status
    word, bits 16 to 23, is not empty. *)
Lemma interrupt_dma_field_hard_stop cfg now chip :
  Z.land (irq_status chip) 0xFF0000 <> 0 ->
  is_w1c cfg = false ->
  cfg <> REG_CTRL_PB_ENABLE ->
  cfg <> REG_CTRL_CAP_ENABLE ->
  0 <= dma_errors (stats chip) < ULONG_MAX ->
  fst (pcie_audio_interrupt cfg now chip) = IRQ_HANDLED /\
  dma_errors (stats (snd (pcie_audio_interrupt cfg now chip)))
    = dma_errors (stats chip) + 1 /\
  reg_writes (emitted chip (snd (pcie_audio_interrupt cfg now chip)))
    = [ EvWrite REG_CTRL_PB_ENABLE 0;
        EvWrite REG_CTRL_CAP_ENABLE 0;
        EvWrite cfg
          (Z.lor (Z.lor (Z.lor (Z.shiftl 512 16) (Z.shiftl 1 8)) (Z.shiftl 1 1))
             (Z.shiftl 1 0));
        EvWrite REG_STATUS_PB_UNDERRUN 0xFFFFFFFF;
        EvWrite REG_STATUS_CAP_OVERRUN 0xFFFFFFFF;
        EvWrite REG_STATUS_DMA_ERROR 0xFFFFFFFF ] /\
  pcie_audio_read (snd (pcie_audio_interrupt cfg now chip)) REG_CTRL_PB_ENABLE
    = 0 /\
  pcie_audio_read (snd (pcie_audio_interrupt cfg now chip)) REG_CTRL_CAP_ENABLE
    = 0 /\
  pcie_audio_read (snd (pcie_audio_interrupt cfg now chip)) cfg
    = dma_config_baseline.
Proof.
  intros Hdma Hw1c Hpb Hcap Hstat.
  destruct (is_w1c_false_neq cfg Hw1c) as (Hs1 & Hs2 & Hs3).
  assert (Hne : irq_status chip <> 0).
  { intros Hz. apply Hdma. by rewrite Hz. }
  rewrite pcie_audio_interrupt_handled by done.
  cbn [fst snd]. set (status := irq_status chip) in *.
  destruct (irq_playback_frame now status chip)
    as (_ & _ & _ & Hd1 & evs1 & Ht1 & Hw1 & _).
  set (c1 := irq_playback now status chip) in *.
  destruct (irq_capture_frame now status c1)
    as (_ & _ & _ & Hd2 & evs2 & Ht2 & Hw2 & _).
  set (c2 := irq_capture now status c1) in *.
  rewrite (irq_dma_error_taken cfg status c2 Hdma).
  unfold irq_clear_status.
  split; [reflexivity |]. split; [| split; [| split; [| split]]].
  - cbn. rewrite Hd2, Hd1. by apply ulong_inc_small.
  - erewrite emitted_app.
    2:{ cbn [trace pcie_audio_write set_stats]. rewrite Ht2, Ht1.
        rewrite <- !app_assoc. reflexivity. }
    rewrite !reg_writes_app, Hw1, Hw2. reflexivity.
  - do 3 (rewrite read_write_ne by done).
    rewrite read_write_ne by done.
    rewrite read_write_ne by done.
    by rewrite read_write_eq.
  - do 3 (rewrite read_write_ne by done).
    rewrite read_write_ne by done.
    by rewrite read_write_eq.
  - do 3 (rewrite read_write_ne by done).
    by rewrite read_write_eq.
Qed.

(** C7 (as stated) fails for the DMA-error bits above bit 7.  Playback
    is running.  With bit 8 of the DMA error register latched the
    handler claims the interrupt but takes no fault path: the DMA-error
    statistic stays, playback stays enabled and its only register
    writes are the three status clears.  With bit 16 latched the status
    word is zero and the handler does not even claim the interrupt. *)
Lemma dma_error_high_bits_no_hard_stop :
  pcie_audio_read chip_dma_error_bit8 REG_STATUS_DMA_ERROR = 0x100 /\
  pcie_audio_read chip_dma_error_bit8 REG_CTRL_PB_ENABLE = 1 /\
  fst (pcie_audio_interrupt EXAMPLE_REG_DMA_CONFIG 1000000 chip_dma_error_bit8)
    = IRQ_HANDLED /\
  dma_errors
    (stats (snd (pcie_audio_interrupt EXAMPLE_REG_DMA_CONFIG 1000000
                   chip_dma_error_bit8)))
    = dma_errors (stats chip_dma_error_bit8) /\
  pcie_audio_read
    (snd (pcie_audio_interrupt EXAMPLE_REG_DMA_CONFIG 1000000
            chip_dma_error_bit8))
    REG_CTRL_PB_ENABLE = 1 /\
  reg_writes
    (emitted chip_dma_error_bit8
       (snd (pcie_audio_interrupt EXAMPLE_REG_DMA_CONFIG 1000000
               chip_dma_error_bit8)))
    = [ EvWrite REG_STATUS_PB_UNDERRUN 0xFFFFFFFF;
        EvWrite REG_STATUS_CAP_OVERRUN 0xFFFFFFFF;
        EvWrite REG_STATUS_DMA_ERROR 0xFFFFFFFF ] /\
  pcie_audio_read chip_dma_error_bit16 REG_STATUS_DMA_ERROR = 0x10000 /\
  pcie_audio_interrupt EXAMPLE_REG_DMA_CONFIG 1000000 chip_dma_error_bit16
    = (IRQ_NONE, chip_dma_error_bit16).
Proof.
  vm_compute. by repeat split.
Qed.

(** C7 (amended).  An interrupt with one of bits 0 to 7 of the DMA error
    register set adds 1 to the DMA-error statistic, writes 0 to the
    enable registers of both directions, whatever they held, and
    rewrites the DMA global configuration with its baseline: burst size
    512, scatter-gather, completion interrupt, master enable.
    Afterwards both enable registers read 0 and the configuration
    register reads the baseline.  [cfg] is the offset of
    [REG_DMA_CONFIG], a plain control register distinct from the two
    enable registers. *)
Theorem interrupt_dma_error_hard_stop cfg now chip :
  Z.land (pcie_audio_read chip REG_STATUS_DMA_ERROR) 0xFF <> 0 ->
  is_w1c cfg = false ->
  cfg <> REG_CTRL_PB_ENABLE ->
  cfg <> REG_CTRL_CAP_ENABLE ->
  0 <= dma_errors (stats chip) < ULONG_MAX ->
  fst (pcie_audio_interrupt cfg now chip) = IRQ_HANDLED /\
  dma_errors (stats (snd (pcie_audio_interrupt cfg now chip)))
    = dma_errors (stats chip) + 1 /\
  reg_writes (emitted chip (snd (pcie_audio_interrupt cfg now chip)))
    = [ EvWrite REG_CTRL_PB_ENABLE 0;
        EvWrite REG_CTRL_CAP_ENABLE 0;
        EvWrite cfg
          (Z.lor (Z.lor (Z.lor (Z.shiftl 512 16) (Z.shiftl 1 8)) (Z.shiftl 1 1))
             (Z.shiftl 1 0));
        EvWrite REG_STATUS_PB_UNDERRUN 0xFFFFFFFF;
        EvWrite REG_STATUS_CAP_OVERRUN 0xFFFFFFFF;
        EvWrite REG_STATUS_DMA_ERROR 0xFFFFFFFF ] /\
  pcie_audio_read (snd (pcie_audio_interrupt cfg now chip)) REG_CTRL_PB_ENABLE
    = 0 /\
  pcie_audio_read (snd (pcie_audio_interrupt cfg now chip)) REG_CTRL_CAP_ENABLE
    = 0 /\
  pcie_audio_read (snd (pcie_audio_interrupt cfg now chip)) cfg
    = dma_config_baseline.
Proof.
  intros Hdma. apply interrupt_dma_field_hard_stop.
  by apply irq_status_dma_field.
Qed.

(** Only playback is running when the fault arrives: its enable register
    reads 1 before the interrupt, and both read 0 after it. *)
Lemma interrupt_dma_error_hard_stop_witness :
  pcie_audio_read chip_dma_fault REG_CTRL_PB_ENABLE = 1 /\
  Z.land (pcie_audio_read chip_dma_fault REG_STATUS_DMA_ERROR) 0xFF <> 0 /\
  pcie_audio_read
    (snd (pcie_audio_interrupt EXAMPLE_REG_DMA_CONFIG 1000000 chip_dma_fault))
    REG_CTRL_PB_ENABLE = 0.
Proof.
  assert (H0 : pcie_audio_read chip_dma_fault REG_CTRL_PB_ENABLE = 1)
    by (vm_compute; reflexivity).
  assert (H1 : Z.land (pcie_audio_read chip_dma_fault REG_STATUS_DMA_ERROR)
                 0xFF <> 0)
    by (vm_compute; discriminate).
  assert (H2 : is_w1c EXAMPLE_REG_DMA_CONFIG = false)
    by (vm_compute; reflexivity).
  assert (H3 : EXAMPLE_REG_DMA_CONFIG <> REG_CTRL_PB_ENABLE)
    by (vm_compute; discriminate).
  assert (H4 : EXAMPLE_REG_DMA_CONFIG <> REG_CTRL_CAP_ENABLE)
    by (vm_compute; discriminate).
  assert (H5 : 0 <= dma_errors (stats chip_dma_fault) < ULONG_MAX)
    by (vm_compute; split; [discriminate | reflexivity]).
  split; [exact H0 |]. split; [exact H1 |].
  exact (proj1 (proj2 (proj2 (proj2
           (interrupt_dma_error_hard_stop EXAMPLE_REG_DMA_CONFIG 1000000
              chip_dma_fault H1 H2 H3 H4 H5))))).
Defined.

(** ** [pcie_audio_pcm_open] *)

(** C4 (as stated) fails.  Playback is bound to substream 0; opening the
    playback direction again, for substream 2, returns 0 rather than an
    error and replaces the binding. *)
Lemma pcm_open_rebinds_bound_direction :
  substream (playback chip_open_playback) = Some 0%nat /\
  ss_stream (mem_4096x8 2%nat) = SNDRV_PCM_STREAM_PLAYBACK /\
  fst (pcie_audio_pcm_open mem_4096x8 5 2%nat chip_open_playback) = 0 /\
  substream
    (playback (snd (pcie_audio_pcm_open mem_4096x8 5 2%nat chip_open_playback)))
  = Some 2%nat.
Proof. vm_compute. by repeat split. Qed.

(** C4 (amended).  open(direction) always succeeds: it binds the session
    handle it is given, replacing any handle bound before, and resets
    the stream's interrupt counter, error counter and latency to 0 and
    its last-interrupt timestamp to the current time. *)
Theorem pcm_open_always_binds mem now ssp chip :
  fst (pcie_audio_pcm_open mem now ssp chip) = 0 /\
  substream
    (stream_of (ss_stream (mem ssp)) (snd (pcie_audio_pcm_open mem now ssp chip)))
  = Some ssp /\
  interrupts
    (stream_of (ss_stream (mem ssp)) (snd (pcie_audio_pcm_open mem now ssp chip)))
  = 0 /\
  errors
    (stream_of (ss_stream (mem ssp)) (snd (pcie_audio_pcm_open mem now ssp chip)))
  = 0 /\
  latency
    (stream_of (ss_stream (mem ssp)) (snd (pcie_audio_pcm_open mem now ssp chip)))
  = 0 /\
  last_interrupt
    (stream_of (ss_stream (mem ssp)) (snd (pcie_audio_pcm_open mem now ssp chip)))
  = now.
Proof.
  unfold pcie_audio_pcm_open. cbn [fst snd].
  rewrite stream_of_upd_same, stream_of_emit, stream_of_upd_same.
  by repeat split.
Qed.

(** ** The ring [setup_dma_descriptors] builds *)

Lemma built_ring_length buf period_bytes dma :
  List.length (built_ring buf period_bytes dma) = Z.to_nat DMA_DESC_COUNT.
Proof. unfold built_ring. by rewrite length_fmap, length_seq. Qed.

Lemma built_ring_lookup buf period_bytes dma (i : nat) :
  (i < Z.to_nat DMA_DESC_COUNT)%nat ->
  built_ring buf period_bytes dma !! i
  = Some (init_desc buf period_bytes dma DMA_DESC_COUNT (Z.of_nat i)).
Proof.
  intros Hi. unfold built_ring.
  rewrite list_lookup_fmap, lookup_seq_lt by done. reflexivity.
Qed.

(** Of the [DMA_DESC_COUNT] descriptors only the last carries WRAP, and
    each points at the slot after it, the last one back at slot 0. *)
Lemma init_desc_wrap_next buf period_bytes dma (i : nat) :
  (i < Z.to_nat DMA_DESC_COUNT)%nat ->
  Z.testbit
    (flags (init_desc buf period_bytes dma DMA_DESC_COUNT (Z.of_nat i))) 2
  = bool_decide (i = 31%nat) /\
  next (init_desc buf period_bytes dma DMA_DESC_COUNT (Z.of_nat i))
  = u64 (dma + Z.of_nat (S i mod 32) * sizeof_desc).
Proof.
  intros Hi. change (Z.to_nat DMA_DESC_COUNT) with 32%nat in Hi.
  do 32 (destruct i as [| i]; [split; reflexivity |]). lia.
Qed.

(** The ring has [DMA_DESC_COUNT] descriptors whatever the period count
    of the runtime is. *)
Lemma setup_ring_size mem dma d chip p :
  substream (stream_of d chip) = Some p ->
  exists chip' ring,
    setup_dma_descriptors mem (Some dma) d chip = Some (0, chip') /\
    desc (stream_of d chip') = Some ring /\
    List.length ring = Z.to_nat DMA_DESC_COUNT /\
    desc_count (stream_of d chip') = DMA_DESC_COUNT /\
    periods (stream_of d chip') = rt_periods (ss_runtime (mem p)).
Proof.
  intros Hp.
  destruct (setup_dma_descriptors_ok mem dma d chip p Hp)
    as (chip' & Hok & Hring & _ & Hcount & Hper & _).
  exists chip', (built_ring (rt_dma_addr (ss_runtime (mem p)))
                  (rt_period_bytes (ss_runtime (mem p))) dma).
  by rewrite built_ring_length.
Qed.

(** C1 at period_count = 8, period_bytes = 4096 (buffer of 32768 bytes at
    0x10000000): the ring has 32 descriptors, not 8.  Descriptor 7, the
    last period of the buffer, carries no WRAP and chains to descriptor
    8, whose segment starts at the end of the buffer; WRAP sits on
    descriptor 31. *)
Theorem setup_ring_at_period_count_8 :
  rt_periods (ss_runtime (mem_4096x8 0%nat)) = 8 /\
  rt_dma_addr (ss_runtime (mem_4096x8 0%nat))
    + rt_dma_bytes (ss_runtime (mem_4096x8 0%nat)) = 0x10008000 /\
  exists chip' ring,
    setup_dma_descriptors mem_4096x8 (Some 0x2000) SNDRV_PCM_STREAM_PLAYBACK
        chip_open_playback = Some (0, chip') /\
    desc (playback chip') = Some ring /\
    periods (playback chip') = 8 /\
    desc_count (playback chip') = 32 /\
    List.length ring = 32%nat /\
    ring !! 7%nat
      = Some {| address := 0x10007000; length := 4096;
                flags := DESC_FLAG_INT; next := 0x2000 + 8 * sizeof_desc |} /\
    ring !! 8%nat
      = Some {| address := 0x10008000; length := 4096;
                flags := 0; next := 0x2000 + 9 * sizeof_desc |} /\
    ring !! 31%nat
      = Some {| address := 0x1001F000; length := 4096;
                flags := Z.lor DESC_FLAG_INT DESC_FLAG_WRAP; next := 0x2000 |}.
Proof.
  split; [reflexivity |]. split; [reflexivity |].
  eexists. eexists. split; [vm_compute; reflexivity |].
  vm_compute. by repeat split.
Qed.

(** ** Bring-up *)

(** A wait during which the hardware never shows the lock runs out of
    polls, having slept once per poll. *)
Lemma wait_clock_lock_never_locked polls k chip :
  fst (wait_clock_lock (fun _ => 0) polls k chip) = false /\
  trace (snd (wait_clock_lock (fun _ => 0) polls k chip))
  = trace chip ++ replicate polls (EvSleep 1).
Proof.
  revert k chip. induction polls as [| polls IH]; intros k chip.
  - cbn. by rewrite app_nil_r.
  - cbn [wait_clock_lock].
    assert (Hread : pcie_audio_read (hw_present REG_STATUS_LOCKED 0 chip)
                      REG_STATUS_LOCKED = 0).
    { unfold pcie_audio_read, hw_present, readl. cbn [reg_base].
      by rewrite lookup_insert_eq. }
    rewrite Hread. change (0 =? 0) with true. cbv iota.
    destruct (IH (S k) (emit (EvSleep 1) (hw_present REG_STATUS_LOCKED 0 chip)))
      as [Hf Ht].
    split; [exact Hf |]. rewrite Ht. cbn [trace emit hw_present].
    by rewrite <- app_assoc.
Qed.

(** When the first poll finds the clock locked, bring-up goes on to clear
    the three status registers. *)
Lemma init_hw_locked_clears_status cfg pcfg st hw_locked polls chip :
  u32 (hw_locked 0%nat) <> 0 ->
  fst (pcie_audio_init_hw cfg pcfg st hw_locked (S polls) chip) = 0 /\
  In (EvWrite REG_STATUS_PB_UNDERRUN 0xFFFFFFFF)
    (emitted chip
       (snd (pcie_audio_init_hw cfg pcfg st hw_locked (S polls) chip))) /\
  In (EvWrite REG_STATUS_CAP_OVERRUN 0xFFFFFFFF)
    (emitted chip
       (snd (pcie_audio_init_hw cfg pcfg st hw_locked (S polls) chip))) /\
  In (EvWrite REG_STATUS_DMA_ERROR 0xFFFFFFFF)
    (emitted chip
       (snd (pcie_audio_init_hw cfg pcfg st hw_locked (S polls) chip))).
Proof.
  intros Hl. unfold pcie_audio_init_hw. cbn [wait_clock_lock].
  match goal with
  | |- context [pcie_audio_read (hw_present REG_STATUS_LOCKED ?v ?c) _ =? 0] =>
      assert (Hread : pcie_audio_read (hw_present REG_STATUS_LOCKED v c)
                        REG_STATUS_LOCKED = u32 (hw_locked 0%nat))
  end.
  { unfold pcie_audio_read, hw_present, readl. cbn [reg_base].
    rewrite lookup_insert_eq. apply u32_idem. }
  rewrite Hread, (proj2 (Z.eqb_neq _ _) Hl). cbn [negb fst snd].
  split; [reflexivity |].
  erewrite emitted_app.
  2:{ cbn [trace pcie_audio_write emit hw_present].
      rewrite <- !app_assoc. reflexivity. }
  cbn [app In].
  repeat split; repeat (first [left; reflexivity | right]).
Qed.

(** C9 on the timeout path.  The clock never locks during the [polls]
    iterations of the wait: bring-up pulses the reset, writes the DMA
    configuration baseline, the default thresholds and the default
    format, sleeps through the wait, warns and returns 0.  It returns
    before the status registers are cleared: no write of 0xFFFFFFFF to
    any of them is among its events. *)
Theorem init_hw_timeout_skips_status_clear cfg pcfg st polls chip :
  fst (pcie_audio_init_hw cfg pcfg st (fun _ => 0) polls chip) = 0 /\
  emitted chip (snd (pcie_audio_init_hw cfg pcfg st (fun _ => 0) polls chip))
  = [ EvWrite REG_CTRL_RESET 1; EvSleep 1;
      EvWrite REG_CTRL_RESET 0; EvSleep 1;
      EvWrite cfg 0x02000103;
      EvWrite REG_DMA_PB_THRESHOLD 1024;
      EvWrite REG_DMA_CAP_THRESHOLD 1024;
      EvWrite REG_CTRL_FORMAT 0x1807;
      EvWrite REG_CTRL_SYNC_TIMEOUT 0xBB800001 ]
    ++ replicate polls (EvSleep 1) ++ [EvWarn] /\
  forall reg,
    ~ In (EvWrite reg 0xFFFFFFFF)
        (emitted chip
           (snd (pcie_audio_init_hw cfg pcfg st (fun _ => 0) polls chip))).
Proof.
  unfold pcie_audio_init_hw.
  match goal with
  | |- context [wait_clock_lock _ polls 0%nat ?c] =>
      destruct (wait_clock_lock_never_locked polls 0%nat c) as [Hf Ht];
      destruct (wait_clock_lock (fun _ => 0) polls 0%nat c) as [locked c']
  end.
  cbn [fst snd] in Hf, Ht. subst locked. cbn [negb fst snd].
  split; [reflexivity |].
  assert (Hem : emitted chip (emit EvWarn c')
                = [ EvWrite REG_CTRL_RESET 1; EvSleep 1;
                    EvWrite REG_CTRL_RESET 0; EvSleep 1;
                    EvWrite cfg 0x02000103;
                    EvWrite REG_DMA_PB_THRESHOLD 1024;
                    EvWrite REG_DMA_CAP_THRESHOLD 1024;
                    EvWrite REG_CTRL_FORMAT 0x1807;
                    EvWrite REG_CTRL_SYNC_TIMEOUT 0xBB800001 ]
                  ++ replicate polls (EvSleep 1) ++ [EvWarn]).
  { apply emitted_app. cbn [trace emit]. rewrite Ht.
    cbn [trace pcie_audio_write emit]. rewrite <- !app_assoc. reflexivity. }
  split; [exact Hem |].
  intros reg Hin. rewrite Hem in Hin.
  apply in_app_or in Hin as [Hin | Hin].
  - cbn [In] in Hin.
    repeat (destruct Hin as [Hin | Hin]; [discriminate Hin |]). exact Hin.
  - apply in_app_or in Hin as [Hin | Hin].
    + apply list_elem_of_In, elem_of_replicate in Hin as [Hin _].
      discriminate Hin.
    + destruct Hin as [Hin | []]. discriminate Hin.
Qed.

(** ** Ring release and the enable bits *)

Lemma replay_event_None evs : fold_left replay_event evs None = None.
Proof. by induction evs. Qed.

Lemma replay_enable_app en tr1 tr2 :
  replay_enable en (tr1 ++ tr2)
  = match replay_enable en tr1 with
    | Some en1 => replay_enable en1 tr2
    | None => None
    end.
Proof.
  unfold replay_enable. rewrite fold_left_app.
  destruct (fold_left replay_event tr1 (Some en)); [done |].
  apply replay_event_None.
Qed.

(** Harmless events keep cleared enable bits cleared and release only
    rings whose enable bit is clear. *)
Lemma replay_harmless freeable evs : forall en,
  forallb (harmless freeable) evs = true ->
  (forall d, freeable d = true -> enable_of d en = 0) ->
  exists en',
    replay_enable en evs = Some en' /\
    forall d, enable_of d en = 0 -> enable_of d en' = 0.
Proof.
  induction evs as [| e evs IH]; intros [pb cap] Hall Hfree.
  - exists (pb, cap). by split.
  - cbn [forallb] in Hall. apply andb_true_iff in Hall as [He Hall].
    assert (Hstep : exists en1,
              replay_event (Some (pb, cap)) e = Some en1 /\
              forall d, enable_of d (pb, cap) = 0 -> enable_of d en1 = 0).
    { destruct e; cbn [replay_event harmless] in *;
        try (by eexists; split).
      - eexists. split; [reflexivity |].
        unfold is_enable_reg in He.
        intros [] Hd; cbn [enable_of fst snd] in *.
        + destruct (reg =? REG_CTRL_PB_ENABLE) eqn:E; [| done].
          cbn in He. by apply Z.eqb_eq in He.
        + destruct (reg =? REG_CTRL_CAP_ENABLE) eqn:E; [| done].
          rewrite orb_true_r in He. cbn in He. by apply Z.eqb_eq in He.
      - rewrite (Hfree d He). change (0 =? 0) with true.
        by eexists; split. }
    destruct Hstep as (en1 & Hen1 & Hz1).
    destruct (IH en1 Hall) as (en' & Hen' & Hz').
    { intros d Hd. apply Hz1, Hfree, Hd. }
    exists en'. split.
    + unfold replay_enable in *. cbn [fold_left]. by rewrite Hen1.
    + intros d Hd. by apply Hz', Hz1.
Qed.

Lemma forallb_harmless_app f evs1 evs2 :
  forallb (harmless f) evs1 = true -> forallb (harmless f) evs2 = true ->
  forallb (harmless f) (evs1 ++ evs2) = true.
Proof. intros H1 H2. rewrite forallb_app. by rewrite H1, H2. Qed.

Lemma harmless_no_ring_only_ring d evs :
  forallb (harmless no_ring) evs = true ->
  forallb (harmless (only_ring d)) evs = true.
Proof.
  induction evs as [| e evs IH]; [done |]. cbn [forallb].
  intros [He Hall]%andb_true_iff. rewrite (IH Hall), andb_true_r.
  by destruct e.
Qed.

(** close releases at most the ring of its own direction and writes no
    register. *)
Lemma pcm_close_trace mem ssp chip :
  exists evs,
    trace (snd (pcie_audio_pcm_close mem ssp chip)) = trace chip ++ evs /\
    forallb (harmless (only_ring (ss_stream (mem ssp)))) evs = true.
Proof.
  unfold pcie_audio_pcm_close. cbn [snd].
  destruct (desc (stream_of (ss_stream (mem ssp)) chip)).
  - eexists. rewrite !trace_upd, trace_emit. split; [reflexivity |].
    cbn. unfold only_ring. by rewrite bool_decide_eq_true_2.
  - exists []. rewrite trace_upd, app_nil_r. by split.
Qed.

(** So does configure, apart from programming registers that are not
    enable registers. *)
Lemma hw_params_trace mem malloc_pages ring_alloc ssp params chip err chip' :
  pcie_audio_hw_params mem malloc_pages ring_alloc ssp params chip
    = Some (err, chip') ->
  exists evs,
    trace chip' = trace chip ++ evs /\
    forallb (harmless (only_ring (ss_stream (mem ssp)))) evs = true.
Proof.
  unfold pcie_audio_hw_params, setup_dma_descriptors, free_existing.
  set (d := ss_stream (mem ssp)). intros H.
  assert (Hd : only_ring d d = true)
    by (unfold only_ring; by rewrite bool_decide_eq_true_2).
  destruct (malloc_pages <? 0).
  { simplify_eq. eexists. split; [reflexivity | done]. }
  rewrite stream_of_emit in H.
  destruct (substream (stream_of d chip)); [| discriminate].
  destruct (desc (stream_of d chip)), ring_alloc as [dma |];
    try change (- ENOMEM <? 0) with true in H;
    try change (0 <? 0) with false in H; cbv iota in H; simplify_eq;
    try (destruct d);
    autorewrite with chip_frame; rewrite <- ?app_assoc;
    (eexists; split; [reflexivity |]); cbn; by rewrite ?Hd.
Qed.

(** prepare and stop clear the enable bit of their direction; start sets
    it.  None of them releases a ring. *)
Lemma prepare_replay mem ssp chip en :
  exists evs en',
    trace (snd (pcie_audio_prepare mem ssp chip)) = trace chip ++ evs /\
    replay_enable en evs = Some en' /\
    enable_of (ss_stream (mem ssp)) en' = 0 /\
    forall d, enable_of d en = 0 -> enable_of d en' = 0.
Proof.
  unfold pcie_audio_prepare. cbn [snd]. destruct en as [pb cap].
  destruct (ss_stream (mem ssp));
    autorewrite with chip_frame; rewrite <- ?app_assoc;
    (eexists; eexists; split; [reflexivity |]);
    (split; [reflexivity |]); (split; [reflexivity |]);
    by intros [].
Qed.

Lemma trigger_replay mem now ssp cmd chip en :
  exists evs en',
    trace (snd (pcie_audio_trigger mem now ssp cmd chip)) = trace chip ++ evs /\
    replay_enable en evs = Some en' /\
    (forall d, d <> ss_stream (mem ssp) -> enable_of d en' = enable_of d en) /\
    ((cmd =? SNDRV_PCM_TRIGGER_START) || (cmd =? SNDRV_PCM_TRIGGER_RESUME)
       = false ->
     forall d, enable_of d en = 0 -> enable_of d en' = 0) /\
    ((cmd =? SNDRV_PCM_TRIGGER_START) || (cmd =? SNDRV_PCM_TRIGGER_RESUME)
       = false ->
     (cmd =? SNDRV_PCM_TRIGGER_STOP) || (cmd =? SNDRV_PCM_TRIGGER_SUSPEND)
       = true ->
     enable_of (ss_stream (mem ssp)) en' = 0).
Proof.
  unfold pcie_audio_trigger. destruct en as [pb cap].
  destruct ((cmd =? SNDRV_PCM_TRIGGER_START) || (cmd =? SNDRV_PCM_TRIGGER_RESUME));
    [| destruct ((cmd =? SNDRV_PCM_TRIGGER_STOP)
                 || (cmd =? SNDRV_PCM_TRIGGER_SUSPEND))];
    cbn [snd]; destruct (ss_stream (mem ssp));
    autorewrite with chip_frame; rewrite <- ?app_assoc;
    try (eexists; eexists; split; [reflexivity |]);
    try (exists [], (pb, cap); split; [by rewrite app_nil_r |]);
    (split; [reflexivity |]); (split; [by intros [] |]);
    (split; [try done; by intros _ [] |]); done.
Qed.

(** The handler releases no ring and, provided [cfg] is not an enable
    register, writes nothing but 0 to the enable registers. *)
Lemma interrupt_trace cfg now chip :
  cfg <> REG_CTRL_PB_ENABLE -> cfg <> REG_CTRL_CAP_ENABLE ->
  exists evs,
    trace (snd (pcie_audio_interrupt cfg now chip)) = trace chip ++ evs /\
    forallb (harmless no_ring) evs = true.
Proof.
  intros Hpb Hcap.
  assert (Hcfg : negb (is_enable_reg cfg) = true).
  { unfold is_enable_reg.
    by rewrite (proj2 (Z.eqb_neq _ _) Hpb), (proj2 (Z.eqb_neq _ _) Hcap). }
  unfold pcie_audio_interrupt.
  destruct (irq_status chip =? 0).
  { exists []. by rewrite app_nil_r. }
  cbn [snd]. set (status := irq_status chip).
  assert (H1 : exists evs,
            trace (irq_playback now status chip) = trace chip ++ evs /\
            forallb (harmless no_ring) evs = true).
  { unfold irq_playback.
    destruct (Z.land status 255 =? 0);
      [| destruct (substream (playback chip));
         [destruct (negb (Z.land status (Z.shiftl 1 0) =? 0)) |]];
      first [ by exists []; rewrite app_nil_r
            | by eexists; split; [reflexivity |] ]. }
  destruct H1 as (evs1 & Ht1 & Hh1).
  set (c1 := irq_playback now status chip) in *.
  assert (H2 : exists evs,
            trace (irq_capture now status c1) = trace c1 ++ evs /\
            forallb (harmless no_ring) evs = true).
  { unfold irq_capture.
    destruct (Z.land status 65280 =? 0);
      [| destruct (substream (capture c1));
         [destruct (negb (Z.land status (Z.shiftl 1 8) =? 0)) |]];
      first [ by exists []; rewrite app_nil_r
            | by eexists; split; [reflexivity |] ]. }
  destruct H2 as (evs2 & Ht2 & Hh2).
  set (c2 := irq_capture now status c1) in *.
  assert (H3 : exists evs,
            trace (irq_dma_error cfg status c2) = trace c2 ++ evs /\
            forallb (harmless no_ring) evs = true).
  { unfold irq_dma_error.
    destruct (Z.land status 16711680 =? 0).
    - exists []. by rewrite app_nil_r.
    - eexists. autorewrite with chip_frame. rewrite <- !app_assoc.
      split; [reflexivity |]. cbn. by rewrite Hcfg. }
  destruct H3 as (evs3 & Ht3 & Hh3).
  set (c3 := irq_dma_error cfg status c2) in *.
  destruct (irq_clear_status_frame c3) as (_ & _ & _ & Ht4).
  eexists. rewrite Ht4, Ht3, Ht2, Ht1, <- !app_assoc.
  split; [reflexivity |].
  repeat apply forallb_harmless_app; done.
Qed.

Lemma is_armed_set_same d b armed : is_armed d (set_armed d b armed) = b.
Proof. by destruct d. Qed.

Lemma is_armed_set_other d d' b armed :
  d <> d' -> is_armed d' (set_armed d b armed) = is_armed d' armed.
Proof. by destruct d, d'. Qed.

Lemma cleared_disarm d armed en en' :
  cleared armed en ->
  enable_of d en' = 0 ->
  (forall d', enable_of d' en = 0 -> enable_of d' en' = 0) ->
  cleared (set_armed d false armed) en'.
Proof.
  intros Hc Hd Hz d' Ha. destruct (decide (d = d')) as [<- | Hne]; [done |].
  rewrite is_armed_set_other in Ha by done. by apply Hz, Hc.
Qed.

Lemma cleared_arm d armed en en' :
  cleared armed en ->
  (forall d', d' <> d -> enable_of d' en' = enable_of d' en) ->
  cleared (set_armed d true armed) en'.
Proof.
  intros Hc Ho d' Ha. destruct (decide (d = d')) as [<- | Hne].
  - by rewrite is_armed_set_same in Ha.
  - rewrite is_armed_set_other in Ha by done.
    rewrite Ho by done. by apply Hc.
Qed.

Lemma cleared_keep armed en en' :
  cleared armed en ->
  (forall d, enable_of d en = 0 -> enable_of d en' = 0) ->
  cleared armed en'.
Proof. intros Hc Hz d Ha. by apply Hz, Hc. Qed.

(** One call of the life cycle: its events replay without an unsafe
    release and leave the enable bits in agreement with [armed]. *)
Lemma exec_replay cfg c chip chip' armed en :
  cfg <> REG_CTRL_PB_ENABLE -> cfg <> REG_CTRL_CAP_ENABLE ->
  exec cfg c chip = Some chip' ->
  call_allowed c armed = true ->
  cleared armed en ->
  exists evs en',
    trace chip' = trace chip ++ evs /\
    replay_enable en evs = Some en' /\
    cleared (armed_after c armed) en'.
Proof.
  intros Hpb Hcap Hex Hal Hc. destruct c as [mem op].
  destruct op as [now ssp | ssp | mp ra ssp params | ssp | ssp | now ssp cmd
                 | spb scap sdma now];
    cbn [exec armed_after call_allowed] in *.
  - (* open *)
    simplify_eq. exists [EvSetHw ssp], en. split; [| by destruct en].
    unfold pcie_audio_pcm_open. cbn [snd]. by autorewrite with chip_frame.
  - (* close *)
    simplify_eq. destruct (pcm_close_trace mem ssp chip) as (evs & Ht & Hh).
    destruct (replay_harmless _ evs en Hh) as (en' & Hr & Hz).
    { intros d Hd. apply bool_decide_eq_true_1 in Hd as ->.
      apply Hc. by apply negb_true_iff. }
    exists evs, en'. split; [done |]. split; [done |]. by eapply cleared_keep.
  - (* hw_params *)
    destruct (pcie_audio_hw_params mem mp ra ssp params chip)
      as [[err c1] |] eqn:Hhp; [| discriminate].
    cbn in Hex. simplify_eq.
    destruct (hw_params_trace _ _ _ _ _ _ _ _ Hhp) as (evs & Ht & Hh).
    destruct (replay_harmless _ evs en Hh) as (en' & Hr & Hz).
    { intros d Hd. apply bool_decide_eq_true_1 in Hd as ->.
      apply Hc. by apply negb_true_iff. }
    exists evs, en'. split; [done |]. split; [done |]. by eapply cleared_keep.
  - (* hw_free *)
    simplify_eq. exists [EvFreePages ssp], en. by destruct en.
  - (* prepare *)
    simplify_eq.
    destruct (prepare_replay mem ssp chip en) as (evs & en' & Ht & Hr & Hd & Hz).
    exists evs, en'. split; [done |]. split; [done |]. by eapply cleared_disarm.
  - (* trigger *)
    simplify_eq.
    destruct (trigger_replay mem now ssp cmd chip en)
      as (evs & en' & Ht & Hr & Ho & Hz & Hstop).
    exists evs, en'. split; [done |]. split; [done |].
    destruct ((cmd =? SNDRV_PCM_TRIGGER_START)
              || (cmd =? SNDRV_PCM_TRIGGER_RESUME)).
    + by eapply cleared_arm.
    + destruct ((cmd =? SNDRV_PCM_TRIGGER_STOP)
                || (cmd =? SNDRV_PCM_TRIGGER_SUSPEND)).
      * eapply cleared_disarm; [done | by apply Hstop | by apply Hz].
      * eapply cleared_keep; [done | by apply Hz].
  - (* interrupt *)
    simplify_eq.
    match goal with
    | |- context [pcie_audio_interrupt cfg now ?c] =>
        destruct (interrupt_trace cfg now c Hpb Hcap) as (evs & Ht & Hh)
    end.
    destruct (replay_harmless _ evs en Hh) as (en' & Hr & Hz); [done |].
    exists evs, en'. split; [exact Ht |]. split; [done |].
    by eapply cleared_keep.
Qed.

Lemma run_replay cfg calls : forall chip chip' armed en,
  cfg <> REG_CTRL_PB_ENABLE -> cfg <> REG_CTRL_CAP_ENABLE ->
  run cfg calls chip = Some chip' ->
  follows_lifecycle armed calls = true ->
  cleared armed en ->
  exists evs en',
    trace chip' = trace chip ++ evs /\ replay_enable en evs = Some en'.
Proof.
  induction calls as [| c calls IH]; intros chip chip' armed en Hpb Hcap Hrun Hl Hc.
  - cbn in Hrun. simplify_eq. exists [], en. by rewrite app_nil_r.
  - cbn [run follows_lifecycle] in *.
    apply andb_true_iff in Hl as [Hal Hl].
    destruct (exec cfg c chip) as [c1 |] eqn:Hex; [| discriminate].
    destruct (exec_replay cfg c chip c1 armed en Hpb Hcap Hex Hal Hc)
      as (evs1 & en1 & Ht1 & Hr1 & Hc1).
    destruct (IH c1 chip' _ en1 Hpb Hcap Hrun Hl Hc1) as (evs2 & en2 & Ht2 & Hr2).
    exists (evs1 ++ evs2), en2. split.
    + by rewrite Ht2, Ht1, app_assoc.
    + by rewrite replay_enable_app, Hr1.
Qed.

(** C5 (as stated) fails.  From the state after probe, playback is
    opened, configured, prepared and started, and then closed without a
    stop: the call sequence runs without fault, the enable register
    still reads 1 at the end, and the ring was released while it did.
    Configuring the running stream again releases the ring in the same
    way. *)
Lemma ring_freed_while_enabled :
  (exists chip',
     run EXAMPLE_REG_DMA_CONFIG calls_playback_close_running chip0
       = Some chip' /\
     In (EvDmaFree SNDRV_PCM_STREAM_PLAYBACK 768 0x2000) (trace chip') /\
     pcie_audio_read chip' REG_CTRL_PB_ENABLE = 1 /\
     frees_disabled (0, 0) (trace chip') = false) /\
  (exists chip',
     run EXAMPLE_REG_DMA_CONFIG calls_playback_reconfigure_running chip0
       = Some chip' /\
     In (EvDmaFree SNDRV_PCM_STREAM_PLAYBACK 768 0x2000) (trace chip') /\
     frees_disabled (0, 0) (trace chip') = false).
Proof.
  split.
  - eexists. split; [vm_compute; reflexivity |].
    split; [| by vm_compute].
    vm_compute. repeat (first [left; reflexivity | right]).
  - eexists. split; [vm_compute; reflexivity |].
    split; [| by vm_compute].
    vm_compute. repeat (first [left; reflexivity | right]).
Qed.

(** C5 (amended).  The driver never looks at the enable bit when it
    releases a ring; what keeps the bit clear at that moment is the order
    of the calls.  Start from enable registers that read 0 and issue any
    sequence of calls in which close and configure reach a direction only
    while it is not armed (no start or resume since its last stop,
    suspend or prepare): if the sequence runs, every ring release in it
    happens with the enable register of that direction at 0.  [cfg], the
    offset of [REG_DMA_CONFIG], is not one of the enable registers. *)
Theorem lifecycle_frees_ring_disabled cfg calls chip chip' :
  cfg <> REG_CTRL_PB_ENABLE ->
  cfg <> REG_CTRL_CAP_ENABLE ->
  pcie_audio_read chip REG_CTRL_PB_ENABLE = 0 ->
  pcie_audio_read chip REG_CTRL_CAP_ENABLE = 0 ->
  follows_lifecycle (false, false) calls = true ->
  run cfg calls chip = Some chip' ->
  frees_disabled
    (pcie_audio_read chip REG_CTRL_PB_ENABLE,
     pcie_audio_read chip REG_CTRL_CAP_ENABLE)
    (emitted chip chip') = true.
Proof.
  intros Hpb Hcap Hen1 Hen2 Hl Hrun. rewrite Hen1, Hen2.
  destruct (run_replay cfg calls chip chip' (false, false) (0, 0)
              Hpb Hcap Hrun Hl) as (evs & en' & Ht & Hr).
  { by intros []. }
  rewrite (emitted_app _ _ _ Ht). unfold frees_disabled. by rewrite Hr.
Qed.

(** Playback started, stopped, then closed, from the state after probe. *)
Lemma lifecycle_frees_ring_disabled_witness :
  follows_lifecycle (false, false) calls_playback_stop_close = true /\
  run EXAMPLE_REG_DMA_CONFIG calls_playback_stop_close chip0
    = Some (chip_after calls_playback_stop_close) /\
  In (EvDmaFree SNDRV_PCM_STREAM_PLAYBACK 768 0x2000)
    (emitted chip0 (chip_after calls_playback_stop_close)) /\
  frees_disabled
    (pcie_audio_read chip0 REG_CTRL_PB_ENABLE,
     pcie_audio_read chip0 REG_CTRL_CAP_ENABLE)
    (emitted chip0 (chip_after calls_playback_stop_close)) = true.
Proof.
  assert (H1 : EXAMPLE_REG_DMA_CONFIG <> REG_CTRL_PB_ENABLE)
    by (vm_compute; discriminate).
  assert (H2 : EXAMPLE_REG_DMA_CONFIG <> REG_CTRL_CAP_ENABLE)
    by (vm_compute; discriminate).
  assert (H3 : pcie_audio_read chip0 REG_CTRL_PB_ENABLE = 0)
    by (vm_compute; reflexivity).
  assert (H4 : pcie_audio_read chip0 REG_CTRL_CAP_ENABLE = 0)
    by (vm_compute; reflexivity).
  assert (H5 : follows_lifecycle (false, false) calls_playback_stop_close = true)
    by (vm_compute; reflexivity).
  assert (H6 : run EXAMPLE_REG_DMA_CONFIG calls_playback_stop_close chip0
               = Some (chip_after calls_playback_stop_close))
    by (vm_compute; reflexivity).
  split; [exact H5 |]. split; [exact H6 |]. split.
  - vm_compute. repeat (first [left; reflexivity | right]).
  - exact (lifecycle_frees_ring_disabled EXAMPLE_REG_DMA_CONFIG
             calls_playback_stop_close chip0
             (chip_after calls_playback_stop_close) H1 H2 H3 H4 H5 H6).
Defined.

(** * Further properties *)

(** ** Registers: write-one-to-clear and per-direction frames *)

Lemma land_lnot_ones32 x : 0 <= x < 2 ^ 32 -> Z.land x (Z.lnot 0xFFFFFFFF) = 0.
Proof.
  intros Hx. apply Z.bits_inj'. intros n Hn.
  rewrite Z.land_spec, Z.lnot_spec, Z.bits_0 by lia.
  destruct (Z_lt_dec n 32) as [Hlt | Hge].
  - change 4294967295 with (Z.ones 32).
    rewrite Z.ones_spec_low by lia. by rewrite andb_false_r.
  - rewrite (testbit_small x n); [done | | lia].
    split; [lia |]. apply Z.lt_le_trans with (2 ^ 32); [lia |].
    apply Z.pow_le_mono_r; lia.
Qed.

(** Writing all ones to a status register leaves it reading 0. *)
Lemma read_write_w1c_clear reg chip :
  is_w1c reg = true ->
  pcie_audio_read (pcie_audio_write reg 0xFFFFFFFF chip) reg = 0.
Proof.
  intros H. unfold pcie_audio_read, pcie_audio_write, readl, writel.
  cbn [reg_base]. rewrite H, lookup_insert_eq. cbn [default].
  change (u32 4294967295) with 4294967295.
  fold (readl (reg_base chip) reg).
  rewrite land_lnot_ones32; [done | apply u32_range].
Qed.

Lemma direction_regs_distinct d :
  enable_reg d <> irq_en_reg d /\ enable_reg d <> xrun_status_reg d /\
  irq_en_reg d <> xrun_status_reg d /\
  enable_reg d <> enable_reg (other d) /\ enable_reg d <> irq_en_reg (other d) /\
  irq_en_reg d <> enable_reg (other d) /\ irq_en_reg d <> irq_en_reg (other d) /\
  xrun_status_reg d <> enable_reg (other d) /\
  xrun_status_reg d <> irq_en_reg (other d) /\
  xrun_status_reg d <> xrun_status_reg (other d).
Proof. destruct d; cbn; repeat split; discriminate. Qed.

Lemma other_neq d : d <> other d.
Proof. by destruct d. Qed.

(** ** prepare *)

(** X1.  prepare resets the position fields of its stream, leaves the
    direction's enable and IRQ-enable registers reading 0 and its status
    register cleared, and does not touch the other direction: neither
    its stream nor its enable, IRQ-enable and status registers. *)
Theorem prepare_resets_direction mem ssp chip :
  fst (pcie_audio_prepare mem ssp chip) = 0 /\
  current_desc
    (stream_of (ss_stream (mem ssp)) (snd (pcie_audio_prepare mem ssp chip)))
    = 0 /\
  hw_ptr
    (stream_of (ss_stream (mem ssp)) (snd (pcie_audio_prepare mem ssp chip)))
    = 0 /\
  prev_hw_ptr
    (stream_of (ss_stream (mem ssp)) (snd (pcie_audio_prepare mem ssp chip)))
    = 0 /\
  pcie_audio_read (snd (pcie_audio_prepare mem ssp chip))
    (enable_reg (ss_stream (mem ssp))) = 0 /\
  pcie_audio_read (snd (pcie_audio_prepare mem ssp chip))
    (irq_en_reg (ss_stream (mem ssp))) = 0 /\
  pcie_audio_read (snd (pcie_audio_prepare mem ssp chip))
    (xrun_status_reg (ss_stream (mem ssp))) = 0 /\
  stream_of (other (ss_stream (mem ssp))) (snd (pcie_audio_prepare mem ssp chip))
    = stream_of (other (ss_stream (mem ssp))) chip /\
  (forall reg,
     In reg [enable_reg (other (ss_stream (mem ssp)));
             irq_en_reg (other (ss_stream (mem ssp)));
             xrun_status_reg (other (ss_stream (mem ssp)))] ->
     pcie_audio_read (snd (pcie_audio_prepare mem ssp chip)) reg
     = pcie_audio_read chip reg).
Proof.
  unfold pcie_audio_prepare. cbn [fst snd].
  destruct (ss_stream (mem ssp)); cbn [enable_reg irq_en_reg xrun_status_reg
    other stream_of].
  - repeat (split; [reflexivity |]).
    split; [do 2 (rewrite read_write_ne by done); by rewrite read_write_eq |].
    split; [rewrite read_write_ne by done; by rewrite read_write_eq |].
    split; [by rewrite read_write_w1c_clear |].
    split; [reflexivity |].
    intros reg [<- | [<- | [<- | []]]];
      by rewrite !read_write_ne, read_upd by done.
  - repeat (split; [reflexivity |]).
    split; [do 2 (rewrite read_write_ne by done); by rewrite read_write_eq |].
    split; [rewrite read_write_ne by done; by rewrite read_write_eq |].
    split; [by rewrite read_write_w1c_clear |].
    split; [reflexivity |].
    intros reg [<- | [<- | [<- | []]]];
      by rewrite !read_write_ne, read_upd by done.
Qed.

(** Reading after a write, in general. *)
Lemma read_write reg reg' v chip :
  pcie_audio_read (pcie_audio_write reg v chip) reg'
  = if reg =? reg'
    then if is_w1c reg
         then u32 (Z.land (pcie_audio_read chip reg) (Z.lnot (u32 v)))
         else u32 v
    else pcie_audio_read chip reg'.
Proof.
  destruct (reg =? reg') eqn:E.
  - apply Z.eqb_eq in E as <-.
    destruct (is_w1c reg) eqn:Hw; [| by apply read_write_eq].
    unfold pcie_audio_read, pcie_audio_write, readl, writel. cbn [reg_base].
    by rewrite Hw, lookup_insert_eq.
  - apply Z.eqb_neq in E. by apply read_write_ne.
Qed.

(** Decide [is_w1c] and register comparisons on the constants of the
    register map. *)
Ltac decide_regs :=
  repeat match goal with
  | |- context [is_w1c ?r] =>
      let b := eval vm_compute in (is_w1c r) in
      match b with
      | true => change (is_w1c r) with true
      | false => change (is_w1c r) with false
      end
  | |- context [?r1 =? ?r2] =>
      let b := eval vm_compute in (r1 =? r2) in
      match b with
      | true => change (r1 =? r2) with true
      | false => change (r1 =? r2) with false
      end
  end; cbv iota.

Ltac read_after_writes :=
  repeat (rewrite read_write || rewrite read_upd || rewrite read_emit);
  decide_regs.

(** X2.  prepare is idempotent on the device and on the streams: a second
    prepare of the same substream changes no register, no stream field
    and no statistic. *)
Theorem prepare_idempotent mem ssp chip :
  (forall reg,
     pcie_audio_read
       (snd (pcie_audio_prepare mem ssp (snd (pcie_audio_prepare mem ssp chip))))
       reg
     = pcie_audio_read (snd (pcie_audio_prepare mem ssp chip)) reg) /\
  playback
    (snd (pcie_audio_prepare mem ssp (snd (pcie_audio_prepare mem ssp chip))))
    = playback (snd (pcie_audio_prepare mem ssp chip)) /\
  capture
    (snd (pcie_audio_prepare mem ssp (snd (pcie_audio_prepare mem ssp chip))))
    = capture (snd (pcie_audio_prepare mem ssp chip)) /\
  stats
    (snd (pcie_audio_prepare mem ssp (snd (pcie_audio_prepare mem ssp chip))))
    = stats (snd (pcie_audio_prepare mem ssp chip)).
Proof.
  unfold pcie_audio_prepare. cbn [fst snd].
  destruct (ss_stream (mem ssp)).
  - split; [| by repeat split]. intros reg. read_after_writes.
    change (u32 4294967295) with 4294967295.
    rewrite !land_lnot_ones32 by apply u32_range.
    by repeat case_match.
  - split; [| by repeat split]. intros reg. read_after_writes.
    change (u32 4294967295) with 4294967295.
    rewrite !land_lnot_ones32 by apply u32_range.
    by repeat case_match.
Qed.

(** ** trigger *)

(** X3.  trigger accepts start, resume, stop and suspend only: any other
    command (pause push and release among them) is refused with
    [-EINVAL] and leaves the chip exactly as it was, without a single
    register write. *)
Theorem trigger_other_command_refused mem now ssp cmd chip :
  cmd <> SNDRV_PCM_TRIGGER_START ->
  cmd <> SNDRV_PCM_TRIGGER_RESUME ->
  cmd <> SNDRV_PCM_TRIGGER_STOP ->
  cmd <> SNDRV_PCM_TRIGGER_SUSPEND ->
  pcie_audio_trigger mem now ssp cmd chip = (- EINVAL, chip).
Proof.
  intros H1 H2 H3 H4. unfold pcie_audio_trigger.
  by rewrite (proj2 (Z.eqb_neq _ _) H1), (proj2 (Z.eqb_neq _ _) H2),
    (proj2 (Z.eqb_neq _ _) H3), (proj2 (Z.eqb_neq _ _) H4).
Qed.

Lemma trigger_other_command_refused_witness :
  pcie_audio_trigger mem_4096x8 7 0%nat SNDRV_PCM_TRIGGER_PAUSE_PUSH
    (chip_after calls_playback_start)
  = (- EINVAL, chip_after calls_playback_start).
Proof.
  apply (trigger_other_command_refused mem_4096x8 7 0%nat
           SNDRV_PCM_TRIGGER_PAUSE_PUSH (chip_after calls_playback_start));
    discriminate.
Defined.

(** X4.  start (and resume) enables the direction's interrupt before its
    DMA, stop (and suspend) disables the DMA before the interrupt; after
    a start both registers read 1, after a stop both read 0.  Neither
    writes a register of the other direction or changes its stream, and
    stop changes no stream at all. *)
Theorem trigger_start_stop_order mem now ssp resume suspend chip :
  (fst (pcie_audio_trigger mem now ssp (arm_cmd resume) chip) = 0 /\
   emitted chip (snd (pcie_audio_trigger mem now ssp (arm_cmd resume) chip))
     = [EvWrite (irq_en_reg (ss_stream (mem ssp))) 1;
        EvWrite (enable_reg (ss_stream (mem ssp))) 1] /\
   pcie_audio_read (snd (pcie_audio_trigger mem now ssp (arm_cmd resume) chip))
     (irq_en_reg (ss_stream (mem ssp))) = 1 /\
   pcie_audio_read (snd (pcie_audio_trigger mem now ssp (arm_cmd resume) chip))
     (enable_reg (ss_stream (mem ssp))) = 1 /\
   last_interrupt
     (stream_of (ss_stream (mem ssp))
        (snd (pcie_audio_trigger mem now ssp (arm_cmd resume) chip))) = now /\
   stream_of (other (ss_stream (mem ssp)))
     (snd (pcie_audio_trigger mem now ssp (arm_cmd resume) chip))
   = stream_of (other (ss_stream (mem ssp))) chip) /\
  (fst (pcie_audio_trigger mem now ssp (disarm_cmd suspend) chip) = 0 /\
   emitted chip (snd (pcie_audio_trigger mem now ssp (disarm_cmd suspend) chip))
     = [EvWrite (enable_reg (ss_stream (mem ssp))) 0;
        EvWrite (irq_en_reg (ss_stream (mem ssp))) 0] /\
   pcie_audio_read
     (snd (pcie_audio_trigger mem now ssp (disarm_cmd suspend) chip))
     (irq_en_reg (ss_stream (mem ssp))) = 0 /\
   pcie_audio_read
     (snd (pcie_audio_trigger mem now ssp (disarm_cmd suspend) chip))
     (enable_reg (ss_stream (mem ssp))) = 0 /\
   playback (snd (pcie_audio_trigger mem now ssp (disarm_cmd suspend) chip))
     = playback chip /\
   capture (snd (pcie_audio_trigger mem now ssp (disarm_cmd suspend) chip))
     = capture chip).
Proof.
  unfold pcie_audio_trigger. split.
  - destruct resume; cbn [arm_cmd Z.eqb orb SNDRV_PCM_TRIGGER_START
      SNDRV_PCM_TRIGGER_RESUME Pos.eqb fst snd];
      destruct (ss_stream (mem ssp));
      cbn [irq_en_reg enable_reg other stream_of];
      (split; [reflexivity |]);
      (split; [apply emitted_app; autorewrite with chip_frame;
               by rewrite <- app_assoc |]);
      read_after_writes; by repeat split.
  - destruct suspend; cbn [disarm_cmd Z.eqb orb SNDRV_PCM_TRIGGER_START
      SNDRV_PCM_TRIGGER_RESUME SNDRV_PCM_TRIGGER_STOP
      SNDRV_PCM_TRIGGER_SUSPEND Pos.eqb fst snd];
      destruct (ss_stream (mem ssp));
      cbn [irq_en_reg enable_reg other stream_of];
      (split; [reflexivity |]);
      (split; [apply emitted_app; autorewrite with chip_frame;
               by rewrite <- app_assoc |]);
      read_after_writes; by repeat split.
Qed.

(** ** configure *)

(** A successful configure, taken apart: the direction was open, the
    ring allocation was granted, [setup_dma_descriptors] built the ring
    and the registers were programmed from it. *)
Lemma hw_params_success_inv mem malloc_pages ring_alloc ssp params chip chip' :
  pcie_audio_hw_params mem malloc_pages ring_alloc ssp params chip
    = Some (0, chip') ->
  exists p dma c1,
    substream (stream_of (ss_stream (mem ssp)) chip) = Some p /\
    ring_alloc = Some dma /\
    setup_dma_descriptors mem (Some dma) (ss_stream (mem ssp))
      (emit (EvMallocPages ssp (params_buffer_bytes params)) chip)
      = Some (0, c1) /\
    chip' = hw_params_program (ss_stream (mem ssp)) params c1.
Proof.
  unfold pcie_audio_hw_params. set (d := ss_stream (mem ssp)).
  destruct (malloc_pages <? 0) eqn:Hmp; [intros; simplify_eq |].
  destruct (setup_dma_descriptors _ _ _ _) as [[err c1] |] eqn:Hs;
    [| discriminate].
  destruct (err <? 0) eqn:Herr; [intros; simplify_eq |].
  intros H.
  destruct (setup_dma_descriptors_frame _ _ _ _ _ _ Hs)
    as (_ & _ & _ & _ & _ & Hcase).
  destruct Hcase as [[-> [dma ->]] | [-> _]]; [| discriminate].
  destruct (substream (stream_of d chip)) as [p |] eqn:Hp.
  2:{ unfold setup_dma_descriptors in Hs.
      by rewrite stream_of_emit, Hp in Hs. }
  exists p, dma, c1. repeat (split; [done |]).
  injection H as <-. unfold hw_params_program.
  rewrite !stream_of_upd_same.
  cbn [channels rate set_format set_rate set_channels].
  reflexivity.
Qed.

(** What a successful configure leaves in its stream and in the other
    one. *)
Lemma hw_params_success_state mem malloc_pages ring_alloc ssp params chip chip' :
  pcie_audio_hw_params mem malloc_pages ring_alloc ssp params chip
    = Some (0, chip') ->
  exists p dma,
    substream (stream_of (ss_stream (mem ssp)) chip) = Some p /\
    ring_alloc = Some dma /\
    substream (stream_of (ss_stream (mem ssp)) chip') = Some p /\
    desc (stream_of (ss_stream (mem ssp)) chip')
      = Some (built_ring (rt_dma_addr (ss_runtime (mem p)))
                (rt_period_bytes (ss_runtime (mem p))) dma) /\
    desc_dma (stream_of (ss_stream (mem ssp)) chip') = dma /\
    desc_count (stream_of (ss_stream (mem ssp)) chip') = DMA_DESC_COUNT /\
    period_size (stream_of (ss_stream (mem ssp)) chip')
      = rt_period_bytes (ss_runtime (mem p)) /\
    channels (stream_of (ss_stream (mem ssp)) chip') = params_channels params /\
    rate (stream_of (ss_stream (mem ssp)) chip') = params_rate params /\
    format (stream_of (ss_stream (mem ssp)) chip') = params_format params /\
    stream_of (other (ss_stream (mem ssp))) chip'
      = stream_of (other (ss_stream (mem ssp))) chip /\
    stats chip' = stats chip.
Proof.
  intros H.
  destruct (hw_params_success_inv _ _ _ _ _ _ _ H)
    as (p & dma & c1 & Hp & -> & Hs & ->).
  set (d := ss_stream (mem ssp)) in *.
  destruct (setup_dma_descriptors_frame _ _ _ _ _ _ Hs)
    as (_ & Hst & Hsub & Hother & _ & _).
  destruct (setup_dma_descriptors_ok mem dma d
              (emit (EvMallocPages ssp (params_buffer_bytes params)) chip) p)
    as (c1' & Hok & Hring & Hdma & Hcount & _ & Hps & _).
  { by rewrite stream_of_emit. }
  rewrite Hok in Hs. assert (c1' = c1) by congruence. subst c1'. clear Hs.
  rewrite stream_of_emit in Hsub. rewrite Hp in Hsub.
  exists p, dma.
  pose proof (Hother (other d) (other_neq d)) as Ho.
  rewrite stream_of_emit in Ho. rewrite stats_emit in Hst.
  clearbody d. clear Hother Hok. unfold hw_params_program.
  destruct d; cbn [other stream_of] in *;
    cbn [playback capture stats pcie_audio_write upd_stream
         substream desc desc_dma desc_count period_size channels rate format
         set_format set_rate set_channels];
    by repeat split.
Qed.

(** X5.  A successful configure programs the DMA registers of its own
    direction: the low 32 bits of the ring's bus address, a descriptor
    count of [DMA_DESC_COUNT] whatever the period count is, the period
    size in bytes and half of it as threshold.  The four DMA registers
    of the other direction keep their values. *)
Theorem hw_params_dma_registers
    mem malloc_pages ring_alloc ssp params chip chip' :
  pcie_audio_hw_params mem malloc_pages ring_alloc ssp params chip
    = Some (0, chip') ->
  pcie_audio_read chip' (desc_base_reg (ss_stream (mem ssp)))
    = u32 (desc_dma (stream_of (ss_stream (mem ssp)) chip')) /\
  ring_alloc = Some (desc_dma (stream_of (ss_stream (mem ssp)) chip')) /\
  pcie_audio_read chip' (desc_count_reg (ss_stream (mem ssp)))
    = DMA_DESC_COUNT /\
  pcie_audio_read chip' (size_reg (ss_stream (mem ssp)))
    = u32 (period_size (stream_of (ss_stream (mem ssp)) chip')) /\
  pcie_audio_read chip' (threshold_reg (ss_stream (mem ssp)))
    = u32 (period_size (stream_of (ss_stream (mem ssp)) chip') / 2) /\
  (forall reg,
     In reg [desc_base_reg (other (ss_stream (mem ssp)));
             desc_count_reg (other (ss_stream (mem ssp)));
             size_reg (other (ss_stream (mem ssp)));
             threshold_reg (other (ss_stream (mem ssp)))] ->
     pcie_audio_read chip' reg = pcie_audio_read chip reg).
Proof.
  intros H.
  destruct (hw_params_success_inv _ _ _ _ _ _ _ H)
    as (p & dma & c1 & Hp & -> & Hs & ->).
  set (d := ss_stream (mem ssp)) in *.
  destruct (setup_dma_descriptors_frame _ _ _ _ _ _ Hs) as (Hr & _).
  destruct (setup_dma_descriptors_ok mem dma d
              (emit (EvMallocPages ssp (params_buffer_bytes params)) chip) p)
    as (c1' & Hok & _ & Hdma & Hcount & _ & Hps & _).
  { by rewrite stream_of_emit. }
  rewrite Hok in Hs. assert (c1' = c1) by congruence. subst c1'. clear Hs Hok.
  assert (Hread : forall reg, pcie_audio_read c1 reg = pcie_audio_read chip reg).
  { intros reg. unfold pcie_audio_read. by rewrite Hr. }
  clearbody d. clear Hr Hp. unfold hw_params_program.
  destruct d;
    cbn [desc_base_reg desc_count_reg size_reg threshold_reg other];
    rewrite !stream_of_write, !stream_of_upd_same;
    cbn [desc_dma desc_count period_size set_format set_rate set_channels];
    rewrite Hdma, Hcount, Hps;
    read_after_writes; rewrite ?Hread;
    (repeat (split; [reflexivity |]));
    intros reg [<- | [<- | [<- | [<- | []]]]];
    read_after_writes; by rewrite ?Hread.
Qed.

Lemma hw_params_dma_registers_witness :
  exists chip',
    pcie_audio_hw_params mem_4096x8 0 (Some 0x2000) 0%nat (params_of 2 48000 32)
        chip_open_playback = Some (0, chip') /\
    pcie_audio_read chip' (desc_count_reg SNDRV_PCM_STREAM_PLAYBACK) = 32 /\
    pcie_audio_read chip' (threshold_reg SNDRV_PCM_STREAM_PLAYBACK) = 2048.
Proof.
  destruct (hw_params_succeeds mem_4096x8 0 0x2000 0%nat (params_of 2 48000 32)
              chip_open_playback) as [chip' H].
  { lia. }
  { vm_compute. by eexists. }
  exists chip'. split; [exact H |].
  destruct (hw_params_dma_registers _ _ _ _ _ _ _ H)
    as (_ & _ & Hc & _ & Ht & _).
  destruct (hw_params_success_state _ _ _ _ _ _ _ H)
    as (p & dma & Hp & _ & _ & _ & _ & _ & Hps & _).
  assert (p = 0%nat) by (vm_compute in Hp; congruence). subst p.
  split; [exact Hc |].
  change (ss_stream (mem_4096x8 0%nat)) with SNDRV_PCM_STREAM_PLAYBACK in *.
  rewrite Ht, Hps. reflexivity.
Defined.

(** X6.  The format, sample-family and target-rate registers are shared
    by the two directions and configure writes them unconditionally:
    after configuring one direction and then the other, they hold the
    words of the second call, while the first stream still records the
    channels and rate of the first. *)
Theorem hw_params_last_configure_wins
    mem mp1 ra1 ssp1 params1 mp2 ra2 ssp2 params2 chip chip1 chip2 :
  ss_stream (mem ssp2) = other (ss_stream (mem ssp1)) ->
  pcie_audio_hw_params mem mp1 ra1 ssp1 params1 chip = Some (0, chip1) ->
  pcie_audio_hw_params mem mp2 ra2 ssp2 params2 chip1 = Some (0, chip2) ->
  pcie_audio_read chip2 REG_CTRL_FORMAT = u32 (format_word params2) /\
  pcie_audio_read chip2 REG_CTRL_SAMPLE_FAMILY = u32 (family_word params2) /\
  pcie_audio_read chip2 REG_CTRL_TARGET_RATE = u32 (params_rate params2) /\
  channels (stream_of (ss_stream (mem ssp1)) chip2) = params_channels params1 /\
  rate (stream_of (ss_stream (mem ssp1)) chip2) = params_rate params1.
Proof.
  intros Hdir H1 H2.
  destruct (hw_params_registers _ _ _ _ _ _ _ H2) as (Hf & Hs & Hr).
  destruct (hw_params_success_state _ _ _ _ _ _ _ H1)
    as (_ & _ & _ & _ & _ & _ & _ & _ & _ & Hch & Hrate & _).
  destruct (hw_params_success_state _ _ _ _ _ _ _ H2)
    as (_ & _ & _ & _ & _ & _ & _ & _ & _ & _ & _ & _ & Ho & _).
  rewrite Hdir in Ho.
  replace (other (other (ss_stream (mem ssp1)))) with (ss_stream (mem ssp1))
    in Ho by (by destruct (ss_stream (mem ssp1))).
  by rewrite Ho.
Qed.

Lemma hw_params_last_configure_wins_witness :
  exists chip1 chip2,
    pcie_audio_hw_params mem_4096x8 0 (Some 0x2000) 0%nat (params_of 2 44100 16)
        (snd (pcie_audio_pcm_open mem_4096x8 0 1%nat chip_open_playback))
      = Some (0, chip1) /\
    pcie_audio_hw_params mem_4096x8 0 (Some 0x3000) 1%nat (params_of 8 96000 32)
        chip1 = Some (0, chip2) /\
    pcie_audio_read chip2 REG_CTRL_TARGET_RATE = 96000 /\
    rate (stream_of SNDRV_PCM_STREAM_PLAYBACK chip2) = 44100.
Proof.
  destruct (hw_params_succeeds mem_4096x8 0 0x2000 0%nat (params_of 2 44100 16)
              (snd (pcie_audio_pcm_open mem_4096x8 0 1%nat chip_open_playback)))
    as [chip1 H1].
  { lia. }
  { vm_compute. by eexists. }
  destruct (hw_params_succeeds mem_4096x8 0 0x3000 1%nat (params_of 8 96000 32)
              chip1) as [chip2 H2].
  { lia. }
  { destruct (hw_params_success_state _ _ _ _ _ _ _ H1)
      as (_ & _ & _ & _ & _ & _ & _ & _ & _ & _ & _ & _ & Ho & _).
    change (ss_stream (mem_4096x8 1%nat)) with
      (other (ss_stream (mem_4096x8 0%nat))).
    rewrite Ho. vm_compute. by eexists. }
  exists chip1, chip2. split; [exact H1 |]. split; [exact H2 |].
  destruct (hw_params_last_configure_wins mem_4096x8 0 (Some 0x2000) 0%nat
              (params_of 2 44100 16) 0 (Some 0x3000) 1%nat
              (params_of 8 96000 32) _ chip1 chip2 eq_refl H1 H2)
    as (_ & _ & Hr & _ & Hrate).
  split; [exact Hr | exact Hrate].
Defined.

(** X7.  When the ring allocation fails on a stream that already has a
    ring, configure returns [-ENOMEM] after having released the old
    ring: the stream is left without any ring, the buffer pages are
    given back, and no register has been written. *)
Theorem hw_params_enomem_drops_ring mem malloc_pages ssp params chip p ring :
  0 <= malloc_pages ->
  substream (stream_of (ss_stream (mem ssp)) chip) = Some p ->
  desc (stream_of (ss_stream (mem ssp)) chip) = Some ring ->
  exists chip',
    pcie_audio_hw_params mem malloc_pages None ssp params chip
      = Some (- ENOMEM, chip') /\
    desc (stream_of (ss_stream (mem ssp)) chip') = None /\
    emitted chip chip'
      = [ EvMallocPages ssp (params_buffer_bytes params);
          EvDmaFree (ss_stream (mem ssp))
            (u64 (desc_count (stream_of (ss_stream (mem ssp)) chip)
                  * sizeof_desc))
            (desc_dma (stream_of (ss_stream (mem ssp)) chip));
          EvDmaAlloc (ss_stream (mem ssp)) (u64 (DMA_DESC_COUNT * sizeof_desc));
          EvFreePages ssp ] /\
    reg_base chip' = reg_base chip.
Proof.
  intros Hmp Hp Hring. unfold pcie_audio_hw_params, setup_dma_descriptors,
    free_existing.
  destruct (malloc_pages <? 0) eqn:E; [lia |].
  rewrite !stream_of_emit, Hp, Hring.
  change (- ENOMEM <? 0) with true. cbv iota.
  eexists. split; [reflexivity |].
  autorewrite with chip_frame. cbn [desc set_desc desc_count set_desc_count].
  split; [reflexivity |]. split; [| reflexivity].
  apply emitted_app. autorewrite with chip_frame.
  cbn [desc_count set_desc_count]. by rewrite <- !app_assoc.
Qed.

Lemma hw_params_enomem_drops_ring_witness :
  exists ring chip',
    desc (stream_of (ss_stream (mem_4096x8 0%nat))
            (chip_after calls_playback_start)) = Some ring /\
    pcie_audio_hw_params mem_4096x8 0 None 0%nat (params_of 2 48000 32)
        (chip_after calls_playback_start) = Some (- ENOMEM, chip') /\
    desc (stream_of (ss_stream (mem_4096x8 0%nat)) chip') = None.
Proof.
  assert (H1 : 0 <= 0) by lia.
  assert (H2 : substream (stream_of (ss_stream (mem_4096x8 0%nat))
                            (chip_after calls_playback_start)) = Some 0%nat)
    by (vm_compute; reflexivity).
  eexists. 
  assert (H3 : desc (stream_of (ss_stream (mem_4096x8 0%nat))
                       (chip_after calls_playback_start))
               = Some (built_ring 0x10000000 4096 0x2000))
    by (vm_compute; reflexivity).
  destruct (hw_params_enomem_drops_ring mem_4096x8 0 0%nat
              (params_of 2 48000 32) (chip_after calls_playback_start)
              0%nat _ H1 H2 H3) as (chip' & Hr & Hd & _).
  exists chip'. split; [exact H3 |]. split; [exact Hr | exact Hd].
Defined.

(** ** close *)

(** X8.  close leaves its stream without ring and without session,
    releases the ring exactly when there was one, writes no register
    and keeps the stream's counters; a second close of the same
    substream does nothing at all, so no ring is released twice. *)
Theorem pcm_close_releases_once mem ssp chip :
  fst (pcie_audio_pcm_close mem ssp chip) = 0 /\
  desc (stream_of (ss_stream (mem ssp)) (snd (pcie_audio_pcm_close mem ssp chip)))
    = None /\
  substream
    (stream_of (ss_stream (mem ssp)) (snd (pcie_audio_pcm_close mem ssp chip)))
    = None /\
  emitted chip (snd (pcie_audio_pcm_close mem ssp chip))
    = match desc (stream_of (ss_stream (mem ssp)) chip) with
      | Some _ =>
          [EvDmaFree (ss_stream (mem ssp))
             (u64 (desc_count (stream_of (ss_stream (mem ssp)) chip)
                   * sizeof_desc))
             (desc_dma (stream_of (ss_stream (mem ssp)) chip))]
      | None => []
      end /\
  reg_base (snd (pcie_audio_pcm_close mem ssp chip)) = reg_base chip /\
  interrupts
    (stream_of (ss_stream (mem ssp)) (snd (pcie_audio_pcm_close mem ssp chip)))
    = interrupts (stream_of (ss_stream (mem ssp)) chip) /\
  errors
    (stream_of (ss_stream (mem ssp)) (snd (pcie_audio_pcm_close mem ssp chip)))
    = errors (stream_of (ss_stream (mem ssp)) chip) /\
  stream_of (other (ss_stream (mem ssp)))
    (snd (pcie_audio_pcm_close mem ssp chip))
    = stream_of (other (ss_stream (mem ssp))) chip /\
  snd (pcie_audio_pcm_close mem ssp (snd (pcie_audio_pcm_close mem ssp chip)))
    = snd (pcie_audio_pcm_close mem ssp chip).
Proof.
  unfold pcie_audio_pcm_close. cbn [fst snd].
  split; [reflexivity |].
  destruct (ss_stream (mem ssp)); cbn [stream_of other];
    destruct chip as [io pb cap st tr]; cbn [playback capture];
    [destruct (desc pb) eqn:Hd | destruct (desc cap) eqn:Hd];
    cbn; rewrite ?Hd; repeat split;
    unfold emitted; cbn [trace]; rewrite ?drop_app_length, ?drop_all;
    reflexivity.
Qed.

(** ** Position query *)

Lemma u64_small x : 0 <= x < 2 ^ 64 -> u64 x = x.
Proof. intros H. unfold u64. apply Z.mod_small; lia. Qed.

(** The position in frames when nothing wraps. *)
Lemma pcie_audio_pointer_value pb_active cap_active mem frame_bytes ssp chip
    (d := ss_stream (mem ssp))
    (active := match d with
               | SNDRV_PCM_STREAM_PLAYBACK => pb_active
               | SNDRV_PCM_STREAM_CAPTURE => cap_active
               end) :
  0 < frame_bytes < 2 ^ 64 ->
  0 <= period_size (stream_of d chip) ->
  pcie_audio_read chip (current_reg d) * period_size (stream_of d chip)
    + pcie_audio_read chip active < 2 ^ 64 ->
  pcie_audio_pointer pb_active cap_active mem frame_bytes ssp chip
  = Some ((pcie_audio_read chip (current_reg d) * period_size (stream_of d chip)
           + pcie_audio_read chip active) / frame_bytes).
Proof.
  intros Hfb Hps Hlt. unfold pcie_audio_pointer. subst active d.
  pose proof (read_range chip REG_DMA_PB_CURRENT).
  pose proof (read_range chip REG_DMA_CAP_CURRENT).
  pose proof (read_range chip pb_active).
  pose proof (read_range chip cap_active).
  destruct (ss_stream (mem ssp)); cbn [current_reg stream_of] in *;
    rewrite (u64_small frame_bytes) by lia;
    rewrite (proj2 (Z.eqb_neq frame_bytes 0)) by lia;
    rewrite (u64_small (_ * _)) by nia;
    by rewrite u64_small by nia.
Qed.

(** X9.  While the hardware's descriptor index is below the period count
    and its byte offset below the period size, the position the driver
    reports lies inside the buffer: it is the byte position divided by
    the frame size, and that many frames end before
    periods x period_size bytes. *)
Theorem pcie_audio_pointer_inside_buffer
    pb_active cap_active mem frame_bytes ssp chip :
  0 < frame_bytes < 2 ^ 64 ->
  0 <= period_size (stream_of (ss_stream (mem ssp)) chip) ->
  periods (stream_of (ss_stream (mem ssp)) chip)
    * period_size (stream_of (ss_stream (mem ssp)) chip) < 2 ^ 64 ->
  pcie_audio_read chip (current_reg (ss_stream (mem ssp)))
    < periods (stream_of (ss_stream (mem ssp)) chip) ->
  pcie_audio_read chip
    (match ss_stream (mem ssp) with
     | SNDRV_PCM_STREAM_PLAYBACK => pb_active
     | SNDRV_PCM_STREAM_CAPTURE => cap_active
     end) < period_size (stream_of (ss_stream (mem ssp)) chip) ->
  exists frames,
    pcie_audio_pointer pb_active cap_active mem frame_bytes ssp chip
      = Some frames /\
    0 <= frames /\
    frames * frame_bytes
      < periods (stream_of (ss_stream (mem ssp)) chip)
        * period_size (stream_of (ss_stream (mem ssp)) chip).
Proof.
  intros Hfb Hps Hbuf Hcd Hoff.
  set (d := ss_stream (mem ssp)) in *.
  set (active := match d with
                 | SNDRV_PCM_STREAM_PLAYBACK => pb_active
                 | SNDRV_PCM_STREAM_CAPTURE => cap_active
                 end) in *.
  pose proof (read_range chip (current_reg d)) as Hc.
  pose proof (read_range chip active) as Ho.
  set (cd := pcie_audio_read chip (current_reg d)) in *.
  set (off := pcie_audio_read chip active) in *.
  set (ps := period_size (stream_of d chip)) in *.
  set (n := periods (stream_of d chip)) in *.
  assert (Hpos : cd * ps + off < n * ps) by nia.
  eexists. split.
  { apply pcie_audio_pointer_value; [done | done |].
    fold d active cd off ps. lia. }
  fold d active cd off ps. split.
  - apply Z.div_pos; nia.
  - pose proof (Z.mul_div_le (cd * ps + off) frame_bytes). nia.
Qed.

Lemma pcie_audio_pointer_inside_buffer_witness :
  exists frames,
    pcie_audio_pointer EXAMPLE_REG_PB_DESC_ACTIVE EXAMPLE_REG_CAP_DESC_ACTIVE
        mem_4096x8 8 0%nat chip_playing_desc3 = Some frames /\
    0 <= frames /\
    frames * 8
      < periods (stream_of (ss_stream (mem_4096x8 0%nat)) chip_playing_desc3)
        * period_size
            (stream_of (ss_stream (mem_4096x8 0%nat)) chip_playing_desc3).
Proof.
  assert (H1 : 0 < 8 < 2 ^ 64) by lia.
  assert (H2 : 0 <= period_size
                      (stream_of (ss_stream (mem_4096x8 0%nat))
                         chip_playing_desc3))
    by (vm_compute; discriminate).
  assert (H3 : periods (stream_of (ss_stream (mem_4096x8 0%nat))
                          chip_playing_desc3)
               * period_size (stream_of (ss_stream (mem_4096x8 0%nat))
                                chip_playing_desc3) < 2 ^ 64)
    by (vm_compute; reflexivity).
  assert (H4 : pcie_audio_read chip_playing_desc3
                 (current_reg (ss_stream (mem_4096x8 0%nat)))
               < periods (stream_of (ss_stream (mem_4096x8 0%nat))
                            chip_playing_desc3))
    by (vm_compute; reflexivity).
  assert (H5 : pcie_audio_read chip_playing_desc3
                 (match ss_stream (mem_4096x8 0%nat) with
                  | SNDRV_PCM_STREAM_PLAYBACK => EXAMPLE_REG_PB_DESC_ACTIVE
                  | SNDRV_PCM_STREAM_CAPTURE => EXAMPLE_REG_CAP_DESC_ACTIVE
                  end)
               < period_size (stream_of (ss_stream (mem_4096x8 0%nat))
                                chip_playing_desc3))
    by (vm_compute; reflexivity).
  exact (pcie_audio_pointer_inside_buffer
           EXAMPLE_REG_PB_DESC_ACTIVE EXAMPLE_REG_CAP_DESC_ACTIVE
           mem_4096x8 8 0%nat chip_playing_desc3 H1 H2 H3 H4 H5).
Defined.

(** X10.  The reported position is not clamped to the buffer.  With a
    period size that is a whole number of frames, a hardware descriptor
    index at or beyond the period count gives a position at or beyond
    the end of the buffer. *)
Theorem pcie_audio_pointer_beyond_buffer
    pb_active cap_active mem frame_bytes ssp chip :
  0 < frame_bytes < 2 ^ 64 ->
  0 <= period_size (stream_of (ss_stream (mem ssp)) chip) ->
  (frame_bytes | period_size (stream_of (ss_stream (mem ssp)) chip)) ->
  0 <= periods (stream_of (ss_stream (mem ssp)) chip)
    <= pcie_audio_read chip (current_reg (ss_stream (mem ssp))) ->
  pcie_audio_read chip (current_reg (ss_stream (mem ssp)))
    * period_size (stream_of (ss_stream (mem ssp)) chip)
    + pcie_audio_read chip
        (match ss_stream (mem ssp) with
         | SNDRV_PCM_STREAM_PLAYBACK => pb_active
         | SNDRV_PCM_STREAM_CAPTURE => cap_active
         end) < 2 ^ 64 ->
  exists frames,
    pcie_audio_pointer pb_active cap_active mem frame_bytes ssp chip
      = Some frames /\
    periods (stream_of (ss_stream (mem ssp)) chip)
      * period_size (stream_of (ss_stream (mem ssp)) chip)
    <= frames * frame_bytes.
Proof.
  intros Hfb Hps [k Hk] Hcd Hlt.
  set (d := ss_stream (mem ssp)) in *.
  set (active := match d with
                 | SNDRV_PCM_STREAM_PLAYBACK => pb_active
                 | SNDRV_PCM_STREAM_CAPTURE => cap_active
                 end) in *.
  pose proof (read_range chip active) as Ho.
  set (cd := pcie_audio_read chip (current_reg d)) in *.
  set (off := pcie_audio_read chip active) in *.
  set (ps := period_size (stream_of d chip)) in *.
  set (n := periods (stream_of d chip)) in *.
  eexists. split.
  { apply pcie_audio_pointer_value; [done | done |].
    fold d active cd off ps. lia. }
  fold d active cd off ps.
  assert (Hk0 : 0 <= k) by nia.
  assert (Hle : n * k <= (cd * ps + off) / frame_bytes).
  { apply Z.div_le_lower_bound; [lia |]. nia. }
  nia.
Qed.

Lemma pcie_audio_pointer_beyond_buffer_witness :
  exists frames,
    pcie_audio_pointer EXAMPLE_REG_PB_DESC_ACTIVE EXAMPLE_REG_CAP_DESC_ACTIVE
        mem_4096x8 8 0%nat chip_playing_desc8 = Some frames /\
    periods (stream_of (ss_stream (mem_4096x8 0%nat)) chip_playing_desc8)
      * period_size
          (stream_of (ss_stream (mem_4096x8 0%nat)) chip_playing_desc8)
    <= frames * 8.
Proof.
  assert (H1 : 0 < 8 < 2 ^ 64) by lia.
  assert (H2 : 0 <= period_size
                      (stream_of (ss_stream (mem_4096x8 0%nat))
                         chip_playing_desc8))
    by (vm_compute; discriminate).
  assert (H3 : (8 | period_size
                      (stream_of (ss_stream (mem_4096x8 0%nat))
                         chip_playing_desc8)))
    by (exists 512; vm_compute; reflexivity).
  assert (H4 : 0 <= periods (stream_of (ss_stream (mem_4096x8 0%nat))
                               chip_playing_desc8)
               <= pcie_audio_read chip_playing_desc8
                    (current_reg (ss_stream (mem_4096x8 0%nat))))
    by (vm_compute; split; discriminate).
  assert (H5 : pcie_audio_read chip_playing_desc8
                 (current_reg (ss_stream (mem_4096x8 0%nat)))
               * period_size (stream_of (ss_stream (mem_4096x8 0%nat))
                                chip_playing_desc8)
               + pcie_audio_read chip_playing_desc8
                   (match ss_stream (mem_4096x8 0%nat) with
                    | SNDRV_PCM_STREAM_PLAYBACK => EXAMPLE_REG_PB_DESC_ACTIVE
                    | SNDRV_PCM_STREAM_CAPTURE => EXAMPLE_REG_CAP_DESC_ACTIVE
                    end) < 2 ^ 64)
    by (vm_compute; reflexivity).
  exact (pcie_audio_pointer_beyond_buffer
           EXAMPLE_REG_PB_DESC_ACTIVE EXAMPLE_REG_CAP_DESC_ACTIVE
           mem_4096x8 8 0%nat chip_playing_desc8 H1 H2 H3 H4 H5).
Defined.

(** ** More on the interrupt handler *)

Lemma same_setup_refl s : same_setup s s.
Proof. by repeat split. Qed.

Lemma irq_playback_same_setup now status chip :
  same_setup (playback chip) (playback (irq_playback now status chip)).
Proof.
  unfold irq_playback.
  destruct (Z.land status 255 =? 0); [apply same_setup_refl |].
  destruct (substream (playback chip)); [| apply same_setup_refl].
  destruct (negb (Z.land status (Z.shiftl 1 0) =? 0)); by repeat split.
Qed.

Lemma irq_capture_same_setup now status chip :
  same_setup (capture chip) (capture (irq_capture now status chip)).
Proof.
  unfold irq_capture.
  destruct (Z.land status 65280 =? 0); [apply same_setup_refl |].
  destruct (substream (capture chip)); [| apply same_setup_refl].
  destruct (negb (Z.land status (Z.shiftl 1 8) =? 0)); by repeat split.
Qed.

(** X11.  Whatever the status word is, the handler leaves the setup of
    both streams alone: session binding, ring, ring address and count,
    period and buffer sizes, channels, rate and format, and also the
    position fields [current_desc], [hw_ptr] and [prev_hw_ptr], which it
    never advances.  It releases and allocates no ring. *)
Theorem interrupt_keeps_stream_setup cfg now chip :
  same_setup (playback chip)
    (playback (snd (pcie_audio_interrupt cfg now chip))) /\
  same_setup (capture chip)
    (capture (snd (pcie_audio_interrupt cfg now chip))) /\
  forall e,
    In e (emitted chip (snd (pcie_audio_interrupt cfg now chip))) ->
    match e with
    | EvDmaFree _ _ _ | EvDmaAlloc _ _ | EvMallocPages _ _ | EvFreePages _ =>
        False
    | _ => True
    end.
Proof.
  unfold pcie_audio_interrupt.
  destruct (irq_status chip =? 0).
  { cbn [snd]. split; [apply same_setup_refl |].
    split; [apply same_setup_refl |].
    unfold emitted. rewrite drop_all. by intros e []. }
  cbn [snd]. set (status := irq_status chip).
  pose proof (irq_playback_same_setup now status chip) as Hp1.
  destruct (irq_playback_frame now status chip)
    as (_ & Hc1 & _ & _ & evs1 & Ht1 & _).
  assert (He1 : forall e, In e evs1 ->
            match e with
            | EvDmaFree _ _ _ | EvDmaAlloc _ _ | EvMallocPages _ _
            | EvFreePages _ => False
            | _ => True
            end).
  { revert Ht1. unfold irq_playback.
    destruct (Z.land status 255 =? 0);
      [| destruct (substream (playback chip));
         [destruct (negb (Z.land status (Z.shiftl 1 0) =? 0)) |]];
      cbn [trace emit upd_stream set_stats]; intros Ht1;
      first [ apply app_inv_head in Ht1
            | rewrite <- (app_nil_r (trace chip)) in Ht1 at 1;
              apply app_inv_head in Ht1 ];
      subst evs1; intros e Hin; by repeat destruct Hin as [<- | Hin]. }
  set (c1 := irq_playback now status chip) in *.
  pose proof (irq_capture_same_setup now status c1) as Hc2.
  destruct (irq_capture_frame now status c1)
    as (_ & Hp2 & _ & _ & evs2 & Ht2 & _).
  assert (He2 : forall e, In e evs2 ->
            match e with
            | EvDmaFree _ _ _ | EvDmaAlloc _ _ | EvMallocPages _ _
            | EvFreePages _ => False
            | _ => True
            end).
  { revert Ht2. unfold irq_capture.
    destruct (Z.land status 65280 =? 0);
      [| destruct (substream (capture c1));
         [destruct (negb (Z.land status (Z.shiftl 1 8) =? 0)) |]];
      cbn [trace emit upd_stream set_stats]; intros Ht2;
      first [ apply app_inv_head in Ht2
            | rewrite <- (app_nil_r (trace c1)) in Ht2 at 1;
              apply app_inv_head in Ht2 ];
      subst evs2; intros e Hin; by repeat destruct Hin as [<- | Hin]. }
  set (c2 := irq_capture now status c1) in *.
  destruct (irq_dma_error_frame cfg status c2)
    as (Hp3 & Hc3 & _ & _ & evs3 & Ht3 & _).
  assert (He3 : forall e, In e evs3 ->
            match e with
            | EvDmaFree _ _ _ | EvDmaAlloc _ _ | EvMallocPages _ _
            | EvFreePages _ => False
            | _ => True
            end).
  { revert Ht3. unfold irq_dma_error.
    destruct (Z.land status 16711680 =? 0);
      cbn [trace pcie_audio_write set_stats]; intros Ht3;
      first [ rewrite <- !app_assoc in Ht3; apply app_inv_head in Ht3
            | rewrite <- (app_nil_r (trace c2)) in Ht3 at 1;
              apply app_inv_head in Ht3 ];
      subst evs3; intros e Hin; by repeat destruct Hin as [<- | Hin]. }
  set (c3 := irq_dma_error cfg status c2) in *.
  destruct (irq_clear_status_frame c3) as (Hp4 & Hc4 & _ & Ht4).
  split; [by rewrite Hp4, Hp3, Hp2 |].
  split; [by rewrite Hc4, Hc3, <- Hc1 |].
  erewrite emitted_app; [| rewrite Ht4, Ht3, Ht2, Ht1, <- !app_assoc; reflexivity].
  intros e Hin.
  apply in_app_or in Hin as [Hin | Hin]; [by apply He1 |].
  apply in_app_or in Hin as [Hin | Hin]; [by apply He2 |].
  apply in_app_or in Hin as [Hin | Hin]; [by apply He3 |].
  by repeat destruct Hin as [<- | Hin].
Qed.

(** The events of the three blocks extend the trace. *)
Lemma interrupt_trace_prefix cfg now chip :
  exists evs,
    trace (irq_dma_error cfg (irq_status chip)
             (irq_capture now (irq_status chip)
                (irq_playback now (irq_status chip) chip)))
    = trace chip ++ evs.
Proof.
  destruct (irq_playback_frame now (irq_status chip) chip)
    as (_ & _ & _ & _ & evs1 & Ht1 & _).
  destruct (irq_capture_frame now (irq_status chip)
              (irq_playback now (irq_status chip) chip))
    as (_ & _ & _ & _ & evs2 & Ht2 & _).
  destruct (irq_dma_error_frame cfg (irq_status chip)
              (irq_capture now (irq_status chip)
                 (irq_playback now (irq_status chip) chip)))
    as (_ & _ & _ & _ & evs3 & Ht3 & _).
  exists (evs1 ++ evs2 ++ evs3). by rewrite Ht3, Ht2, Ht1, <- !app_assoc.
Qed.

(** The status word is zero exactly when the registers are, as far as
    the packing lets them show: all of the underrun register, the low 24
    bits of the overrun register and the low 16 bits of the DMA error
    register. *)
Lemma irq_status_zero_iff chip :
  irq_status chip = 0 <->
  pcie_audio_read chip REG_STATUS_PB_UNDERRUN = 0 /\
  pcie_audio_read chip REG_STATUS_CAP_OVERRUN mod 2 ^ 24 = 0 /\
  pcie_audio_read chip REG_STATUS_DMA_ERROR mod 2 ^ 16 = 0.
Proof.
  unfold irq_status. rewrite !Z.lor_eq_0_iff. unfold u32.
  rewrite !Z.shiftl_mul_pow2 by lia.
  change (2 ^ 32) with (2 ^ 24 * 2 ^ 8) at 1.
  change (2 ^ 32) with (2 ^ 16 * 2 ^ 16).
  rewrite !Z.mul_mod_distr_r by lia. lia.
Qed.

(** X12.  The handler reports "not ours" exactly when the status word is
    zero, that is when the underrun register, the low 24 bits of the
    overrun register and the low 16 bits of the DMA error register are
    all zero; in that case it changes nothing and writes no register.
    In every other case it claims the interrupt and writes all ones to
    the three status registers.  Higher bits of the overrun and DMA
    error registers are shifted out and cannot make the handler claim
    the interrupt. *)
Theorem interrupt_none_iff cfg now chip :
  (pcie_audio_interrupt cfg now chip = (IRQ_NONE, chip) <->
   pcie_audio_read chip REG_STATUS_PB_UNDERRUN = 0 /\
   pcie_audio_read chip REG_STATUS_CAP_OVERRUN mod 2 ^ 24 = 0 /\
   pcie_audio_read chip REG_STATUS_DMA_ERROR mod 2 ^ 16 = 0) /\
  (fst (pcie_audio_interrupt cfg now chip) = IRQ_HANDLED <->
   ~ (pcie_audio_read chip REG_STATUS_PB_UNDERRUN = 0 /\
      pcie_audio_read chip REG_STATUS_CAP_OVERRUN mod 2 ^ 24 = 0 /\
      pcie_audio_read chip REG_STATUS_DMA_ERROR mod 2 ^ 16 = 0)) /\
  (fst (pcie_audio_interrupt cfg now chip) = IRQ_HANDLED ->
   reg_writes
     (drop (List.length
              (emitted chip (snd (pcie_audio_interrupt cfg now chip))) - 3)
        (emitted chip (snd (pcie_audio_interrupt cfg now chip))))
   = [ EvWrite REG_STATUS_PB_UNDERRUN 0xFFFFFFFF;
       EvWrite REG_STATUS_CAP_OVERRUN 0xFFFFFFFF;
       EvWrite REG_STATUS_DMA_ERROR 0xFFFFFFFF ]).
Proof.
  rewrite <- irq_status_zero_iff.
  destruct (Z.eq_dec (irq_status chip) 0) as [Hz | Hnz].
  - unfold pcie_audio_interrupt. rewrite Hz. cbn [Z.eqb fst snd].
    split; [done |]. split; [| discriminate].
    split; [discriminate | done].
  - rewrite pcie_audio_interrupt_handled by done. cbn [fst snd].
    split; [split; [discriminate | done] |].
    split; [done |]. intros _.
    match goal with
    | |- context [irq_clear_status ?c] =>
        destruct (irq_clear_status_frame c) as (_ & _ & _ & Ht4);
        destruct (interrupt_trace_prefix cfg now chip) as (evs & Ht)
    end.
    erewrite emitted_app; [| rewrite Ht4, Ht, <- app_assoc; reflexivity].
    rewrite length_app. cbn [List.length].
    replace (List.length evs + 3 - 3)%nat with (List.length evs) by lia.
    by rewrite drop_app_length.
Qed.

(** An underrun latched while playback runs is claimed. *)
Lemma interrupt_none_iff_witness :
  fst (pcie_audio_interrupt EXAMPLE_REG_DMA_CONFIG 1000000
         chip_underrun_running) = IRQ_HANDLED.
Proof.
  assert (H1 : ~ (pcie_audio_read chip_underrun_running REG_STATUS_PB_UNDERRUN
                  = 0 /\
                  pcie_audio_read chip_underrun_running REG_STATUS_CAP_OVERRUN
                    mod 2 ^ 24 = 0 /\
                  pcie_audio_read chip_underrun_running REG_STATUS_DMA_ERROR
                    mod 2 ^ 16 = 0)).
  { intros [H _]. vm_compute in H. discriminate H. }
  exact (proj2 (proj1 (proj2 (interrupt_none_iff EXAMPLE_REG_DMA_CONFIG 1000000
                                chip_underrun_running))) H1).
Defined.

Lemma land_single_bit_clear x n :
  0 <= n -> Z.testbit x n = false -> Z.land x (Z.shiftl 1 n) = 0.
Proof.
  intros Hn Hx. apply Z.bits_inj'. intros m Hm.
  rewrite Z.land_spec, Z.bits_0.
  destruct (Z.eq_dec m n) as [-> | Hne]; [by rewrite Hx |].
  rewrite Z.shiftl_spec by lia.
  destruct (Z_lt_dec m n) as [Hlt | Hge].
  - rewrite (Z.testbit_neg_r 1 (m - n)) by lia. apply andb_false_r.
  - rewrite (testbit_small 1 (m - n)); [apply andb_false_r | | lia].
    split; [lia |]. apply (Z.pow_lt_mono_r 2 0 (m - n)); lia.
Qed.

(** The playback block on a completion that is not an underrun. *)
Lemma irq_playback_period now status chip ssp :
  substream (playback chip) = Some ssp ->
  Z.land status 0xFF <> 0 ->
  Z.testbit status 0 = false ->
  playback (irq_playback now status chip)
    = set_last_interrupt now
        (set_latency (u32 (ktime_to_us (ktime_sub now
                                      (last_interrupt (playback chip)))))
           (set_interrupts (ulong_inc (interrupts (playback chip)))
              (playback chip))) /\
  stats (irq_playback now status chip) = stats chip /\
  trace (irq_playback now status chip)
    = trace chip ++ [EvPeriodElapsed SNDRV_PCM_STREAM_PLAYBACK ssp].
Proof.
  intros Hs Hm Hb. unfold irq_playback.
  rewrite (proj2 (Z.eqb_neq _ _) Hm), Hs.
  rewrite (land_single_bit_clear status 0) by (lia || done).
  by cbn.
Qed.

Lemma irq_capture_period now status chip ssp :
  substream (capture chip) = Some ssp ->
  Z.land status 0xFF00 <> 0 ->
  Z.testbit status 8 = false ->
  capture (irq_capture now status chip)
    = set_last_interrupt now
        (set_latency (u32 (ktime_to_us (ktime_sub now
                                      (last_interrupt (capture chip)))))
           (set_interrupts (ulong_inc (interrupts (capture chip)))
              (capture chip))) /\
  stats (irq_capture now status chip) = stats chip /\
  trace (irq_capture now status chip)
    = trace chip ++ [EvPeriodElapsed SNDRV_PCM_STREAM_CAPTURE ssp].
Proof.
  intros Hs Hm Hb. unfold irq_capture.
  rewrite (proj2 (Z.eqb_neq _ _) Hm), Hs.
  rewrite (land_single_bit_clear status 8) by (lia || done).
  by cbn.
Qed.

(** X13.  A completion interrupt: some bit of a direction's field of the
    status word is set but not its x-run bit, and a session is bound.
    The handler sends that session exactly one period-elapsed
    notification and no x-run, adds 1 to the stream's interrupt counter,
    records as latency the time since the previous interrupt, a wrapping
    64-bit difference in nanoseconds, in microseconds and cut to 32
    bits, records the current time as last interrupt, and leaves the
    error counter and the x-run statistic as they are. *)
Theorem interrupt_period_elapsed cfg now d ssp chip :
  substream (stream_of d chip) = Some ssp ->
  Z.land (irq_status chip) (status_mask d) <> 0 ->
  Z.testbit (irq_status chip) (status_xrun_bit d) = false ->
  0 <= interrupts (stream_of d chip) < ULONG_MAX ->
  fst (pcie_audio_interrupt cfg now chip) = IRQ_HANDLED /\
  notifications d (emitted chip (snd (pcie_audio_interrupt cfg now chip)))
    = [EvPeriodElapsed d ssp] /\
  interrupts (stream_of d (snd (pcie_audio_interrupt cfg now chip)))
    = interrupts (stream_of d chip) + 1 /\
  latency (stream_of d (snd (pcie_audio_interrupt cfg now chip)))
    = u32 (ktime_to_us (ktime_sub now (last_interrupt (stream_of d chip)))) /\
  last_interrupt (stream_of d (snd (pcie_audio_interrupt cfg now chip))) = now /\
  errors (stream_of d (snd (pcie_audio_interrupt cfg now chip)))
    = errors (stream_of d chip) /\
  xrun_stat d (stats (snd (pcie_audio_interrupt cfg now chip)))
    = xrun_stat d (stats chip).
Proof.
  intros Hs Hm Hb Hint. rewrite <- (ulong_inc_small _ Hint).
  assert (Hne : irq_status chip <> 0).
  { intros Hz. apply Hm. by rewrite Hz. }
  rewrite pcie_audio_interrupt_handled by done.
  cbn [fst snd]. set (status := irq_status chip) in *.
  destruct d; cbn [stream_of xrun_stat status_mask status_xrun_bit] in *.
  - destruct (irq_playback_period now status chip ssp Hs Hm Hb)
      as (Hp1 & Hst1 & Ht1).
    set (c1 := irq_playback now status chip) in *.
    destruct (irq_capture_frame now status c1)
      as (_ & Hp2 & Hu2 & _ & evs2 & Ht2 & _ & Hn2).
    set (c2 := irq_capture now status c1) in *.
    destruct (irq_dma_error_frame cfg status c2)
      as (Hp3 & _ & Hu3 & _ & evs3 & Ht3 & Hn3).
    set (c3 := irq_dma_error cfg status c2) in *.
    destruct (irq_clear_status_frame c3) as (Hp4 & _ & Hst4 & Ht4).
    split; [reflexivity |]. split.
    { erewrite emitted_app;
        [| rewrite Ht4, Ht3, Ht2, Ht1, <- !app_assoc; reflexivity].
      rewrite !notifications_app, Hn2, Hn3. reflexivity. }
    rewrite Hp4, Hp3, Hp2, Hp1, Hst4, Hu3, Hu2, Hst1. by repeat split.
  - destruct (irq_playback_frame now status chip)
      as (_ & Hc1 & Hu1 & _ & evs1 & Ht1 & _ & Hn1).
    set (c1 := irq_playback now status chip) in *.
    rewrite <- Hc1 in Hs.
    destruct (irq_capture_period now status c1 ssp Hs Hm Hb)
      as (Hc2 & Hst2 & Ht2).
    set (c2 := irq_capture now status c1) in *.
    destruct (irq_dma_error_frame cfg status c2)
      as (_ & Hc3 & _ & Hu3 & evs3 & Ht3 & Hn3).
    set (c3 := irq_dma_error cfg status c2) in *.
    destruct (irq_clear_status_frame c3) as (_ & Hc4 & Hst4 & Ht4).
    split; [reflexivity |]. split.
    { erewrite emitted_app;
        [| rewrite Ht4, Ht3, Ht2, Ht1, <- !app_assoc; reflexivity].
      rewrite !notifications_app, Hn1, Hn3. reflexivity. }
    rewrite Hc4, Hc3, Hc2, Hc1, Hst4, Hu3, Hst2, Hu1. by repeat split.
Qed.

Lemma interrupt_period_elapsed_witness :
  fst (pcie_audio_interrupt EXAMPLE_REG_DMA_CONFIG 1000000 chip_period_done)
    = IRQ_HANDLED /\
  notifications SNDRV_PCM_STREAM_PLAYBACK
    (emitted chip_period_done
       (snd (pcie_audio_interrupt EXAMPLE_REG_DMA_CONFIG 1000000
               chip_period_done)))
  = [EvPeriodElapsed SNDRV_PCM_STREAM_PLAYBACK 0%nat].
Proof.
  assert (H1 : substream (stream_of SNDRV_PCM_STREAM_PLAYBACK chip_period_done)
               = Some 0%nat)
    by (vm_compute; reflexivity).
  assert (H2 : Z.land (irq_status chip_period_done)
                 (status_mask SNDRV_PCM_STREAM_PLAYBACK) <> 0)
    by (vm_compute; discriminate).
  assert (H3 : Z.testbit (irq_status chip_period_done)
                 (status_xrun_bit SNDRV_PCM_STREAM_PLAYBACK) = false)
    by (vm_compute; reflexivity).
  assert (H4 : 0 <= interrupts (stream_of SNDRV_PCM_STREAM_PLAYBACK
                                  chip_period_done) < ULONG_MAX)
    by (vm_compute; split; [discriminate | reflexivity]).
  split.
  - exact (proj1 (interrupt_period_elapsed
                    EXAMPLE_REG_DMA_CONFIG 1000000
                    SNDRV_PCM_STREAM_PLAYBACK 0%nat
                    chip_period_done H1 H2 H3 H4)).
  - exact (proj1 (proj2 (interrupt_period_elapsed
                           EXAMPLE_REG_DMA_CONFIG 1000000
                           SNDRV_PCM_STREAM_PLAYBACK 0%nat
                           chip_period_done H1 H2 H3 H4))).
Defined.

Lemma irq_clear_status_reads chip :
  pcie_audio_read (irq_clear_status chip) REG_STATUS_PB_UNDERRUN = 0 /\
  pcie_audio_read (irq_clear_status chip) REG_STATUS_CAP_OVERRUN = 0 /\
  pcie_audio_read (irq_clear_status chip) REG_STATUS_DMA_ERROR = 0.
Proof.
  unfold irq_clear_status. repeat split.
  - do 2 (rewrite read_write_ne by done). by apply read_write_w1c_clear.
  - rewrite read_write_ne by done. by apply read_write_w1c_clear.
  - by apply read_write_w1c_clear.
Qed.

(** X14.  An interrupt the handler claims is not delivered twice: when
    the status word is not zero the handler returns handled and leaves
    the three status registers reading 0, so that, run again before the
    hardware latches anything new, it reports "not ours" and changes
    nothing. *)
Theorem interrupt_not_redelivered cfg now now' chip :
  irq_status chip <> 0 ->
  fst (pcie_audio_interrupt cfg now chip) = IRQ_HANDLED /\
  pcie_audio_read (snd (pcie_audio_interrupt cfg now chip))
    REG_STATUS_PB_UNDERRUN = 0 /\
  pcie_audio_read (snd (pcie_audio_interrupt cfg now chip))
    REG_STATUS_CAP_OVERRUN = 0 /\
  pcie_audio_read (snd (pcie_audio_interrupt cfg now chip))
    REG_STATUS_DMA_ERROR = 0 /\
  pcie_audio_interrupt cfg now' (snd (pcie_audio_interrupt cfg now chip))
  = (IRQ_NONE, snd (pcie_audio_interrupt cfg now chip)).
Proof.
  intros Hnz. rewrite pcie_audio_interrupt_handled by done. cbn [fst snd].
  match goal with
  | |- context [irq_clear_status ?c] => generalize c; intros c'
  end.
  destruct (irq_clear_status_reads c') as (H1 & H2 & H3).
  split; [reflexivity |]. split; [exact H1 |]. split; [exact H2 |].
  split; [exact H3 |].
  assert (Hz : irq_status (irq_clear_status c') = 0).
  { unfold irq_status. by rewrite H1, H2, H3. }
  unfold pcie_audio_interrupt. by rewrite Hz.
Qed.

Lemma interrupt_not_redelivered_witness :
  pcie_audio_read chip_underrun_running REG_STATUS_PB_UNDERRUN = 1 /\
  pcie_audio_read
    (snd (pcie_audio_interrupt EXAMPLE_REG_DMA_CONFIG 1000000
            chip_underrun_running))
    REG_STATUS_PB_UNDERRUN = 0.
Proof.
  assert (H1 : irq_status chip_underrun_running <> 0)
    by (vm_compute; discriminate).
  split; [vm_compute; reflexivity |].
  exact (proj1 (proj2 (interrupt_not_redelivered EXAMPLE_REG_DMA_CONFIG
                         1000000 2000000 chip_underrun_running H1))).
Defined.

(** Bit 8 of the underrun register lands on bit 8 of the status word as
    well: the register is not masked to its field. *)
Lemma irq_status_bit8_of_underrun chip :
  Z.testbit (pcie_audio_read chip REG_STATUS_PB_UNDERRUN) 8 = true ->
  Z.testbit (irq_status chip) 8 = true.
Proof.
  intros H. unfold irq_status. by rewrite !Z.lor_spec, H.
Qed.

Lemma interrupt_xrun_capture_status cfg now chip ssp :
  substream (capture chip) = Some ssp ->
  Z.testbit (irq_status chip) 8 = true ->
  fst (pcie_audio_interrupt cfg now chip) = IRQ_HANDLED /\
  notifications SNDRV_PCM_STREAM_CAPTURE
      (emitted chip (snd (pcie_audio_interrupt cfg now chip)))
    = [EvStopXrun SNDRV_PCM_STREAM_CAPTURE ssp] /\
  cap_overruns (stats (snd (pcie_audio_interrupt cfg now chip)))
    = ulong_inc (cap_overruns (stats chip)) /\
  errors (capture (snd (pcie_audio_interrupt cfg now chip)))
    = ulong_inc (errors (capture chip)).
Proof.
  intros Hs Hb.
  rewrite pcie_audio_interrupt_handled by (by eapply testbit_true_neq_0).
  cbn [fst snd]. set (status := irq_status chip) in *.
  destruct (irq_playback_frame now status chip)
    as (_ & Hc1 & Hu1 & _ & evs1 & Ht1 & _ & Hn1).
  set (c1 := irq_playback now status chip) in *.
  rewrite <- Hc1 in Hs.
  destruct (irq_capture_xrun now status c1 ssp Hs Hb) as (He & Hu & Ht).
  set (c2 := irq_capture now status c1) in *.
  destruct (irq_dma_error_frame cfg status c2)
    as (_ & Hc3 & _ & Hu3 & evs3 & Ht3 & Hn3).
  set (c3 := irq_dma_error cfg status c2) in *.
  destruct (irq_clear_status_frame c3) as (_ & Hc4 & Hst4 & Ht4).
  split; [reflexivity |]. split; [| split].
  - erewrite emitted_app;
      [| rewrite Ht4, Ht3, Ht, Ht1, <- !app_assoc; reflexivity].
    rewrite !notifications_app, Hn1, Hn3. reflexivity.
  - by rewrite Hst4, Hu3, Hu, Hu1.
  - by rewrite Hc4, Hc3, He, Hc1.
Qed.

(** X15.  The underrun register is merged into the status word without
    a mask, so its bits 8 to 15 fall into the capture field.  With bit 8
    of the underrun register set and a capture session bound, the
    handler treats the event as a capture overrun, whatever the overrun
    register holds: the capture session gets an x-run and the overrun
    statistic and the capture error counter go up by 1. *)
Theorem interrupt_underrun_bit8_hits_capture cfg now chip ssp :
  substream (capture chip) = Some ssp ->
  Z.testbit (pcie_audio_read chip REG_STATUS_PB_UNDERRUN) 8 = true ->
  0 <= cap_overruns (stats chip) < ULONG_MAX ->
  0 <= errors (capture chip) < ULONG_MAX ->
  notifications SNDRV_PCM_STREAM_CAPTURE
      (emitted chip (snd (pcie_audio_interrupt cfg now chip)))
    = [EvStopXrun SNDRV_PCM_STREAM_CAPTURE ssp] /\
  cap_overruns (stats (snd (pcie_audio_interrupt cfg now chip)))
    = cap_overruns (stats chip) + 1 /\
  errors (capture (snd (pcie_audio_interrupt cfg now chip)))
    = errors (capture chip) + 1.
Proof.
  intros Hs Hb Hstat Herr. apply irq_status_bit8_of_underrun in Hb.
  rewrite <- (ulong_inc_small _ Hstat), <- (ulong_inc_small _ Herr).
  by destruct (interrupt_xrun_capture_status cfg now chip ssp Hs Hb)
    as (_ & ? & ? & ?).
Qed.

Lemma interrupt_underrun_bit8_hits_capture_witness :
  pcie_audio_read chip_capture_underrun_bit8 REG_STATUS_CAP_OVERRUN = 0 /\
  notifications SNDRV_PCM_STREAM_CAPTURE
    (emitted chip_capture_underrun_bit8
       (snd (pcie_audio_interrupt EXAMPLE_REG_DMA_CONFIG 1000000
               chip_capture_underrun_bit8)))
  = [EvStopXrun SNDRV_PCM_STREAM_CAPTURE 1%nat].
Proof.
  assert (H1 : substream (capture chip_capture_underrun_bit8) = Some 1%nat)
    by (vm_compute; reflexivity).
  assert (H2 : Z.testbit
                 (pcie_audio_read chip_capture_underrun_bit8
                    REG_STATUS_PB_UNDERRUN) 8 = true)
    by (vm_compute; reflexivity).
  assert (H3 : 0 <= cap_overruns (stats chip_capture_underrun_bit8)
               < ULONG_MAX)
    by (vm_compute; split; [discriminate | reflexivity]).
  assert (H4 : 0 <= errors (capture chip_capture_underrun_bit8) < ULONG_MAX)
    by (vm_compute; split; [discriminate | reflexivity]).
  split; [vm_compute; reflexivity |].
  exact (proj1 (interrupt_underrun_bit8_hits_capture
                  EXAMPLE_REG_DMA_CONFIG 1000000
                  chip_capture_underrun_bit8 1%nat H1 H2 H3 H4)).
Defined.

(** X16.  A status word with no bit in its playback and capture fields,
    as a pure DMA fault gives, is not reported to the sessions: the
    handler sends no notification to either of them and leaves both
    streams and both x-run statistics unchanged. *)
Theorem interrupt_dma_fault_sends_nothing cfg now chip :
  Z.land (irq_status chip) 0xFFFF = 0 ->
  playback (snd (pcie_audio_interrupt cfg now chip)) = playback chip /\
  capture (snd (pcie_audio_interrupt cfg now chip)) = capture chip /\
  pb_underruns (stats (snd (pcie_audio_interrupt cfg now chip)))
    = pb_underruns (stats chip) /\
  cap_overruns (stats (snd (pcie_audio_interrupt cfg now chip)))
    = cap_overruns (stats chip) /\
  forall d,
    notifications d (emitted chip (snd (pcie_audio_interrupt cfg now chip)))
    = [].
Proof.
  intros Hlow.
  assert (Hpb : Z.land (irq_status chip) 0xFF = 0).
  { change 255 with (Z.land 0xFFFF 0xFF). by rewrite Z.land_assoc, Hlow. }
  assert (Hcap : Z.land (irq_status chip) 0xFF00 = 0).
  { change 65280 with (Z.land 0xFFFF 0xFF00). by rewrite Z.land_assoc, Hlow. }
  unfold pcie_audio_interrupt.
  destruct (irq_status chip =? 0).
  { cbn [snd]. repeat (split; [reflexivity |]). intros d.
    unfold emitted. by rewrite drop_all. }
  cbn [snd]. set (status := irq_status chip) in *.
  assert (H1 : irq_playback now status chip = chip).
  { unfold irq_playback. by rewrite Hpb. }
  rewrite H1.
  assert (H2 : irq_capture now status chip = chip).
  { unfold irq_capture. by rewrite Hcap. }
  rewrite H2.
  destruct (irq_dma_error_frame cfg status chip)
    as (Hp3 & Hc3 & Hu3 & Ho3 & evs3 & Ht3 & Hn3).
  set (c3 := irq_dma_error cfg status chip) in *.
  destruct (irq_clear_status_frame c3) as (Hp4 & Hc4 & Hst4 & Ht4).
  rewrite Hp4, Hc4, Hst4, Hp3, Hc3, Hu3, Ho3.
  repeat (split; [reflexivity |]). intros d.
  erewrite emitted_app; [| rewrite Ht4, Ht3, <- !app_assoc; reflexivity].
  rewrite notifications_app, Hn3. by destruct d.
Qed.

Lemma interrupt_dma_fault_sends_nothing_witness :
  irq_status chip_dma_fault <> 0 /\
  playback (snd (pcie_audio_interrupt EXAMPLE_REG_DMA_CONFIG 1000000
                   chip_dma_fault))
  = playback chip_dma_fault.
Proof.
  assert (H1 : Z.land (irq_status chip_dma_fault) 0xFFFF = 0)
    by (vm_compute; reflexivity).
  split; [vm_compute; discriminate |].
  exact (proj1 (interrupt_dma_fault_sends_nothing
                  EXAMPLE_REG_DMA_CONFIG 1000000 chip_dma_fault H1)).
Defined.

(** ** Bring-up *)

Lemma read_hw_present reg v chip :
  pcie_audio_read (hw_present reg v chip) reg = u32 v.
Proof.
  unfold pcie_audio_read, hw_present, readl. cbn [reg_base].
  rewrite lookup_insert_eq. apply u32_idem.
Qed.

(** The wait leaves at the first poll that shows a lock, after one sleep
    per earlier poll. *)
Lemma wait_clock_lock_locks hw_locked n : forall polls k chip,
  (n < polls)%nat ->
  (forall j, (j < n)%nat -> u32 (hw_locked (k + j)%nat) = 0) ->
  u32 (hw_locked (k + n)%nat) <> 0 ->
  fst (wait_clock_lock hw_locked polls k chip) = true /\
  trace (snd (wait_clock_lock hw_locked polls k chip))
  = trace chip ++ replicate n (EvSleep 1).
Proof.
  induction n as [| n IH]; intros polls k chip Hn Hz Hl;
    (destruct polls as [| polls]; [lia |]); cbn [wait_clock_lock];
    rewrite read_hw_present.
  - rewrite Nat.add_0_r in Hl. rewrite (proj2 (Z.eqb_neq _ _) Hl).
    cbn [fst snd hw_present trace replicate]. by rewrite app_nil_r.
  - assert (H0 : u32 (hw_locked k) = 0).
    { rewrite <- (Nat.add_0_r k). apply Hz. lia. }
    rewrite H0. change (0 =? 0) with true. cbv iota.
    destruct (IH polls (S k)
                (emit (EvSleep 1)
                   (hw_present REG_STATUS_LOCKED (hw_locked k) chip)))
      as [Hf Ht].
    + lia.
    + intros j Hj. replace (S k + j)%nat with (k + S j)%nat by lia.
      apply Hz. lia.
    + by replace (S k + n)%nat with (k + S n)%nat by lia.
    + split; [exact Hf |]. rewrite Ht.
      cbn [trace emit hw_present replicate]. by rewrite <- app_assoc.
Qed.

(** The wait touches neither the streams nor the statistics. *)
Lemma wait_clock_lock_frame hw_locked : forall polls k chip,
  playback (snd (wait_clock_lock hw_locked polls k chip)) = playback chip /\
  capture (snd (wait_clock_lock hw_locked polls k chip)) = capture chip /\
  stats (snd (wait_clock_lock hw_locked polls k chip)) = stats chip.
Proof.
  induction polls as [| polls IH]; intros k chip; cbn [wait_clock_lock];
    [done |].
  destruct (_ =? 0); [| done].
  destruct (IH (S k)
              (emit (EvSleep 1)
                 (hw_present REG_STATUS_LOCKED (hw_locked k) chip)))
    as (Hp & Hc & Hs).
  by rewrite Hp, Hc, Hs.
Qed.

(** X17.  The locked path of bring-up.  When the lock register reads
    zero at the first [n] polls and non-zero at the next one, inside the
    wait, bring-up returns 0 after exactly [n] sleeps in the wait, writes
    the PCIe configuration word and then clears the three status
    registers, in this order; no warning is logged.  The link-speed
    field is merged at bit 24 into a word whose max-payload field
    already sets bit 25. *)
Theorem init_hw_locked_at_poll cfg pcfg st hw_locked polls n chip :
  (n < polls)%nat ->
  (forall j, (j < n)%nat -> u32 (hw_locked j) = 0) ->
  u32 (hw_locked n) <> 0 ->
  fst (pcie_audio_init_hw cfg pcfg st hw_locked polls chip) = 0 /\
  emitted chip (snd (pcie_audio_init_hw cfg pcfg st hw_locked polls chip))
  = [ EvWrite REG_CTRL_RESET 1; EvSleep 1;
      EvWrite REG_CTRL_RESET 0; EvSleep 1;
      EvWrite cfg 0x02000103;
      EvWrite REG_DMA_PB_THRESHOLD 1024;
      EvWrite REG_DMA_CAP_THRESHOLD 1024;
      EvWrite REG_CTRL_FORMAT 0x1807;
      EvWrite REG_CTRL_SYNC_TIMEOUT 0xBB800001 ]
    ++ replicate n (EvSleep 1)
    ++ [ EvWrite pcfg (u32 (Z.lor (u32 (Z.shiftl st 24)) 0x02000101));
         EvWrite REG_STATUS_PB_UNDERRUN 0xFFFFFFFF;
         EvWrite REG_STATUS_CAP_OVERRUN 0xFFFFFFFF;
         EvWrite REG_STATUS_DMA_ERROR 0xFFFFFFFF ].
Proof.
  intros Hn Hz Hl. unfold pcie_audio_init_hw.
  match goal with
  | |- context [wait_clock_lock _ polls 0%nat ?c] =>
      destruct (wait_clock_lock_locks hw_locked n polls 0%nat c Hn Hz Hl)
        as [Hf Ht];
      destruct (wait_clock_lock hw_locked polls 0%nat c) as [locked c']
  end.
  cbn [fst snd] in Hf, Ht. subst locked. cbn [negb fst snd].
  split; [reflexivity |].
  apply emitted_app. cbn [trace pcie_audio_write]. rewrite Ht.
  cbn [trace pcie_audio_write emit]. rewrite <- !app_assoc. cbn [app].
  f_equal. repeat (apply (f_equal2 cons); [reflexivity |]).
  f_equal. apply (f_equal2 cons); [| reflexivity]. do 2 f_equal.
  rewrite Z.lor_0_l, <- !Z.lor_assoc. reflexivity.
Qed.

Lemma init_hw_locked_at_poll_witness :
  emitted chip0
    (snd (pcie_audio_init_hw EXAMPLE_REG_DMA_CONFIG EXAMPLE_REG_PCIE_CONFIG 0
            (fun k => if (k <? 2)%nat then 0 else 1) 1000 chip0))
  = [ EvWrite REG_CTRL_RESET 1; EvSleep 1;
      EvWrite REG_CTRL_RESET 0; EvSleep 1;
      EvWrite EXAMPLE_REG_DMA_CONFIG 0x02000103;
      EvWrite REG_DMA_PB_THRESHOLD 1024;
      EvWrite REG_DMA_CAP_THRESHOLD 1024;
      EvWrite REG_CTRL_FORMAT 0x1807;
      EvWrite REG_CTRL_SYNC_TIMEOUT 0xBB800001 ]
    ++ replicate 2 (EvSleep 1)
    ++ [ EvWrite EXAMPLE_REG_PCIE_CONFIG
           (u32 (Z.lor (u32 (Z.shiftl 0 24)) 0x02000101));
         EvWrite REG_STATUS_PB_UNDERRUN 0xFFFFFFFF;
         EvWrite REG_STATUS_CAP_OVERRUN 0xFFFFFFFF;
         EvWrite REG_STATUS_DMA_ERROR 0xFFFFFFFF ].
Proof.
  assert (H1 : (2 < 1000)%nat) by lia.
  assert (H2 : forall j, (j < 2)%nat ->
                 u32 ((fun k => if (k <? 2)%nat then 0 else 1) j) = 0).
  { intros j Hj. cbv beta. by rewrite (proj2 (Nat.ltb_lt j 2) Hj). }
  assert (H3 : u32 ((fun k => if (k <? 2)%nat then 0 else 1) 2%nat) <> 0)
    by (vm_compute; discriminate).
  exact (proj2 (init_hw_locked_at_poll
                  EXAMPLE_REG_DMA_CONFIG EXAMPLE_REG_PCIE_CONFIG 0
                  (fun k => if (k <? 2)%nat then 0 else 1) 1000 2 chip0
                  H1 H2 H3)).
Defined.

(** X18.  Bring-up cannot fail and works on the registers only: whatever
    the lock register shows and however long the wait lasts, it returns
    0 and leaves both streams and the statistics as they were. *)
Theorem init_hw_never_fails cfg pcfg st hw_locked polls chip :
  fst (pcie_audio_init_hw cfg pcfg st hw_locked polls chip) = 0 /\
  playback (snd (pcie_audio_init_hw cfg pcfg st hw_locked polls chip))
    = playback chip /\
  capture (snd (pcie_audio_init_hw cfg pcfg st hw_locked polls chip))
    = capture chip /\
  stats (snd (pcie_audio_init_hw cfg pcfg st hw_locked polls chip))
    = stats chip.
Proof.
  unfold pcie_audio_init_hw.
  match goal with
  | |- context [wait_clock_lock _ polls 0%nat ?c] =>
      destruct (wait_clock_lock_frame hw_locked polls 0%nat c)
        as (Hp & Hc & Hs);
      destruct (wait_clock_lock hw_locked polls 0%nat c) as [locked c']
  end.
  cbn [fst snd] in Hp, Hc, Hs.
  destruct locked; cbn [negb fst snd pcie_audio_write emit playback capture
                          stats];
    rewrite Hp, Hc, Hs; done.
Qed.

(** ** Mixer controls *)

Lemma land_1_cases x : Z.land x 1 = 0 \/ Z.land x 1 = 1.
Proof.
  change 1 with (Z.ones 1) at 1 2. rewrite Z.land_ones by lia.
  change (2 ^ 1) with 2. pose proof (Z.mod_pos_bound x 2). lia.
Qed.

(** X19.  The Master Mode switch keeps bit 0 of the value it is given:
    a put always reports a change, writes the bound register only, and a
    get then returns that bit. *)
Theorem master_mode_put_get value chip :
  fst (master_mode_put REG_CTRL_MASTER_MODE value chip) = 1 /\
  master_mode_get REG_CTRL_MASTER_MODE
    (snd (master_mode_put REG_CTRL_MASTER_MODE value chip))
  = Z.land value 1 /\
  forall reg,
    reg <> REG_CTRL_MASTER_MODE ->
    pcie_audio_read (snd (master_mode_put REG_CTRL_MASTER_MODE value chip)) reg
    = pcie_audio_read chip reg.
Proof.
  unfold master_mode_put, master_mode_get. cbn [fst snd].
  split; [reflexivity |]. split.
  - rewrite read_write_eq by reflexivity. rewrite u32_idem.
    destruct (land_1_cases value) as [-> | ->]; reflexivity.
  - intros reg Hreg. apply read_write_ne. congruence.
Qed.

(** X20.  The Clock Source control: an item of 3 or more is refused with
    -EINVAL and leaves the chip as it was; an item below 3 is written to
    the clock-source register and read back by a get. *)
Theorem clock_source_put_get item chip :
  clock_source_put REG_CTRL_CLOCK_SRC item chip
  = (if 3 <=? u32 item then (- EINVAL, chip)
     else (1, snd (clock_source_put REG_CTRL_CLOCK_SRC item chip))) /\
  clock_source_get REG_CTRL_CLOCK_SRC
    (snd (clock_source_put REG_CTRL_CLOCK_SRC item chip))
  = if 3 <=? u32 item then clock_source_get REG_CTRL_CLOCK_SRC chip
    else u32 item.
Proof.
  unfold clock_source_put, clock_source_get.
  pose proof (u32_range item) as Hr.
  destruct (3 <=? u32 item) eqn:E; cbn [fst snd]; [done |].
  split; [reflexivity |].
  apply Z.leb_gt in E.
  rewrite read_write_eq by reflexivity. rewrite u32_idem.
  assert (Hc : u32 item = 0 \/ u32 item = 1 \/ u32 item = 2) by lia.
  destruct Hc as [-> | [-> | ->]]; reflexivity.
Qed.

(** X21.  The Sample Rate control: the table of [rate_put] and the
    switch of [rate_get] are inverse to each other.  An item below 6 is
    accepted and read back as the same item; an item of 6 or more is
    refused with -EINVAL and leaves the chip as it was. *)
Theorem rate_put_get item chip :
  rate_put item chip
  = (if 6 <=? u32 item then (- EINVAL, chip)
     else (1, snd (rate_put item chip))) /\
  rate_get (snd (rate_put item chip))
  = if 6 <=? u32 item then rate_get chip else u32 item.
Proof.
  unfold rate_put, rate_get.
  pose proof (u32_range item) as Hr.
  destruct (6 <=? u32 item) eqn:E; cbn [fst snd]; [done |].
  split; [reflexivity |].
  apply Z.leb_gt in E.
  rewrite read_write_eq by reflexivity.
  assert (Hc : u32 item = 0 \/ u32 item = 1 \/ u32 item = 2 \/
               u32 item = 3 \/ u32 item = 4 \/ u32 item = 5) by lia.
  destruct Hc as [-> | [-> | [-> | [-> | [-> | ->]]]]]; reflexivity.
Qed.

(** X22.  The Sample Rate control after a configure.  [hw_params] stores
    the stream's rate in the target-rate register as it is; the control
    reads a rate of its table back as that rate's item, and any other
    rate as item 1, that is as 48000 Hz. *)
Theorem rate_get_after_hw_params
    mem malloc_pages ring_alloc ssp params chip chip' :
  pcie_audio_hw_params mem malloc_pages ring_alloc ssp params chip
    = Some (0, chip') ->
  0 <= params_rate params < 2 ^ 32 ->
  (In (params_rate params) rates ->
   nth (Z.to_nat (rate_get chip')) rates 0 = params_rate params) /\
  (~ In (params_rate params) rates -> rate_get chip' = 1).
Proof.
  intros H Hr.
  destruct (hw_params_registers _ _ _ _ _ _ _ H) as (_ & _ & Hrate).
  rewrite u32_small in Hrate by exact Hr.
  unfold rate_get. rewrite Hrate.
  set (r := params_rate params) in *. split.
  - intros Hin. cbn [In rates] in Hin.
    destruct Hin as [<- | [<- | [<- | [<- | [<- | [<- | []]]]]]];
      reflexivity.
  - intros Hnin.
    repeat match goal with
    | |- context [r =? ?c] =>
        destruct (Z.eqb_spec r c) as [Heq | _];
          [exfalso; apply Hnin; rewrite Heq; cbn; tauto |]
    end.
    reflexivity.
Qed.

Lemma rate_get_after_hw_params_witness :
  exists chip',
    pcie_audio_hw_params mem_4096x8 0 (Some 0x2000) 0%nat (params_of 2 32000 32)
        chip_open_playback = Some (0, chip') /\
    rate_get chip' = 1.
Proof.
  destruct (hw_params_succeeds mem_4096x8 0 0x2000 0%nat (params_of 2 32000 32)
              chip_open_playback) as [chip' H].
  { lia. }
  { vm_compute. by eexists. }
  exists chip'. split; [exact H |].
  assert (Hr : 0 <= params_rate (params_of 2 32000 32) < 2 ^ 32)
    by (cbn; lia).
  apply (proj2 (rate_get_after_hw_params _ _ _ _ _ _ _ H Hr)).
  cbn. intros Hin.
  repeat (destruct Hin as [Hin | Hin]; [discriminate Hin |]). exact Hin.
Defined.

Lemma format_put_bits item chip n :
  0 <= n < 32 ->
  Z.testbit (pcie_audio_read (snd (format_put item chip)) REG_CTRL_FORMAT) n
  = if n =? 31 then Z.testbit item 0
    else Z.testbit (pcie_audio_read chip REG_CTRL_FORMAT) n.
Proof.
  intros Hn. unfold format_put. cbn [snd].
  rewrite read_write_eq by reflexivity.
  set (v := pcie_audio_read chip REG_CTRL_FORMAT).
  rewrite testbit_u32, Z.lor_spec, Z.land_spec, !testbit_u32 by lia.
  rewrite Z.lnot_spec by lia.
  destruct (Z.eqb_spec n 31) as [-> | Hne].
  - change (Z.testbit (Z.shiftl 1 31) 31) with true.
    rewrite andb_false_r. cbn [orb negb].
    rewrite (Z.shiftl_spec (Z.land item 1)) by lia.
    change (31 - 31) with 0. rewrite Z.land_spec.
    change (Z.testbit 1 0) with true. by rewrite andb_true_r.
  - rewrite (Z.shiftl_spec_low (Z.land item 1)) by lia.
    rewrite orb_false_r.
    rewrite (Z.shiftl_spec_low 1) by lia.
    by rewrite andb_true_r.
Qed.

(** X23.  The Format control flips bit 31 only: a put writes bit 0 of
    the item to the DSD flag and keeps bits 0 to 30 of the format
    register, so channel count and bit depth survive; a get then returns
    that bit. *)
Theorem format_put_get item chip :
  fst (format_put item chip) = 1 /\
  format_get (snd (format_put item chip)) = Z.land item 1 /\
  Z.land (pcie_audio_read (snd (format_put item chip)) REG_CTRL_FORMAT)
    0x7FFFFFFF
  = Z.land (pcie_audio_read chip REG_CTRL_FORMAT) 0x7FFFFFFF.
Proof.
  split; [reflexivity |]. split.
  - unfold format_get. apply Z.bits_inj'. intros n Hn.
    rewrite !Z.land_spec, Z.shiftr_spec by lia.
    destruct (Z.eq_dec n 0) as [-> | Hn0].
    + rewrite format_put_bits by lia. reflexivity.
    + replace (Z.testbit 1 n) with false; [by rewrite !andb_false_r |].
      symmetry. apply testbit_small; [| lia].
      split; [lia |]. apply (Z.pow_lt_mono_r 2 0 n); lia.
  - apply Z.bits_inj'. intros n Hn. rewrite !Z.land_spec.
    change 2147483647 with (Z.ones 31).
    destruct (Z_lt_dec n 31) as [Hlt | Hge].
    + rewrite format_put_bits by lia.
      by rewrite (proj2 (Z.eqb_neq n 31)) by lia.
    + rewrite Z.ones_spec_high by lia. by rewrite !andb_false_r.
Qed.

(** X24.  The items the enumerated [info] callbacks hand out are valid.
    Whatever item is asked for, the index into the name table lies
    inside the table (3, 6 and 2 names); an item that is in range is
    kept as it is; and the Clock Source and Sample Rate puts accept
    every item their [info] hands out. *)
Theorem info_items_are_valid item chip :
  0 <= clock_source_info item < 3 /\
  0 <= rate_info item < 6 /\
  0 <= format_info item < 2 /\
  (forall x, 0 <= x < 3 -> clock_source_info x = x) /\
  (forall x, 0 <= x < 6 -> rate_info x = x) /\
  (forall x, 0 <= x < 2 -> format_info x = x) /\
  fst (clock_source_put REG_CTRL_CLOCK_SRC (clock_source_info item) chip) = 1 /\
  fst (rate_put (rate_info item) chip) = 1.
Proof.
  pose proof (u32_range item) as Hr.
  assert (Hcs : 0 <= clock_source_info item < 3).
  { unfold clock_source_info. destruct (Z.leb_spec 3 (u32 item)); lia. }
  assert (Hrt : 0 <= rate_info item < 6).
  { unfold rate_info. destruct (Z.leb_spec 6 (u32 item)); lia. }
  assert (Hfm : 0 <= format_info item < 2).
  { unfold format_info. destruct (Z.leb_spec 2 (u32 item)); lia. }
  assert (Hkeep3 : forall x, 0 <= x < 3 -> clock_source_info x = x).
  { intros x Hx. unfold clock_source_info. rewrite u32_small by lia.
    destruct (Z.leb_spec 3 x); lia. }
  assert (Hkeep6 : forall x, 0 <= x < 6 -> rate_info x = x).
  { intros x Hx. unfold rate_info. rewrite u32_small by lia.
    destruct (Z.leb_spec 6 x); lia. }
  assert (Hkeep2 : forall x, 0 <= x < 2 -> format_info x = x).
  { intros x Hx. unfold format_info. rewrite u32_small by lia.
    destruct (Z.leb_spec 2 x); lia. }
  do 3 (split; [lia |]). do 3 (split; [assumption |]). split.
  - unfold clock_source_put. rewrite u32_small by lia.
    destruct (Z.leb_spec 3 (clock_source_info item)); [lia | reflexivity].
  - unfold rate_put. rewrite u32_small by lia.
    destruct (Z.leb_spec 6 (rate_info item)); [lia | reflexivity].
Qed.

Lemma create_controls_loop_spec ctl_add : forall n i,
  let r := create_controls_loop ctl_add n i in
  (fst r = 0 /\ snd r = (i + n)%nat /\
   forall j, (i <= j < i + n)%nat -> 0 <= ctl_add j) \/
  (fst r < 0 /\ (i < snd r <= i + n)%nat /\
   fst r = ctl_add (Nat.pred (snd r)) /\
   forall j, (i <= j < Nat.pred (snd r))%nat -> 0 <= ctl_add j).
Proof.
  induction n as [| n IH]; intros i; cbn [create_controls_loop].
  - left. cbn [fst snd]. repeat split; [lia |]. intros j Hj. lia.
  - destruct (ctl_add i <? 0) eqn:E.
    + right. apply Z.ltb_lt in E. cbn [fst snd Nat.pred].
      repeat split; [exact E | lia | lia |]. intros j Hj. lia.
    + apply Z.ltb_ge in E.
      destruct (IH (S i)) as [(H0 & Hs & Hall) | (Hneg & Hs & He & Hall)].
      * left. repeat split; [exact H0 | lia |].
        intros j Hj'. destruct (Nat.eq_dec j i) as [-> | Hne]; [exact E |].
        apply Hall. lia.
      * right. repeat split; [exact Hneg | lia | lia | exact He |].
        intros j Hj'. destruct (Nat.eq_dec j i) as [-> | Hne]; [exact E |].
        apply Hall. lia.
Qed.

(** X25.  Control creation adds the four controls in order and stops at
    the first one the sound core refuses: it returns 0 after four
    additions when none fails, and otherwise the error of the first
    failing addition, with no addition attempted after it. *)
Theorem create_controls_stops_at_first_error ctl_add :
  (fst (pcie_audio_create_controls ctl_add) = 0 /\
   snd (pcie_audio_create_controls ctl_add) = 4%nat /\
   forall j, (j < 4)%nat -> 0 <= ctl_add j) \/
  (fst (pcie_audio_create_controls ctl_add) < 0 /\
   (0 < snd (pcie_audio_create_controls ctl_add) <= 4)%nat /\
   fst (pcie_audio_create_controls ctl_add)
   = ctl_add (Nat.pred (snd (pcie_audio_create_controls ctl_add))) /\
   forall j, (j < Nat.pred (snd (pcie_audio_create_controls ctl_add)))%nat ->
     0 <= ctl_add j).
Proof.
  unfold pcie_audio_create_controls.
  destruct (create_controls_loop_spec ctl_add 4 0)
    as [(H0 & Hs & Hall) | (Hneg & Hs & He & Hall)].
  - left. repeat split; [exact H0 | exact Hs |]. intros j Hj. apply Hall. lia.
  - right. repeat split; [exact Hneg | lia | lia | exact He |].
    intros j Hj. apply Hall. lia.
Qed.

(** ** Interrupt line *)

(** X26.  Interrupt setup follows the answers of the PCI core.  It asks
    for MSI-X vectors first, for an MSI vector exactly when that failed
    and for a legacy interrupt exactly when both failed.  The handler is
    registered exactly when one of the attempts was granted, and the
    vectors are released again exactly when that registration failed.
    The call returns 0 exactly when an attempt was granted and the
    registration succeeded, and then both interrupt enables read 0;
    otherwise it returns the error of the legacy attempt or of the
    registration, negative, and has changed no register. *)
Theorem setup_irq_result env chip :
  hd_error (snd (pcie_audio_setup_irq env chip))
    = Some (CoreAllocVectors 1 8 PCI_IRQ_MSIX) /\
  (In (CoreAllocVectors 1 1 PCI_IRQ_MSI) (snd (pcie_audio_setup_irq env chip))
   <-> alloc_msix env < 0) /\
  (In (CoreAllocVectors 1 1 PCI_IRQ_LEGACY)
      (snd (pcie_audio_setup_irq env chip))
   <-> alloc_msix env < 0 /\ alloc_msi env < 0) /\
  (In (CoreRequestIrq (negb (pci_irq env =? 0)))
      (snd (pcie_audio_setup_irq env chip))
   <-> irq_allocated env) /\
  (In CoreFreeVectors (snd (pcie_audio_setup_irq env chip))
   <-> irq_allocated env /\ request_irq_ret env < 0) /\
  (fst (fst (pcie_audio_setup_irq env chip)) = 0
   <-> irq_allocated env /\ 0 <= request_irq_ret env) /\
  (~ irq_allocated env ->
   fst (fst (pcie_audio_setup_irq env chip)) = alloc_legacy env) /\
  (irq_allocated env -> request_irq_ret env < 0 ->
   fst (fst (pcie_audio_setup_irq env chip)) = request_irq_ret env /\
   last (snd (pcie_audio_setup_irq env chip)) = Some CoreFreeVectors) /\
  (fst (fst (pcie_audio_setup_irq env chip)) = 0 ->
   pcie_audio_read (snd (fst (pcie_audio_setup_irq env chip)))
     REG_DMA_PB_IRQ_EN = 0 /\
   pcie_audio_read (snd (fst (pcie_audio_setup_irq env chip)))
     REG_DMA_CAP_IRQ_EN = 0 /\
   last (snd (pcie_audio_setup_irq env chip))
   = Some (CoreRequestIrq (negb (pci_irq env =? 0)))) /\
  (fst (fst (pcie_audio_setup_irq env chip)) <> 0 ->
   fst (fst (pcie_audio_setup_irq env chip)) < 0 /\
   snd (fst (pcie_audio_setup_irq env chip)) = chip).
Proof.
  unfold pcie_audio_setup_irq, irq_allocated.
  assert (Hpb : forall c,
            pcie_audio_read
              (pcie_audio_write REG_DMA_CAP_IRQ_EN 0
                 (pcie_audio_write REG_DMA_PB_IRQ_EN 0 c))
              REG_DMA_PB_IRQ_EN = 0)
    by (intros c; by read_after_writes).
  assert (Hcap : forall c,
            pcie_audio_read
              (pcie_audio_write REG_DMA_CAP_IRQ_EN 0
                 (pcie_audio_write REG_DMA_PB_IRQ_EN 0 c))
              REG_DMA_CAP_IRQ_EN = 0)
    by (intros c; by read_after_writes).
  destruct (alloc_msix env <? 0) eqn:E1;
    [destruct (alloc_msi env <? 0) eqn:E2;
     [destruct (alloc_legacy env <? 0) eqn:E3 |] |];
    rewrite ?E1, ?E2, ?E3;
    try destruct (request_irq_ret env <? 0) eqn:E4;
    repeat match goal with
    | H : (_ <? _) = true |- _ => apply Z.ltb_lt in H
    | H : (_ <? _) = false |- _ => apply Z.ltb_ge in H
    end;
    cbn [fst snd app In last hd_error];
    rewrite ?Hpb, ?Hcap;
    repeat match goal with |- _ /\ _ => split end;
    try reflexivity;
    intuition (first [congruence | lia]).
Qed.

(** ** Removal and power management *)

(** X27.  Removal quiesces the device and leaves it held in reset: after
    it both directions and both interrupt enables read 0 and the reset
    register reads 1.  It works on registers only: the streams keep
    their rings and sessions, and its events are seven register writes
    and a sleep, none of them the release of a ring. *)
Theorem remove_quiesces chip :
  pcie_audio_read (fst (pcie_audio_remove chip)) REG_CTRL_PB_ENABLE = 0 /\
  pcie_audio_read (fst (pcie_audio_remove chip)) REG_CTRL_CAP_ENABLE = 0 /\
  pcie_audio_read (fst (pcie_audio_remove chip)) REG_DMA_PB_IRQ_EN = 0 /\
  pcie_audio_read (fst (pcie_audio_remove chip)) REG_DMA_CAP_IRQ_EN = 0 /\
  pcie_audio_read (fst (pcie_audio_remove chip)) REG_CTRL_RESET = 1 /\
  playback (fst (pcie_audio_remove chip)) = playback chip /\
  capture (fst (pcie_audio_remove chip)) = capture chip /\
  emitted chip (fst (pcie_audio_remove chip))
  = [ EvWrite REG_CTRL_PB_ENABLE 0; EvWrite REG_CTRL_CAP_ENABLE 0;
      EvWrite REG_DMA_PB_IRQ_EN 0; EvWrite REG_DMA_CAP_IRQ_EN 0;
      EvWrite REG_CTRL_RESET 1; EvSleep 1;
      EvWrite REG_DMA_PB_IRQ_EN 0; EvWrite REG_DMA_CAP_IRQ_EN 0 ].
Proof.
  unfold pcie_audio_remove, pcie_audio_free_irq. cbn [fst snd].
  do 5 (split; [by read_after_writes |]).
  split; [reflexivity |]. split; [reflexivity |].
  apply emitted_app. cbn [trace pcie_audio_write emit].
  by rewrite <- !app_assoc.
Qed.

Lemma read_hw_present_ne reg reg' v chip :
  reg <> reg' ->
  pcie_audio_read (hw_present reg v chip) reg' = pcie_audio_read chip reg'.
Proof.
  intros H. unfold pcie_audio_read, hw_present, readl. cbn [reg_base].
  by rewrite lookup_insert_ne.
Qed.

(** The wait changes no register but the lock register it polls. *)
Lemma wait_clock_lock_reads hw_locked reg :
  reg <> REG_STATUS_LOCKED ->
  forall polls k chip,
    pcie_audio_read (snd (wait_clock_lock hw_locked polls k chip)) reg
    = pcie_audio_read chip reg.
Proof.
  intros Hreg. induction polls as [| polls IH]; intros k chip;
    cbn [wait_clock_lock]; [done |].
  destruct (_ =? 0); cbn [snd].
  - rewrite IH, read_emit. by apply read_hw_present_ne.
  - by apply read_hw_present_ne.
Qed.

(** Bring-up leaves the default capture threshold behind. *)
Lemma init_hw_cap_threshold cfg pcfg st hw_locked polls chip :
  pcfg <> REG_DMA_CAP_THRESHOLD ->
  pcie_audio_read (snd (pcie_audio_init_hw cfg pcfg st hw_locked polls chip))
    REG_DMA_CAP_THRESHOLD = 1024.
Proof.
  intros Hp. unfold pcie_audio_init_hw.
  match goal with
  | |- context [wait_clock_lock _ polls 0%nat ?c] =>
      pose proof (wait_clock_lock_reads hw_locked REG_DMA_CAP_THRESHOLD
                    ltac:(done) polls 0%nat c) as Hw;
      assert (Hc : pcie_audio_read c REG_DMA_CAP_THRESHOLD = 1024)
        by (by read_after_writes);
      destruct (wait_clock_lock hw_locked polls 0%nat c) as [locked c']
  end.
  cbn [snd] in Hw. rewrite Hc in Hw.
  destruct locked; cbn [negb snd].
  - do 3 (rewrite read_write_ne by done).
    by rewrite read_write_ne by done.
  - by rewrite read_emit.
Qed.

(** X28.  Suspend and resume.  The format, sample-family, master-mode
    and playback-threshold registers read after resume what they read at
    suspend, whatever the device holds when it comes back.  The capture
    threshold is not among the saved registers: after resume it reads
    the bring-up default of 1024, whatever it was at suspend. *)
Theorem suspend_resume_registers
    cfg pcfg st hw_locked polls saved0 chip chip_back
    (saved := snd (fst (pcie_audio_suspend saved0 chip)))
    (chip' := snd (fst (pcie_audio_resume cfg pcfg st hw_locked polls saved
                          chip_back))) :
  pcfg <> REG_DMA_CAP_THRESHOLD ->
  pcie_audio_read chip' REG_CTRL_FORMAT
    = pcie_audio_read chip REG_CTRL_FORMAT /\
  pcie_audio_read chip' REG_CTRL_SAMPLE_FAMILY
    = pcie_audio_read chip REG_CTRL_SAMPLE_FAMILY /\
  pcie_audio_read chip' REG_CTRL_MASTER_MODE
    = pcie_audio_read chip REG_CTRL_MASTER_MODE /\
  pcie_audio_read chip' REG_DMA_PB_THRESHOLD
    = pcie_audio_read chip REG_DMA_PB_THRESHOLD /\
  pcie_audio_read chip' REG_DMA_CAP_THRESHOLD = 1024.
Proof.
  intros Hp. subst chip' saved.
  unfold pcie_audio_resume, pcie_audio_suspend.
  cbn [fst snd ctrl_format ctrl_sample_family ctrl_master_mode dma_config].
  pose proof (init_hw_cap_threshold cfg pcfg st hw_locked polls chip_back Hp)
    as Hcap.
  set (c := snd (pcie_audio_init_hw cfg pcfg st hw_locked polls chip_back))
    in *.
  assert (Hu : forall reg, u32 (pcie_audio_read chip reg)
                           = pcie_audio_read chip reg).
  { intros reg. apply u32_small, read_range. }
  repeat split; read_after_writes; rewrite ?Hu; done.
Qed.

Lemma suspend_resume_registers_witness :
  pcie_audio_read
    (snd (fst (pcie_audio_resume EXAMPLE_REG_DMA_CONFIG EXAMPLE_REG_PCIE_CONFIG
                 0 (fun _ => 1) 1000
                 (snd (fst (pcie_audio_suspend
                              {| ctrl_format := 0; ctrl_sample_family := 0;
                                 ctrl_master_mode := 0; dma_config := 0;
                                 clock_config := 0; threshold_config := 0 |}
                              (chip_after calls_playback_start))))
                 chip0)))
    REG_DMA_PB_THRESHOLD
  = pcie_audio_read (chip_after calls_playback_start) REG_DMA_PB_THRESHOLD.
Proof.
  assert (H1 : EXAMPLE_REG_PCIE_CONFIG <> REG_DMA_CAP_THRESHOLD)
    by discriminate.
  exact (proj1 (proj2 (proj2 (proj2
           (suspend_resume_registers
              EXAMPLE_REG_DMA_CONFIG EXAMPLE_REG_PCIE_CONFIG 0 (fun _ => 1)
              1000
              {| ctrl_format := 0; ctrl_sample_family := 0;
                 ctrl_master_mode := 0; dma_config := 0;
                 clock_config := 0; threshold_config := 0 |}
              (chip_after calls_playback_start) chip0 H1))))).
Defined.
